(** * Date parsing and recency filtering of the WebScrapper spiders

    A shallow embedding of the date handling of the Scrapy spiders
    [bankinform], [plusworld] and [rb], and of the records the five spiders
    emit.  Python values are modelled as follows:

    - [str] is a list of Unicode code points ([N]), as Python's [str] is;
    - [int] is [Z];
    - [None]-able values are [option];
    - a raised exception is the [Raise] branch of [result]; a
      [try: ... except Exception: return None] block is [try_except];
    - [datetime.now()] and the interpreter's integer string conversion
      limit are read from an explicit interpreter record [interp]. *)

From Stdlib Require Import String Ascii.
From Stdlib Require Import List NArith ZArith Bool Lia.
Import ListNotations.

Set Implicit Arguments.

(** ** Python runtime: strings, Unicode tables, exceptions *)

Module Py.

Definition str := list N.

(** Decoding of the UTF-8 bytes of a literal of this file into code points,
    so that the literals of the spiders can be written as they are in the
    source files. *)
Fixpoint utf8_decode (bs : list N) : str :=
  match bs with
  | [] => []
  | b0 :: t0 =>
      if (b0 <? 128)%N then b0 :: utf8_decode t0
      else if (b0 <? 224)%N then
        match t0 with
        | b1 :: t1 => ((b0 - 192) * 64 + (b1 - 128))%N :: utf8_decode t1
        | _ => []
        end
      else if (b0 <? 240)%N then
        match t0 with
        | b1 :: b2 :: t2 =>
            ((b0 - 224) * 4096 + (b1 - 128) * 64 + (b2 - 128))%N
              :: utf8_decode t2
        | _ => []
        end
      else
        match t0 with
        | b1 :: b2 :: b3 :: t3 =>
            ((b0 - 240) * 262144 + (b1 - 128) * 4096
             + (b2 - 128) * 64 + (b3 - 128))%N :: utf8_decode t3
        | _ => []
        end
  end.

Definition u8 (s : string) : str :=
  utf8_decode (map N_of_ascii (list_ascii_of_string s)).
Arguments u8 s%_string.

(** The code point of a literal of one character. *)
Definition chr (s : string) : N := hd 0%N (u8 s).
Arguments chr s%_string.

(** Exceptions the modelled code can raise; all are subclasses of
    [Exception]. *)
Inductive exn := ValueError | OverflowError | ReError.

Inductive result (A : Type) :=
| Ok (a : A)
| Raise (e : exn).
Arguments Ok {A} a.
Arguments Raise {A} e.

Definition bind {A B} (x : result A) (f : A -> result B) : result B :=
  match x with
  | Ok a => f a
  | Raise e => Raise e
  end.

Declare Scope py_scope.
Delimit Scope py_scope with py.
Notation "x <- e ;; k" := (bind e (fun x => k))
  (at level 61, e at next level, right associativity) : py_scope.

(** [try: body  except Exception: return None] *)
Definition try_except {A} (body : result (option A)) : option A :=
  match body with
  | Ok r => r
  | Raise _ => None
  end.

(** *** Unicode tables (Unicode 14, CPython 3.11) *)

Definition in_range (lo hi c : N) : bool := ((lo <=? c) && (c <=? hi))%N.

(** [str.isspace] on one code point, which is also the class [\s] of a
    [str] pattern. *)
Definition isspace (c : N) : bool :=
  in_range 0x9 0xd c || in_range 0x1c 0x20 c || (c =? 0x85)%N
  || (c =? 0xa0)%N || (c =? 0x1680)%N || in_range 0x2000 0x200a c
  || in_range 0x2028 0x2029 c || (c =? 0x202f)%N || (c =? 0x205f)%N
  || (c =? 0x3000)%N.

(** The code points of the digit zero of every block of decimal digits
    (general category Nd); the digits one to nine follow each of them. *)
Definition decimal_zeros : list N :=
  [0x30; 0x660; 0x6f0; 0x7c0; 0x966; 0x9e6; 0xa66; 0xae6; 0xb66; 0xbe6; 0xc66;
   0xce6; 0xd66; 0xde6; 0xe50; 0xed0; 0xf20; 0x1040; 0x1090; 0x17e0; 0x1810;
   0x1946; 0x19d0; 0x1a80; 0x1a90; 0x1b50; 0x1bb0; 0x1c40; 0x1c50; 0xa620;
   0xa8d0; 0xa900; 0xa9d0; 0xa9f0; 0xaa50; 0xabf0; 0xff10; 0x104a0; 0x10d30;
   0x11066; 0x110f0; 0x11136; 0x111d0; 0x112f0; 0x11450; 0x114d0; 0x11650;
   0x116c0; 0x11730; 0x118e0; 0x11950; 0x11c50; 0x11d50; 0x11da0; 0x16a60;
   0x16ac0; 0x16b50; 0x1d7ce; 0x1d7d8; 0x1d7e2; 0x1d7ec; 0x1d7f6; 0x1e140;
   0x1e2f0; 0x1e950; 0x1fbf0]%N.

(** [Py_UNICODE_TODECIMAL]: the value of a decimal digit. *)
Fixpoint decimal_in (zeros : list N) (c : N) : option Z :=
  match zeros with
  | [] => None
  | z :: zs =>
      if in_range z (z + 9) c then Some (Z.of_N (c - z))
      else decimal_in zs c
  end.

Definition todecimal (c : N) : option Z := decimal_in decimal_zeros c.

(** The class [\d] of a [str] pattern. *)
Definition isdigit (c : N) : bool :=
  match todecimal c with Some _ => true | None => false end.

(** [Py_UNICODE_TOLOWER] on the blocks the literals of the spiders are
    drawn from: Basic Latin, Latin-1, Greek, Cyrillic and the letterlike
    symbols that lower into them. *)
Definition tolower (c : N) : N :=
  if in_range 0x41 0x5a c then (c + 0x20)%N
  else if in_range 0xc0 0xde c && negb (c =? 0xd7)%N then (c + 0x20)%N
  else if (c =? 0x130)%N then 0x69%N
  else if in_range 0x391 0x3a9 c && negb (c =? 0x3a2)%N then (c + 0x20)%N
  else if in_range 0x400 0x40f c then (c + 0x50)%N
  else if in_range 0x410 0x42f c then (c + 0x20)%N
  else if (c =? 0x2126)%N then 0x3c9%N
  else if (c =? 0x212a)%N then 0x6b%N
  else if (c =? 0x212b)%N then 0xe5%N
  else c.

(** The lower-case letters that the [re] compiler treats as equal under
    [re.IGNORECASE] although they differ (its table of equivalences), for
    the same blocks. *)
Definition equivalences : list (list N) :=
  [[0x69; 0x131]; [0x73; 0x17f]; [0xb5; 0x3bc]; [0x3c0; 0x3d6];
   [0x432; 0x1c80]; [0x434; 0x1c81]; [0x43e; 0x1c82]; [0x441; 0x1c83];
   [0x442; 0x1c84; 0x1c85]; [0x44a; 0x1c86]]%N.

Definition mem (c : N) (l : list N) : bool := existsb (N.eqb c) l.

Fixpoint fixes_in (tbl : list (list N)) (lo : N) : list N :=
  match tbl with
  | [] => []
  | t :: tbl' => if mem lo t then t else fixes_in tbl' lo
  end.

Definition fixes (lo : N) : list N := fixes_in equivalences lo.

(** [str.lower]; the spiders apply it to a run of the letters а-я and ё
    only. *)
Definition lower (s : str) : str := map tolower s.

(** *** [str] methods *)

Fixpoint lstrip (s : str) : str :=
  match s with
  | c :: s' => if isspace c then lstrip s' else s
  | [] => []
  end.

Definition strip (s : str) : str := rev (lstrip (rev (lstrip s))).

Fixpoint startswith (p s : str) : bool :=
  match p, s with
  | [], _ => true
  | a :: p', b :: s' => (a =? b)%N && startswith p' s'
  | _ :: _, [] => false
  end.

(** [needle in s] *)
Fixpoint contains (needle s : str) : bool :=
  startswith needle s
  || match s with
     | [] => false
     | _ :: s' => contains needle s'
     end.

Fixpoint str_eqb (a b : str) : bool :=
  match a, b with
  | [], [] => true
  | x :: a', y :: b' => (x =? y)%N && str_eqb a' b'
  | _, _ => false
  end.

(** Truth value of an optional string: [None] and [''] are false. *)
Definition truthy (s : option str) : bool :=
  match s with
  | Some (_ :: _) => true
  | _ => false
  end.

(** *** The interpreter state the code reads *)

(** [sys.get_int_max_str_digits()]; [0] when the limit is off or the
    interpreter has none. *)
Definition default_max_str_digits : nat := 4300.

(** [int(s)] for a string of decimal digits, the only strings the spiders
    convert.  Above the limit on the number of digits it raises
    [ValueError]. *)
Fixpoint digits_value (acc : Z) (s : str) : result Z :=
  match s with
  | [] => Ok acc
  | c :: s' =>
      match todecimal c with
      | Some d => digits_value (10 * acc + d) s'
      | None => Raise ValueError
      end
  end.

Definition int (max_str_digits : nat) (s : str) : result Z :=
  match s with
  | [] => Raise ValueError
  | _ =>
      if (640 <? length s) && (0 <? max_str_digits)
         && (max_str_digits <? length s)
      then Raise ValueError
      else digits_value 0 s
  end.

End Py.

(** ** The fragment of Python's [re] the spiders use

    A backtracking matcher in continuation-passing style.  It tries the
    alternatives in the order of Python's engine: a repetition is greedy
    and gives characters back one at a time, an alternation tries its left
    branch first, and [search] reports the leftmost position at which the
    pattern matches. *)

Module Re.
Import Py.

(** An item of a character class. *)
Inductive citem :=
| CLit (c : N)            (* the character itself *)
| CRange (lo hi : N)      (* lo-hi *)
| CDigit                  (* \d *)
| CSpace.                 (* \s *)

Definition cls := list citem.

Inductive regex :=
| REps
| RCls (cs : cls)                               (* one character *)
| RRep (cs : cls) (lo : nat) (hi : option nat)  (* x{lo,hi}; x+ is x{1,} *)
| RCat (r1 r2 : regex)
| RAlt (r1 r2 : regex)
| RGroup (r : regex).                           (* ( ... ) *)

(** Literal text, character by character. *)
Fixpoint lit (s : str) : regex :=
  match s with
  | [] => REps
  | c :: s' => RCat (RCls [CLit c]) (lit s')
  end.

(** [a|b|...]; the list is never empty in the patterns of the spiders. *)
Fixpoint alts (rs : list regex) : regex :=
  match rs with
  | [] => REps
  | [r] => r
  | r :: rs' => RAlt r (alts rs')
  end.

Fixpoint cat (rs : list regex) : regex :=
  match rs with
  | [] => REps
  | [r] => r
  | r :: rs' => RCat r (cat rs')
  end.

(** *** Compilation errors

    The only error the patterns of the spiders can cause: a range whose
    upper end is below its lower end ([re.error: bad character range]). *)
Definition citem_valid (it : citem) : bool :=
  match it with
  | CRange lo hi => (lo <=? hi)%N
  | _ => true
  end.

Fixpoint valid (r : regex) : bool :=
  match r with
  | REps => true
  | RCls cs => forallb citem_valid cs
  | RRep cs _ _ => forallb citem_valid cs
  | RCat r1 r2 => valid r1 && valid r2
  | RAlt r1 r2 => valid r1 && valid r2
  | RGroup r1 => valid r1
  end.

(** *** Matching one character *)

(** Equality of a pattern character [p] and a text character [c] under
    [re.IGNORECASE]: the lowered text character is the lowered pattern
    character or one of its equivalents. *)
Definition ci_eq (p c : N) : bool :=
  let l := tolower c in
  let lp := tolower p in
  (l =? lp)%N || mem l (fixes lp).

(** The code points [lo], [lo+1], ... ([n] of them). *)
Fixpoint enum (lo : N) (n : nat) : list N :=
  match n with
  | O => []
  | S n' => lo :: enum (N.succ lo) n'
  end.

Definition range_points (lo hi : N) : list N :=
  enum lo (N.to_nat (hi + 1 - lo)).

Definition citem_match (ic : bool) (it : citem) (c : N) : bool :=
  match it with
  | CLit p => if ic then ci_eq p c else (c =? p)%N
  | CRange lo hi =>
      if ic then existsb (fun p => ci_eq p c) (range_points lo hi)
      else in_range lo hi c
  | CDigit => isdigit c
  | CSpace => isspace c
  end.

Definition cls_match (ic : bool) (cs : cls) (c : N) : bool :=
  existsb (fun it => citem_match ic it c) cs.

(** *** The matcher *)

Definition can_take (hi : option nat) : bool :=
  match hi with
  | Some O => false
  | _ => true
  end.

Definition dec (hi : option nat) : option nat := option_map pred hi.

Section Matcher.
Variable ic : bool.   (* re.IGNORECASE *)
Variable R : Type.

(** Greedy repetition of one class: take a character when allowed, and
    fall back to stopping here when the rest of the pattern fails. *)
Fixpoint rep (cs : cls) (lo : nat) (hi : option nat) (s : str)
         (k : str -> option R) {struct s} : option R :=
  let stop := if Nat.eqb lo 0 then k s else None in
  match s with
  | c :: s' =>
      if cls_match ic cs c && can_take hi then
        match rep cs (pred lo) (dec hi) s' k with
        | Some r => Some r
        | None => stop
        end
      else stop
  | [] => stop
  end.

(** [m r s caps k]: match [r] at the start of [s]; [k] gets the rest of
    the text and the groups closed so far. *)
Fixpoint m (r : regex) (s : str) (caps : list str)
         (k : str -> list str -> option R) {struct r} : option R :=
  match r with
  | REps => k s caps
  | RCls cs =>
      match s with
      | c :: s' => if cls_match ic cs c then k s' caps else None
      | [] => None
      end
  | RRep cs lo hi => rep cs lo hi s (fun s' => k s' caps)
  | RCat r1 r2 => m r1 s caps (fun s' caps' => m r2 s' caps' k)
  | RAlt r1 r2 =>
      match m r1 s caps k with
      | Some x => Some x
      | None => m r2 s caps k
      end
  | RGroup r1 =>
      m r1 s caps
        (fun s' caps' => k s' (caps' ++ [firstn (length s - length s') s]))
  end.
End Matcher.

(** A match object: the whole match and the groups, in order. *)
Record re_match := { whole : str; groups : list str }.

(** [mt.group(i)] *)
Definition group (mt : re_match) (i : nat) : str :=
  match i with
  | O => whole mt
  | S j => nth j (groups mt) []
  end.

Definition match_here (ic : bool) (r : regex) (s : str) : option re_match :=
  m ic r s []
    (fun rest caps =>
       Some {| whole := firstn (length s - length rest) s; groups := caps |}).

Fixpoint search_from (ic : bool) (r : regex) (s : str) : option re_match :=
  match match_here ic r s with
  | Some mt => Some mt
  | None =>
      match s with
      | [] => None
      | _ :: s' => search_from ic r s'
      end
  end.

(** [re.search(pattern, s, flags)] *)
Definition search (ic : bool) (r : regex) (s : str)
  : result (option re_match) :=
  if valid r then Ok (search_from ic r s) else Raise ReError.

(** [re.sub(pattern, repl, s)]: the matches are replaced from left to
    right; [skip] counts the characters of the current match still to be
    dropped.  The patterns of the spiders never match the empty string. *)
Fixpoint sub_from (ic : bool) (r : regex) (repl : str) (skip : nat)
         (s : str) {struct s} : str :=
  match s with
  | [] =>
      match skip, match_here ic r [] with
      | O, Some _ => repl
      | _, _ => []
      end
  | c :: s' =>
      match skip with
      | S n => sub_from ic r repl n s'
      | O =>
          match match_here ic r s with
          | Some mt =>
              match length (whole mt) with
              | O => repl ++ c :: sub_from ic r repl 0 s'
              | S n => repl ++ sub_from ic r repl n s'
              end
          | None => c :: sub_from ic r repl 0 s'
          end
      end
  end.

Definition sub (ic : bool) (r : regex) (repl s : str) : result str :=
  if valid r then Ok (sub_from ic r repl 0 s) else Raise ReError.

(** [re.findall(pattern, s)] for a pattern without groups: the matched
    texts, from left to right. *)
Fixpoint findall_from (ic : bool) (r : regex) (skip : nat) (s : str)
         {struct s} : list str :=
  match s with
  | [] =>
      match skip, match_here ic r [] with
      | O, Some mt => [whole mt]
      | _, _ => []
      end
  | _ :: s' =>
      match skip with
      | S n => findall_from ic r n s'
      | O =>
          match match_here ic r s with
          | Some mt => whole mt :: findall_from ic r (pred (length (whole mt))) s'
          | None => findall_from ic r 0 s'
          end
      end
  end.

Definition findall (ic : bool) (r : regex) (s : str) : result (list str) :=
  if valid r then Ok (findall_from ic r 0 s) else Raise ReError.

(** *** What a pattern denotes

    The set of texts a pattern matches in full, independently of the
    order in which the matcher explores them. *)
Definition within (n : nat) (lo : nat) (hi : option nat) : Prop :=
  lo <= n /\ match hi with Some h => n <= h | None => True end.

Inductive Matches (ic : bool) : regex -> str -> Prop :=
| MEps : Matches ic REps []
| MCls cs c : cls_match ic cs c = true -> Matches ic (RCls cs) [c]
| MRep cs lo hi w :
    Forall (fun c => cls_match ic cs c = true) w ->
    within (length w) lo hi ->
    Matches ic (RRep cs lo hi) w
| MCat r1 r2 w1 w2 :
    Matches ic r1 w1 -> Matches ic r2 w2 -> Matches ic (RCat r1 r2) (w1 ++ w2)
| MAltL r1 r2 w : Matches ic r1 w -> Matches ic (RAlt r1 r2) w
| MAltR r1 r2 w : Matches ic r2 w -> Matches ic (RAlt r1 r2) w
| MGroup r w : Matches ic r w -> Matches ic (RGroup r) w.

(** The groups a match closes, in the order in which it closes them. *)
Inductive Groups (ic : bool) : regex -> str -> list str -> Prop :=
| GEps : Groups ic REps [] []
| GCls cs c : cls_match ic cs c = true -> Groups ic (RCls cs) [c] []
| GRep cs lo hi w :
    Forall (fun c => cls_match ic cs c = true) w ->
    within (length w) lo hi ->
    Groups ic (RRep cs lo hi) w []
| GCat r1 r2 w1 w2 g1 g2 :
    Groups ic r1 w1 g1 -> Groups ic r2 w2 g2 ->
    Groups ic (RCat r1 r2) (w1 ++ w2) (g1 ++ g2)
| GAltL r1 r2 w g : Groups ic r1 w g -> Groups ic (RAlt r1 r2) w g
| GAltR r1 r2 w g : Groups ic r2 w g -> Groups ic (RAlt r1 r2) w g
| GGroup r w g : Groups ic r w g -> Groups ic (RGroup r) w (g ++ [w]).

(** The text contains a stretch that the pattern matches. *)
Definition Found (ic : bool) (r : regex) (s : str) : Prop :=
  exists pre w post, s = pre ++ w ++ post /\ Matches ic r w.

End Re.

(** ** The fragment of Python's [datetime] the spiders use

    Naive [datetime] objects, [timedelta] built from non-negative integer
    keyword arguments, subtraction, comparison and [isoformat]. *)

Module Datetime.
Import Py.
Local Open Scope Z_scope.
Local Open Scope py_scope.

Record datetime := {
  year : Z; month : Z; day : Z;
  hour : Z; minute : Z; second : Z; microsecond : Z
}.

Definition MINYEAR := 1.
Definition MAXYEAR := 9999.
Definition MAXORDINAL := 3652059.

Definition is_leap (y : Z) : bool :=
  (y mod 4 =? 0) && (negb (y mod 100 =? 0) || (y mod 400 =? 0)).

Definition DAYS_IN_MONTH : list Z :=
  [-1; 31; 28; 31; 30; 31; 30; 31; 31; 30; 31; 30; 31].

Definition DAYS_BEFORE_MONTH : list Z :=
  [-1; 0; 31; 59; 90; 120; 151; 181; 212; 243; 273; 304; 334].

Definition index (l : list Z) (i : Z) : Z := nth (Z.to_nat i) l 0.

Definition b2z (b : bool) : Z := if b then 1 else 0.

Definition days_before_year (y : Z) : Z :=
  let y := y - 1 in y * 365 + y / 4 - y / 100 + y / 400.

Definition days_in_month (y m : Z) : Z :=
  if (m =? 2) && is_leap y then 29 else index DAYS_IN_MONTH m.

Definition days_before_month (y m : Z) : Z :=
  index DAYS_BEFORE_MONTH m + b2z ((2 <? m) && is_leap y).

Definition ymd2ord (y m d : Z) : Z :=
  days_before_year y + days_before_month y m + d.

Definition DI400Y := days_before_year 401.
Definition DI100Y := days_before_year 101.
Definition DI4Y := days_before_year 5.

Definition ord2ymd (n : Z) : Z * Z * Z :=
  let n := n - 1 in
  let n400 := n / DI400Y in
  let n := n mod DI400Y in
  let y := n400 * 400 + 1 in
  let n100 := n / DI100Y in
  let n := n mod DI100Y in
  let n4 := n / DI4Y in
  let n := n mod DI4Y in
  let n1 := n / 365 in
  let n := n mod 365 in
  let y := y + n100 * 100 + n4 * 4 + n1 in
  if (n1 =? 4) || (n100 =? 4) then (y - 1, 12, 31)
  else
    let leapyear := (n1 =? 3) && (negb (n4 =? 24) || (n100 =? 3)) in
    let m := Z.shiftr (n + 50) 5 in
    let preceding := index DAYS_BEFORE_MONTH m + b2z ((2 <? m) && leapyear) in
    if n <? preceding then
      let m := m - 1 in
      let preceding :=
        preceding - (index DAYS_IN_MONTH m + b2z ((m =? 2) && leapyear)) in
      (y, m, n - preceding + 1)
    else (y, m, n - preceding + 1).

(** [_check_date_fields]: the dates a [datetime] can hold. *)
Definition check_date_fields (y m d : Z) : bool :=
  (MINYEAR <=? y) && (y <=? MAXYEAR)
  && (1 <=? m) && (m <=? 12)
  && (1 <=? d) && (d <=? days_in_month y m).

(** [datetime(year, month, day)] *)
Definition datetime_new (y m d : Z) : result datetime :=
  if check_date_fields y m d
  then Ok {| year := y; month := m; day := d;
             hour := 0; minute := 0; second := 0; microsecond := 0 |}
  else Raise ValueError.

Record timedelta := { days : Z; seconds : Z; microseconds : Z }.

(** [timedelta(days, seconds, microseconds)] on integers: the fields are
    normalised and the number of days is bounded. *)
Definition timedelta_new (d s us : Z) : result timedelta :=
  let s := s + us / 1000000 in
  let us := us mod 1000000 in
  let d := d + s / 86400 in
  let s := s mod 86400 in
  if 999999999 <? Z.abs d then Raise OverflowError
  else Ok {| days := d; seconds := s; microseconds := us |}.

Definition timedelta_days (n : Z) := timedelta_new n 0 0.
Definition timedelta_hours (n : Z) := timedelta_new 0 (n * 3600) 0.
Definition timedelta_minutes (n : Z) := timedelta_new 0 (n * 60) 0.
Definition timedelta_weeks (n : Z) := timedelta_new (n * 7) 0 0.

(** [-delta] *)
Definition timedelta_neg (t : timedelta) : result timedelta :=
  timedelta_new (- days t) (- seconds t) (- microseconds t).

Definition toordinal (dt : datetime) : Z :=
  ymd2ord (year dt) (month dt) (day dt).

(** [dt + delta] *)
Definition datetime_add (dt : datetime) (t : timedelta) : result datetime :=
  delta <- timedelta_new (toordinal dt)
             (hour dt * 3600 + minute dt * 60 + second dt) (microsecond dt) ;;
  delta <- timedelta_new (days delta + days t) (seconds delta + seconds t)
             (microseconds delta + microseconds t) ;;
  let hh := seconds delta / 3600 in
  let rem := seconds delta mod 3600 in
  if (0 <? days delta) && (days delta <=? MAXORDINAL) then
    let '(y, m, d) := ord2ymd (days delta) in
    Ok {| year := y; month := m; day := d;
          hour := hh; minute := rem / 60; second := rem mod 60;
          microsecond := microseconds delta |}
  else Raise OverflowError.

(** [dt - delta] *)
Definition datetime_sub (dt : datetime) (t : timedelta) : result datetime :=
  nt <- timedelta_neg t ;;
  datetime_add dt nt.

(** Comparison of naive [datetime]s: the fields, in order. *)
Fixpoint cmp (a b : list Z) : comparison :=
  match a, b with
  | x :: a', y :: b' =>
      match x ?= y with
      | Eq => cmp a' b'
      | c => c
      end
  | [], [] => Eq
  | [], _ :: _ => Lt
  | _ :: _, [] => Gt
  end.

Definition fields (dt : datetime) : list Z :=
  [year dt; month dt; day dt; hour dt; minute dt; second dt; microsecond dt].

(** [a >= b] *)
Definition ge (a b : datetime) : bool :=
  match cmp (fields a) (fields b) with
  | Lt => false
  | _ => true
  end.

(** ['%0<width>d' % n] for [0 <= n < 10 ^ width], which the fields of a
    [datetime] satisfy. *)
Fixpoint fmt (width : nat) (n : Z) : str :=
  match width with
  | O => []
  | S w => fmt w (n / 10) ++ [Z.to_N (48 + n mod 10)]
  end.

(** [dt.isoformat()] *)
Definition isoformat (dt : datetime) : str :=
  fmt 4 (year dt) ++ u8 "-" ++ fmt 2 (month dt) ++ u8 "-" ++ fmt 2 (day dt)
  ++ u8 "T"
  ++ fmt 2 (hour dt) ++ u8 ":" ++ fmt 2 (minute dt) ++ u8 ":"
  ++ fmt 2 (second dt)
  ++ (if microsecond dt =? 0 then [] else u8 "." ++ fmt 6 (microsecond dt)).

(** The interpreter state the spiders read: the clock and the limit of
    [int] on the length of a string of digits. *)
Record interp := {
  now : datetime;          (* datetime.now() *)
  max_str_digits : nat     (* sys.get_int_max_str_digits() *)
}.

End Datetime.

(** ** What the spiders emit and request *)

Module Scrapy.
Import Py Datetime.

(** A value of an emitted record: a string or [None]. *)
Inductive value :=
| VStr (s : str)
| VNone.

(** An emitted record: the keys of the [dict] literal, in order. *)
Definition item := list (string * value).

Definition keys (it : item) : list string := map fst it.

Fixpoint get (it : item) (k : string) : option value :=
  match it with
  | [] => None
  | (k', v) :: it' => if String.eqb k k' then Some v else get it' k
  end.

(** An entry of [articles_data]: what a listing page tells about one
    article. *)
Record article_data := {
  a_url : str;
  a_title : str;
  a_date : option datetime
}.

(** A [scrapy.Request] for an article page, with the [meta] it carries. *)
Record request := {
  r_url : str;
  r_title : option str;
  r_article_date : option datetime;
  r_search_term : option str
}.

(** [a or b] on optional strings. *)
Definition por (a b : option str) : option str :=
  if truthy a then a else b.

End Scrapy.

(** ** spiders/bankinform.py *)

Module Bankinform.
Import Py Re Datetime Scrapy.
Local Open Scope py_scope.

(** [\d{1,2}], [\d{4}], [\d+], [\s+] and [[а-яё]+] *)
Definition d12 : regex := RRep [CDigit] 1 (Some 2).
Definition d4 : regex := RRep [CDigit] 4 (Some 4).
Definition dplus : regex := RRep [CDigit] 1 None.
Definition ws : regex := RRep [CSpace] 1 None.
Definition cyr_cls : cls := [CRange (chr "а") (chr "я"); CLit (chr "ё")].
Definition cyr : regex := RRep cyr_cls 1 None.
Definition ch (s : string) : regex := RCls [CLit (chr s)].
Arguments ch s%_string.

Definition month_mapping : list (str * Z) :=
  [(u8 "января", 1); (u8 "февраля", 2); (u8 "марта", 3); (u8 "апреля", 4);
   (u8 "мая", 5); (u8 "июня", 6); (u8 "июля", 7); (u8 "августа", 8);
   (u8 "сентября", 9); (u8 "октября", 10); (u8 "ноября", 11);
   (u8 "декабря", 12)]%Z.

(** [d[k]] when [k in d] *)
Fixpoint dict_get (d : list (str * Z)) (k : str) : option Z :=
  match d with
  | [] => None
  | (k', v) :: d' => if str_eqb k k' then Some v else dict_get d' k
  end.

(** [(\d{1,2})\s+([а-яё]+)\s+(\d{4})] *)
Definition russian_pattern : regex :=
  cat [RGroup d12; ws; RGroup cyr; ws; RGroup d4].

(** The statements of [parse_russian_date] under [try:]. *)
Definition parse_russian_date_body (E : interp) (date_str : str)
  : result (option datetime) :=
  mt <- search false russian_pattern date_str ;;
  match mt with
  | Some mt =>
      day <- int (max_str_digits E) (group mt 1) ;;
      let month_ru := lower (group mt 2) in
      year <- int (max_str_digits E) (group mt 3) ;;
      match dict_get month_mapping month_ru with
      | Some mo => dt <- datetime_new year mo day ;; Ok (Some dt)
      | None => Ok None
      end
  | None => Ok None
  end.

Definition parse_russian_date (E : interp) (date_str : str)
  : option datetime :=
  try_except (parse_russian_date_body E date_str).

(** [(\d{1,2})\.(\d{1,2})\.(\d{4})] and [(\d{4})-(\d{1,2})-(\d{1,2})] *)
Definition pattern1 : regex :=
  cat [RGroup d12; ch "."; RGroup d12; ch "."; RGroup d4].
Definition pattern2 : regex :=
  cat [RGroup d4; ch "-"; RGroup d12; ch "-"; RGroup d12].

(** The statements of [parse_standard_date] under [try:]. *)
Definition parse_standard_date_body (E : interp) (date_str : str)
  : result (option datetime) :=
  match1 <- search false pattern1 date_str ;;
  match match1 with
  | Some mt =>
      day <- int (max_str_digits E) (group mt 1) ;;
      mo <- int (max_str_digits E) (group mt 2) ;;
      year <- int (max_str_digits E) (group mt 3) ;;
      dt <- datetime_new year mo day ;;
      Ok (Some dt)
  | None =>
      match2 <- search false pattern2 date_str ;;
      match match2 with
      | Some mt =>
          year <- int (max_str_digits E) (group mt 1) ;;
          mo <- int (max_str_digits E) (group mt 2) ;;
          day <- int (max_str_digits E) (group mt 3) ;;
          dt <- datetime_new year mo day ;;
          Ok (Some dt)
      | None => Ok None
      end
  end.

Definition parse_standard_date (E : interp) (date_str : str)
  : option datetime :=
  try_except (parse_standard_date_body E date_str).

(** The units of a relative date, in the order the code tests them. *)
Inductive unit_ := Days | Hours | Minutes | Weeks.

Definition has (stem : string) (s : str) : bool := contains (u8 stem) s.
Arguments has stem%_string s.

Definition unit_of (date_str : str) : option unit_ :=
  if has "день" date_str || has "дня" date_str || has "дней" date_str
  then Some Days
  else if has "час" date_str || has "часа" date_str || has "часов" date_str
  then Some Hours
  else if has "минут" date_str then Some Minutes
  else if has "недел" date_str then Some Weeks
  else None.

(** [timedelta(days=n)], [timedelta(hours=n)], ... *)
Definition timedelta_of (u : unit_) (amount : Z) : result timedelta :=
  match u with
  | Days => timedelta_days amount
  | Hours => timedelta_hours amount
  | Minutes => timedelta_minutes amount
  | Weeks => timedelta_weeks amount
  end.

(** The statements of [parse_relative_date] under [try:]. *)
Definition parse_relative_date_body (E : interp) (date_str : str)
  : result (option datetime) :=
  numbers <- findall false dplus date_str ;;
  match numbers with
  | n0 :: _ =>
      amount <- int (max_str_digits E) n0 ;;
      match unit_of date_str with
      | Some u =>
          td <- timedelta_of u amount ;;
          dt <- datetime_sub (now E) td ;;
          Ok (Some dt)
      | None => Ok None
      end
  | [] => Ok None
  end.

Definition parse_relative_date (E : interp) (date_str : str)
  : option datetime :=
  try_except (parse_relative_date_body E date_str).

(** [[⏰🕒📅]] *)
Definition icons : regex := RCls (map CLit (u8 "⏰🕒📅")).

(** The first statements of [clean_date_text]: trim, drop the icons,
    collapse the white space. *)
Definition sanitize (date_text : str) : result str :=
  let date_text := strip date_text in
  date_text <- sub false icons [] date_text ;;
  sub false ws (u8 " ") date_text.

Definition stems : regex :=
  alts (map lit [u8 "час"; u8 "день"; u8 "дня"; u8 "дней"; u8 "минут";
                 u8 "недел"]).

Definition date_patterns : list regex :=
  [ cat [d12; ws; cyr; ws; d4];
    cat [d12; ch "."; d12; ch "."; d4];
    cat [d12; ch "/"; d12; ch "/"; d4];
    cat [d4; ch "-"; d12; ch "-"; d12];
    cat [d12; ws; cyr];
    cat [dplus; ws; RGroup stems] ].

(** The loop of [clean_date_text] over [date_patterns], with
    [re.IGNORECASE]. *)
Fixpoint looks_like_date (patterns : list regex) (date_text : str)
  : result bool :=
  match patterns with
  | [] => Ok false
  | pattern :: rest =>
      mt <- search true pattern date_text ;;
      match mt with
      | Some _ => Ok true
      | None => looks_like_date rest date_text
      end
  end.

Definition clean_date_text (date_text : option str) : result (option str) :=
  match date_text with
  | Some ((_ :: _) as date_text) =>
      date_text <- sanitize date_text ;;
      ok <- looks_like_date date_patterns date_text ;;
      Ok (if ok then Some date_text else None)
  | _ => Ok None
  end.

Definition parse_date_text (E : interp) (date_text : option str)
  : result (option datetime) :=
  if negb (truthy date_text) then Ok None
  else
    clean_text <- clean_date_text date_text ;;
    match clean_text with
    | Some ((_ :: _) as clean_text) =>
        match parse_russian_date E clean_text with
        | Some date_obj => Ok (Some date_obj)
        | None =>
            match parse_relative_date E clean_text with
            | Some date_obj => Ok (Some date_obj)
            | None =>
                match parse_standard_date E clean_text with
                | Some date_obj => Ok (Some date_obj)
                | None => Ok None
                end
            end
        end
    | _ => Ok None
    end.

(** [self.date_threshold], set in [__init__]. *)
Definition date_threshold (E : interp) : result datetime :=
  td <- timedelta_days 30 ;;
  datetime_sub (now E) td.

(** The condition of [parse_article_list] on an entry:
    [article_data['date'] is None or article_data['date'] >= self.date_threshold] *)
Definition is_recent (date : option datetime) (threshold : datetime) : bool :=
  match date with
  | None => true
  | Some d => ge d threshold
  end.

(** The article requests [parse_article_list] yields. *)
Fixpoint parse_article_list (threshold : datetime)
         (articles_data : list article_data) : list request :=
  match articles_data with
  | [] => []
  | article_data :: rest =>
      if is_recent (a_date article_data) threshold then
        {| r_url := a_url article_data;
           r_title := Some (a_title article_data);
           r_article_date := a_date article_data;
           r_search_term := None |}
          :: parse_article_list threshold rest
      else parse_article_list threshold rest
  end.

(** The record [parse_article] yields, from the values of its local
    variables. *)
Definition parse_article (E : interp) (title url description : str)
           (article_date : option datetime) : item :=
  [ ("title"%string, VStr title);
    ("url"%string, VStr url);
    ("search_term"%string, VStr (u8 "bankinform-fintech"));
    ("description"%string, VStr description);
    ("article_date"%string,
      match article_date with
      | Some d => VStr (isoformat d)
      | None => VNone
      end);
    ("scraped_at"%string, VStr (isoformat (now E))) ].

End Bankinform.

(** ** spiders/plusworld.py

    The literals of this file are kept as the file has them. *)

Module Plusworld.
Import Py Re Datetime Scrapy.
Local Open Scope py_scope.

Definition d12 : regex := RRep [CDigit] 1 (Some 2).
Definition d4 : regex := RRep [CDigit] 4 (Some 4).
Definition dplus : regex := RRep [CDigit] 1 None.
Definition ws : regex := RRep [CSpace] 1 None.
Definition ch (s : string) : regex := RCls [CLit (chr s)].
Arguments ch s%_string.

(** The class [[–∞-—è—ë]]: two characters, the range from [∞] to
    [—], and three more characters. *)
Definition cyr_cls : cls :=
  [CLit (chr "–"); CRange (chr "∞") (chr "—");
   CLit (chr "è"); CLit (chr "—"); CLit (chr "ë")].
Definition cyr : regex := RRep cyr_cls 1 None.

(** [[‚è∞üïíüìÖ]] *)
Definition icons : regex := RCls (map CLit (u8 "‚è∞üïíüìÖ")).

Definition stems : regex :=
  alts (map lit [u8 "—á–∞—Å"; u8 "–¥–µ–Ω—å"; u8 "–¥–Ω—è"; u8 "–¥–Ω–µ–π"; u8 "–º–∏–Ω—É—Ç"; u8 "–Ω–µ–¥–µ–ª"]).

Definition english_stems : regex :=
  alts (map lit [u8 "hour"; u8 "day"; u8 "days"; u8 "minute"; u8 "week"]).

Definition date_patterns : list regex :=
  [ cat [d12; ws; cyr; ws; d4];
    cat [d12; ch "."; d12; ch "."; d4];
    cat [d12; ch "/"; d12; ch "/"; d4];
    cat [d12; ws; cyr];
    cat [dplus; ws; RGroup stems];
    cat [dplus; ws; RGroup english_stems] ].

Fixpoint looks_like_date (patterns : list regex) (date_text : str)
  : result bool :=
  match patterns with
  | [] => Ok false
  | pattern :: rest =>
      mt <- search true pattern date_text ;;
      match mt with
      | Some _ => Ok true
      | None => looks_like_date rest date_text
      end
  end.

Definition sanitize (date_text : str) : result str :=
  let date_text := strip date_text in
  date_text <- sub false icons [] date_text ;;
  sub false ws (u8 " ") date_text.

Definition clean_date_text (date_text : option str) : result (option str) :=
  match date_text with
  | Some ((_ :: _) as date_text) =>
      date_text <- sanitize date_text ;;
      ok <- looks_like_date date_patterns date_text ;;
      Ok (if ok then Some date_text else None)
  | _ => Ok None
  end.

Definition month_mapping : list (str * Z) :=
  [(u8 "—è–Ω–≤–∞—Ä—è", 1);
   (u8 "—Ñ–µ–≤—Ä–∞–ª—è", 2);
   (u8 "–º–∞—Ä—Ç–∞", 3);
   (u8 "–∞–ø—Ä–µ–ª—è", 4);
   (u8 "–º–∞—è", 5);
   (u8 "–∏—é–Ω—è", 6);
   (u8 "–∏—é–ª—è", 7);
   (u8 "–∞–≤–≥—É—Å—Ç–∞", 8);
   (u8 "—Å–µ–Ω—Ç—è–±—Ä—è", 9);
   (u8 "–æ–∫—Ç—è–±—Ä—è", 10);
   (u8 "–Ω–æ—è–±—Ä—è", 11);
   (u8 "–¥–µ–∫–∞–±—Ä—è", 12)]%Z.

(** [(\d{1,2})\s+([–∞-—è—ë]+)\s+(\d{4})] *)
Definition russian_pattern : regex :=
  cat [RGroup d12; ws; RGroup cyr; ws; RGroup d4].

Definition parse_russian_date (E : interp) (date_str : str)
  : option datetime :=
  try_except (
    mt <- search false russian_pattern date_str ;;
    match mt with
    | Some mt =>
        day <- int (max_str_digits E) (group mt 1) ;;
        let month_ru := lower (group mt 2) in
        year <- int (max_str_digits E) (group mt 3) ;;
        match Bankinform.dict_get month_mapping month_ru with
        | Some mo => dt <- datetime_new year mo day ;; Ok (Some dt)
        | None => Ok None
        end
    | None => Ok None
    end).

Definition has (stem : string) (s : str) : bool := contains (u8 stem) s.
Arguments has stem%_string s.

Definition unit_of (date_str : str) : option Bankinform.unit_ :=
  if has "–¥–µ–Ω—å" date_str || has "–¥–Ω—è" date_str
     || has "–¥–Ω–µ–π" date_str
  then Some Bankinform.Days
  else if has "—á–∞—Å" date_str || has "—á–∞—Å–∞" date_str
          || has "—á–∞—Å–æ–≤" date_str
  then Some Bankinform.Hours
  else if has "–º–∏–Ω—É—Ç" date_str then Some Bankinform.Minutes
  else if has "–Ω–µ–¥–µ–ª" date_str then Some Bankinform.Weeks
  else None.

Definition parse_relative_date (E : interp) (date_str : str)
  : option datetime :=
  try_except (
    numbers <- findall false dplus date_str ;;
    match numbers with
    | n0 :: _ =>
        amount <- int (max_str_digits E) n0 ;;
        match unit_of date_str with
        | Some u =>
            td <- Bankinform.timedelta_of u amount ;;
            dt <- datetime_sub (now E) td ;;
            Ok (Some dt)
        | None => Ok None
        end
    | [] => Ok None
    end).

Definition parse_date_text (E : interp) (date_text : option str)
  : result (option datetime) :=
  if negb (truthy date_text) then Ok None
  else
    clean_text <- clean_date_text date_text ;;
    match clean_text with
    | Some ((_ :: _) as clean_text) =>
        match parse_russian_date E clean_text with
        | Some date_obj => Ok (Some date_obj)
        | None =>
            match parse_relative_date E clean_text with
            | Some date_obj => Ok (Some date_obj)
            | None => Ok None
            end
        end
    | _ => Ok None
    end.

(** The article requests [parse_article_list] yields: on the first page
    the first seven entries are skipped when there are more than seven,
    and at most fifteen entries are looked at. *)
Fixpoint article_requests (threshold : datetime) (search_term : str)
         (articles_data : list article_data) : list request :=
  match articles_data with
  | [] => []
  | article_data :: rest =>
      if Bankinform.is_recent (a_date article_data) threshold then
        {| r_url := a_url article_data;
           r_title := Some (a_title article_data);
           r_article_date := a_date article_data;
           r_search_term := Some search_term |}
          :: article_requests threshold search_term rest
      else article_requests threshold search_term rest
  end.

Definition parse_article_list (page : Z) (threshold : datetime)
           (search_term : str) (articles_data : list article_data)
  : list request :=
  let articles_data :=
    if (page =? 1)%Z && (7 <? length articles_data)
    then skipn 7 articles_data else articles_data in
  article_requests threshold search_term (firstn 15 articles_data).

Definition parse_article (E : interp) (title url search_term description : str)
           (article_date : option datetime) : item :=
  [ ("title"%string, VStr title);
    ("url"%string, VStr url);
    ("search_term"%string, VStr search_term);
    ("description"%string, VStr description);
    ("article_date"%string,
      match article_date with
      | Some d => VStr (isoformat d)
      | None => VNone
      end);
    ("scraped_at"%string, VStr (isoformat (now E))) ].

End Plusworld.

(** ** spiders/rb.py *)

Module Rb.
Import Py Re Datetime Scrapy.
Local Open Scope py_scope.

Definition month_mapping : list (str * Z) :=
  [(u8 "января", 1); (u8 "февраля", 2); (u8 "марта", 3); (u8 "апреля", 4);
   (u8 "мая", 5); (u8 "июня", 6); (u8 "июля", 7); (u8 "августа", 8);
   (u8 "сентября", 9); (u8 "октября", 10); (u8 "ноября", 11);
   (u8 "декабря", 12)]%Z.

(** [(\d{1,2})\s+([а-яё]+)\s+(\d{4})] *)
Definition russian_pattern : regex :=
  cat [RGroup (RRep [CDigit] 1 (Some 2)); RRep [CSpace] 1 None;
       RGroup (RRep [CRange (chr "а") (chr "я"); CLit (chr "ё")] 1 None);
       RRep [CSpace] 1 None; RGroup (RRep [CDigit] 4 (Some 4))].

Definition parse_russian_date (E : interp) (date_str : str)
  : option datetime :=
  try_except (
    mt <- search false russian_pattern date_str ;;
    match mt with
    | Some mt =>
        day <- int (max_str_digits E) (group mt 1) ;;
        let month_ru := lower (group mt 2) in
        year <- int (max_str_digits E) (group mt 3) ;;
        match Bankinform.dict_get month_mapping month_ru with
        | Some mo => dt <- datetime_new year mo day ;; Ok (Some dt)
        | None => Ok None
        end
    | None => Ok None
    end).

(** An element of a search result page: the text of its date element and
    the [href]s of its title link and of its other article link. *)
Record news_item := {
  date_element : option str;
  title_href : option str;
  other_href : option str
}.

Section Crawl.
(** [urllib.parse.urljoin] *)
Variable urljoin : str -> str -> str.

Definition clean_url (url : option str) : option str :=
  match url with
  | Some ((_ :: _) as url) =>
      let url :=
        if startswith (u8 "//") url then u8 "https:" ++ url
        else if startswith (u8 "/") url then urljoin (u8 "https://rb.ru") url
        else if negb (startswith (u8 "http") url)
             then urljoin (u8 "https://rb.ru") url
        else url in
      if negb (startswith (u8 "https://rb.ru/") url) then None
      else Some url
  | _ => None
  end.

(** [article_links.append(full_url)] unless it is there or empty. *)
Definition add_link (article_links : list str) (full_url : option str)
  : list str :=
  match full_url with
  | Some ((_ :: _) as full_url) =>
      if existsb (str_eqb full_url) article_links then article_links
      else article_links ++ [full_url]
  | _ => article_links
  end.

(** The condition of [parse_search_results] on the date of an element:
    [article_date and article_date >= self.date_threshold] *)
Definition date_in_range (article_date : option datetime)
           (threshold : datetime) : bool :=
  match article_date with
  | Some d => ge d threshold
  | None => false
  end.

(** The first loop of [parse_search_results]. *)
Fixpoint dated_links (E : interp) (threshold : datetime)
         (article_items : list news_item) (article_links : list str)
  : list str :=
  match article_items with
  | [] => article_links
  | item :: rest =>
      let article_links :=
        match date_element item with
        | Some ((_ :: _) as de) =>
            let article_date := parse_russian_date E (strip de) in
            if date_in_range article_date threshold then
              let link := por (title_href item) (other_href item) in
              if truthy link then add_link article_links (clean_url link)
              else article_links
            else article_links
        | _ => article_links
        end in
      dated_links E threshold rest article_links
  end.

(** The fall-back loop over the title links of the page. *)
Fixpoint all_links (title_links : list (option str))
         (article_links : list str) : list str :=
  match title_links with
  | [] => article_links
  | href :: rest =>
      all_links rest
        (if truthy href then add_link article_links (clean_url href)
         else article_links)
  end.

(** The article requests [parse_search_results] yields. *)
Definition parse_search_results (E : interp) (threshold : datetime)
           (search_term : str) (article_items : list news_item)
           (title_links : list (option str)) : list request :=
  let article_links := dated_links E threshold article_items [] in
  let article_links :=
    match article_links with
    | [] => all_links title_links []
    | _ => article_links
    end in
  map (fun article_url =>
         {| r_url := article_url; r_title := None;
            r_article_date := None; r_search_term := Some search_term |})
      (firstn 15 article_links).
End Crawl.

Definition parse_article (title url search_term description : str)
           (article_date : option datetime) : item :=
  [ ("title"%string, VStr title);
    ("url"%string, VStr url);
    ("search_term"%string, VStr search_term);
    ("description"%string, VStr description);
    ("article_date"%string,
      match article_date with
      | Some d => VStr (isoformat d)
      | None => VNone
      end) ].

End Rb.

(** ** spiders/bankcnews.py and spiders/mckinseyy.py: the emitted records *)

Module Bankcnews.
Import Py Scrapy.

Definition parse_article (title url search_term description : str) : item :=
  [ ("title"%string, VStr title);
    ("url"%string, VStr url);
    ("search_term"%string, VStr search_term);
    ("description"%string, VStr description) ].

End Bankcnews.

Module Mckinsey.
Import Py Scrapy.

(** The record [parse] yields for a result with a title and a link;
    [description] is the text of [p.description], [''] when there is
    none. *)
Definition parse (title url description : str) : item :=
  [ ("title"%string, VStr (strip title));
    ("url"%string, VStr url);
    ("description"%string, VStr (strip description)) ].

(** The record [try_alternative_selectors] yields. *)
Definition try_alternative_selectors (title link description : str) : item :=
  [ ("title"%string, VStr (strip title));
    ("url"%string, VStr link);
    ("description"%string, VStr (firstn 100 (strip description))) ].

End Mckinsey.

(** ** The specification's vocabulary *)

Module Spec.
Import Py Re Datetime Scrapy.

(** The three parser strategies and a dispatcher that tries them in a
    given order and returns the first success. *)
Inductive strategy := AbsoluteMonth | Relative | Numeric.

Definition run (E : interp) (st : strategy) (t : str) : option datetime :=
  match st with
  | AbsoluteMonth => Bankinform.parse_russian_date E t
  | Relative => Bankinform.parse_relative_date E t
  | Numeric => Bankinform.parse_standard_date E t
  end.

Fixpoint dispatch (E : interp) (order : list strategy) (t : str)
  : option datetime :=
  match order with
  | [] => None
  | st :: rest =>
      match run E st t with
      | Some d => Some d
      | None => dispatch E rest t
      end
  end.

Definition default_order : list strategy := [AbsoluteMonth; Relative; Numeric].

(** The six shapes of a date-like text, with a month name where the
    specification asks for one. *)
Definition month_name : regex :=
  alts (map (fun kv => lit (fst kv)) Bankinform.month_mapping).

Definition relative_unit : regex :=
  alts (map lit [u8 "час"; u8 "день"; u8 "дня"; u8 "дней"; u8 "минут";
                 u8 "недел"; u8 "hour"; u8 "day"; u8 "minute"; u8 "week"]).

Definition shapes : list regex :=
  let d12 := Bankinform.d12 in
  let d4 := Bankinform.d4 in
  let ws := Bankinform.ws in
  [ cat [d12; ws; month_name; ws; d4];
    cat [d12; Bankinform.ch "."; d12; Bankinform.ch "."; d4];
    cat [d12; Bankinform.ch "/"; d12; Bankinform.ch "/"; d4];
    cat [d4; Bankinform.ch "-"; d12; Bankinform.ch "-"; d12];
    cat [d12; ws; month_name];
    cat [Bankinform.dplus; ws; relative_unit] ].

(** The number a string of decimal digits denotes. *)
Definition digit (c : N) : Z :=
  match todecimal c with
  | Some d => d
  | None => 0%Z
  end.

Definition number (s : str) : Z :=
  fold_left (fun acc c => (10 * acc + digit c)%Z) s 0%Z.

Definition digits (s : str) : Prop := Forall (fun c => isdigit c = true) s.
Definition spaces (s : str) : Prop := Forall (fun c => isspace c = true) s.
Definition no_digit (s : str) : Prop := Forall (fun c => isdigit c = false) s.

(** The text is empty or starts with a character that is no digit. *)
Definition ends_number (post : str) : Prop :=
  match post with
  | [] => True
  | c :: _ => isdigit c = false
  end.

(** A property of characters holds of the ten digits of a block. *)
Definition block_ok (P : N -> bool) (z : N) : bool :=
  forallb (fun i => P (z + N.of_nat i)%N) (seq 0 10).

(** The calendar: the length of a month and the dates that exist. *)
Definition leap_year (y : Z) : Prop :=
  ((y mod 4 = 0 /\ y mod 100 <> 0) \/ y mod 400 = 0)%Z.

Definition month_length (y m : Z) (n : Z) : Prop :=
  ((m = 1 \/ m = 3 \/ m = 5 \/ m = 7 \/ m = 8 \/ m = 10 \/ m = 12) /\ n = 31
   \/ (m = 4 \/ m = 6 \/ m = 9 \/ m = 11) /\ n = 30
   \/ m = 2 /\ leap_year y /\ n = 29
   \/ m = 2 /\ ~ leap_year y /\ n = 28)%Z.

Definition valid_date (y m d : Z) : Prop :=
  (1 <= y <= 9999 /\ exists n, month_length y m n /\ 1 <= d <= n)%Z.

(** The [datetime] of a calendar date, at midnight. *)
Definition midnight (y m d : Z) : datetime :=
  {| year := y; month := m; day := d;
     hour := 0; minute := 0; second := 0; microsecond := 0 |}%Z.

(** The text the first statements of [clean_date_text] produce. *)
Definition sanitized (date_text : str) : str :=
  sub_from false Bankinform.ws (u8 " ") 0
    (sub_from false Bankinform.icons [] 0 (strip date_text)).

(** One of the patterns is found in the text, ignoring case. *)
Definition found_any (patterns : list regex) (t : str) : bool :=
  existsb (fun p => match search_from true p t with
                    | Some _ => true
                    | None => false
                    end) patterns.

(** The stems of the relative units, as [parse_relative_date] tests
    them. *)
Definition relative_stems : list str :=
  [u8 "день"; u8 "дня"; u8 "дней"; u8 "час"; u8 "часа"; u8 "часов";
   u8 "минут"; u8 "недел"].

(** An instant as seconds since the start of day 0 of the proleptic
    calendar, and the [datetime] of an instant. *)
Definition instant (dt : datetime) : Z :=
  (toordinal dt * 86400 + (hour dt * 3600 + minute dt * 60 + second dt))%Z.

Definition at_instant (total us : Z) : datetime :=
  let sod := (total mod 86400)%Z in
  let '(y, m, d) := ord2ymd (total / 86400) in
  {| year := y; month := m; day := d;
     hour := (sod / 3600)%Z; minute := (sod mod 3600 / 60)%Z;
     second := (sod mod 3600 mod 60)%Z; microsecond := us |}.

Definition unit_seconds (u : Bankinform.unit_) : Z :=
  match u with
  | Bankinform.Days => 86400
  | Bankinform.Hours => 3600
  | Bankinform.Minutes => 60
  | Bankinform.Weeks => 604800
  end%Z.

(** [now - n units] *)
Definition ago (now : datetime) (n : Z) (u : Bankinform.unit_) : datetime :=
  at_instant (instant now - n * unit_seconds u) (microsecond now).

(** [now - n units] is a date of the years 1 to 9999. *)
Definition representable (now : datetime) (n : Z) (u : Bankinform.unit_)
  : Prop :=
  (0 < (instant now - n * unit_seconds u) / 86400 <= MAXORDINAL)%Z.

(** The length of the run of white space a text starts with. *)
Fixpoint space_run (s : str) : nat :=
  match s with
  | c :: s' => if isspace c then S (space_run s') else 0
  | [] => 0
  end.

(** Every white space character of the text is one ASCII space, and no
    two of them are next to each other; [after_space] says that a space
    precedes the text. *)
Fixpoint well_spaced (after_space : bool) (t : str) : bool :=
  match t with
  | [] => true
  | c :: t' =>
      if isspace c
      then (c =? 32)%N && negb after_space && well_spaced true t'
      else well_spaced false t'
  end.

(** The character is one of the icons [clean_date_text] drops. *)
Definition is_icon (c : N) : bool := mem c (u8 "⏰🕒📅").

(** [int] accepts a run of digits of this length under the limit [lim]
    of the interpreter. *)
Definition convertible (lim : nat) (n : str) : Prop :=
  length n <= 640 \/ lim = 0 \/ length n <= lim.

(** The fields of the record of the specification. *)
Definition six_fields : list string :=
  ["title"; "url"; "search_term"; "description"; "article_date";
   "scraped_at"]%string.

(** The time of day of a [datetime] is in range. *)
Definition time_ok (dt : datetime) : Prop :=
  (0 <= hour dt < 24 /\ 0 <= minute dt < 60 /\ 0 <= second dt < 60
   /\ 0 <= microsecond dt < 1000000)%Z.

(** An instant in microseconds, and the [datetime]s that denote one: the
    date exists and the time of day is in range. *)
Definition stamp (dt : datetime) : Z :=
  (instant dt * 1000000 + microsecond dt)%Z.

Definition well_formed (dt : datetime) : Prop :=
  check_date_fields (year dt) (month dt) (day dt) = true /\ time_ok dt.

End Spec.

(** ** Sample values *)

Module Sample.
Import Py Datetime.

Definition clock : datetime :=
  {| year := 2025; month := 11; day := 4;
     hour := 9; minute := 59; second := 3; microsecond := 123 |}%Z.

Definition E : interp :=
  {| now := clock; max_str_digits := default_max_str_digits |}.

Definition date (y m d : Z) : datetime :=
  {| year := y; month := m; day := d;
     hour := 0; minute := 0; second := 0; microsecond := 0 |}%Z.

Definition urljoin (base url : str) : str := base ++ url.

(** [clock] minus thirty days. *)
Definition threshold : datetime :=
  {| year := 2025; month := 10; day := 5;
     hour := 9; minute := 59; second := 3; microsecond := 123 |}%Z.

End Sample.

(** ** The handlers of the pages

    What the handlers read from a page is given to them: the results of
    the selectors they call. *)

Module Pages.
Import Py Re Datetime Scrapy.
Local Open Scope py_scope.

(** A response: its URL, the [meta] of its request, and the results of
    [response.css(selector).get()] and of
    [[p.css('::text').get() for p in response.css(selector)]]. *)
Record response := {
  url : str;
  meta_title : option str;
  meta_article_date : option datetime;
  css_get : string -> option str;
  css_texts : string -> list (option str)
}.

(** A link of a listing page of bankinform.py: its [href], its text and
    the text of the date element next to it. *)
Record link := {
  href : option str;
  text : option str;
  date_text : option str
}.

(** What a listing handler yields: requests for articles, and at most
    one request for the next listing page with its page number. *)
Record listing := {
  articles : list request;
  next_page : option (str * Z)
}.

(** [s.split(sep)[0]] for a separator that is not empty: the text before
    the first [sep]. *)
Fixpoint split_head (sep s : str) : str :=
  if startswith sep s then []
  else match s with
       | [] => []
       | c :: s' => c :: split_head sep s'
       end.

(** [a or ''] *)
Definition or_empty (a : option str) : str :=
  match a with
  | Some ((_ :: _) as s) => s
  | _ => []
  end.

Section Site.
(** [urllib.parse.urljoin] and the address of the site, as
    ['https://rb.ru']. *)
Variable urljoin : str -> str -> str.
Variable site : str.

(** [clean_url] of bankinform.py, plusworld.py and rb.py, which differ in
    the site only. *)
Definition clean_url (url : option str) : option str :=
  match url with
  | Some ((_ :: _) as url) =>
      let url :=
        if startswith (u8 "//") url then u8 "https:" ++ url
        else if startswith (u8 "/") url then urljoin site url
        else if negb (startswith (u8 "http") url) then urljoin site url
        else url in
      if negb (startswith (site ++ u8 "/") url) then None
      else Some url
  | _ => None
  end.

(** [find_next_page]: the first selector that finds a link decides. *)
Fixpoint find_next_page (candidates : list (option str)) : option str :=
  match candidates with
  | [] => None
  | next_page :: rest =>
      if truthy next_page then clean_url next_page
      else find_next_page rest
  end.
End Site.

Section Text.
(** [str.lower] *)
Variable lower : str -> str.

(** [any(pattern.lower() in text.lower() for pattern in patterns)] *)
Fixpoint unwanted (patterns : list str) (text : str) : bool :=
  match patterns with
  | [] => false
  | pattern :: rest =>
      contains (lower pattern) (lower text) || unwanted rest text
  end.

(** [clean_paragraph] of bankinform.py, plusworld.py and rb.py, which
    differ in [unwanted_patterns] only. *)
Definition clean_paragraph (unwanted_patterns : list str) (text : option str)
  : result str :=
  match text with
  | Some ((_ :: _) as text) =>
      text <- sub false Bankinform.ws (u8 " ") text ;;
      let text := strip text in
      if unwanted unwanted_patterns text then Ok [] else Ok text
  | _ => Ok []
  end.

(** The inner loop of [extract_description] over the paragraphs of one
    selector: the first cleaned text of more than 30 characters. *)
Fixpoint first_long (unwanted_patterns : list str)
         (paragraphs : list (option str)) : result (option str) :=
  match paragraphs with
  | [] => Ok None
  | text :: rest =>
      if truthy text then
        clean_text <- clean_paragraph unwanted_patterns text ;;
        if truthy (Some clean_text) && (30 <? length clean_text)
        then Ok (Some clean_text)
        else first_long unwanted_patterns rest
      else first_long unwanted_patterns rest
  end.

(** The outer loop over [content_selectors]. *)
Fixpoint first_content (unwanted_patterns : list str) (r : response)
         (content_selectors : list string) : result (option str) :=
  match content_selectors with
  | [] => Ok None
  | selector :: rest =>
      found <- first_long unwanted_patterns (css_texts r selector) ;;
      match found with
      | Some clean_text => Ok (Some clean_text)
      | None => first_content unwanted_patterns r rest
      end
  end.

(** [extract_description] of bankinform.py and [extract_first_paragraph]
    of plusworld.py and rb.py, which differ in [content_selectors] and
    [unwanted_patterns] only. *)
Definition extract_description (unwanted_patterns : list str)
           (content_selectors : list string) (r : response) : result str :=
  found <- first_content unwanted_patterns r content_selectors ;;
  match found with
  | Some clean_text => Ok clean_text
  | None =>
      let first_p := css_get r "p::text" in
      if truthy first_p then
        clean_text <- clean_paragraph unwanted_patterns first_p ;;
        if truthy (Some clean_text) then Ok clean_text
        else Ok (u8 "Description not available")
      else Ok (u8 "Description not available")
  end.
End Text.

(** The title taken from the page:
    [(css(a).get() or css(b).get() or ... or "").strip()] *)
Fixpoint page_title (r : response) (selectors : list string) : option str :=
  match selectors with
  | [] => None
  | selector :: rest => por (css_get r selector) (page_title r rest)
  end.

(** [if marker in title: title = title.split(marker)[0].strip()] *)
Definition cut_title (marker title : str) : str :=
  if contains marker title then strip (split_head marker title) else title.

End Pages.

(** ** The page handlers of bankinform.py *)

Module BankinformPages.
Import Py Re Datetime Scrapy Pages.
Local Open Scope py_scope.

Definition site : str := u8 "https://bankinform.ru".

Definition unwanted_patterns : list str :=
  [u8 "Подпишитесь"; u8 "читайте также"; u8 "реклама"; u8 "advertisement";
   u8 "Фото:"; u8 "Фотография:"; u8 "Источник:"; u8 "По материалам"].

Definition content_selectors : list string :=
  ["article p"; ".article-content p"; ".post-content p"; ".content p";
   ".entry-content p"; ".news-detail p"; ".text p"]%string.

Section Handlers.
Variable urljoin : str -> str -> str.
Variable lower : str -> str.

Definition clean_url := Pages.clean_url urljoin site.
Definition find_next_page := Pages.find_next_page urljoin site.
Definition clean_paragraph := Pages.clean_paragraph lower unwanted_patterns.
Definition extract_description :=
  Pages.extract_description lower unwanted_patterns content_selectors.

Fixpoint extract_articles_with_data (E : interp) (article_links : list link)
  : result (list article_data) :=
  match article_links with
  | [] => Ok []
  | link :: rest =>
      found <-
        (if truthy (href link) && truthy (text link)
            && truthy (Some (strip (or_empty (text link))))
         then
           article_date <-
             (if truthy (date_text link)
              then Bankinform.parse_date_text E (date_text link)
              else Ok None) ;;
           match clean_url (href link) with
           | Some ((_ :: _) as full_url) =>
               Ok [{| a_url := full_url;
                      a_title := strip (or_empty (text link));
                      a_date := article_date |}]
           | _ => Ok []
           end
         else Ok []) ;;
      others <- extract_articles_with_data E rest ;;
      Ok (found ++ others)
  end.

(** [parse_article_list]: the article requests, and the request for the
    next page while [page < 3] and the page had articles. *)
Definition parse_article_list (E : interp) (threshold : datetime) (page : Z)
           (article_links : list link) (next_candidates : list (option str))
  : result listing :=
  articles_data <- extract_articles_with_data E article_links ;;
  Ok {| articles := Bankinform.parse_article_list threshold articles_data;
        next_page :=
          if (page <? 3)%Z && (0 <? length articles_data) then
            match find_next_page next_candidates with
            | Some ((_ :: _) as next_page) => Some (next_page, (page + 1)%Z)
            | _ => None
            end
          else None |}.

Definition parse_article (E : interp) (r : response) : result item :=
  let title :=
    if truthy (meta_title r) then or_empty (meta_title r)
    else strip (or_empty (page_title r ["h1::text"; ".article-title::text";
                                        "title::text"]%string)) in
  description <- extract_description r ;;
  Ok (Bankinform.parse_article E title (url r) description
        (meta_article_date r)).
End Handlers.

End BankinformPages.

(** ** The page handlers of plusworld.py *)

Module PlusworldPages.
Import Py Re Datetime Scrapy Pages.
Local Open Scope py_scope.

Definition site : str := u8 "https://plusworld.ru".

Definition unwanted_patterns : list str :=
  [u8 "–ü–æ–¥–ø–∏—à–∏—Ç–µ—Å—å"; u8 "—á–∏—Ç–∞–π—Ç–µ —Ç–∞–∫–∂–µ"; u8 "—Ä–µ–∫–ª–∞–º–∞"; u8 "advertisement"; u8 "–§–æ—Ç–æ:"; u8 "–§–æ—Ç–æ–≥—Ä–∞—Ñ–∏—è:"; u8 "–ò—Å—Ç–æ—á–Ω–∏–∫:"; u8 "–ü–æ –º–∞—Ç–µ—Ä–∏–∞–ª–∞–º"].

Definition content_selectors : list string :=
  [".article-content p"; ".post-content p"; ".content p"; ".entry-content p";
   ".text p"; "article p"; ".pw-detail .content p"]%string.

(** The loop of [extract_articles_with_dates] that removes duplicates:
    a [dict] from URL to article, filled in order, keeps the first article
    of each URL. *)
Fixpoint unique_articles (seen : list str) (articles_data : list article_data)
  : list article_data :=
  match articles_data with
  | [] => []
  | article :: rest =>
      if existsb (str_eqb (a_url article)) seen
      then unique_articles seen rest
      else article :: unique_articles (a_url article :: seen) rest
  end.

(** A card of a listing page, or one of its popular sections: the
    [href] of its link, its title and its date text. *)
Record card := {
  c_link : option str;
  c_title : option str;
  c_date_text : option str
}.

(** A link to an article: its [href], its text, and what the XPath
    expressions of [find_date_near_element] find near it, in order. *)
Record article_link := {
  l_href : option str;
  l_title : option str;
  l_near : list (option str)
}.

(** What [extract_articles_with_dates] selects from a page. *)
Record page := {
  cards : list card;
  article_links : list article_link;
  popular_sections : list card
}.

Fixpoint find_date_near_element (near : list (option str))
  : result (option str) :=
  match near with
  | [] => Ok None
  | date_text :: rest =>
      if truthy date_text then
        clean_date <- Plusworld.clean_date_text date_text ;;
        if truthy clean_date then Ok clean_date
        else find_date_near_element rest
      else find_date_near_element rest
  end.

Section Handlers.
Variable urljoin : str -> str -> str.
Variable lower : str -> str.

Definition clean_url := Pages.clean_url urljoin site.
Definition find_next_page := Pages.find_next_page urljoin site.
Definition clean_paragraph := Pages.clean_paragraph lower unwanted_patterns.
Definition extract_first_paragraph :=
  Pages.extract_description lower unwanted_patterns content_selectors.

(** The loops over the cards and over the popular sections: they differ
    in the test on the URL, [articles_only] for the cards. *)
Fixpoint from_cards (E : interp) (articles_only : bool) (cs : list card)
  : result (list article_data) :=
  match cs with
  | [] => Ok []
  | card :: rest =>
      found <-
        (if truthy (c_link card) && truthy (c_title card)
            && truthy (Some (strip (or_empty (c_title card))))
         then
           article_date <-
             (if truthy (c_date_text card)
              then Plusworld.parse_date_text E (c_date_text card)
              else Ok None) ;;
           match clean_url (c_link card) with
           | Some ((_ :: _) as full_url) =>
               if negb articles_only || contains (u8 "/articles/") full_url
               then Ok [{| a_url := full_url;
                           a_title := strip (or_empty (c_title card));
                           a_date := article_date |}]
               else Ok []
           | _ => Ok []
           end
         else Ok []) ;;
      others <- from_cards E articles_only rest ;;
      Ok (found ++ others)
  end.

(** The loop over the article links. *)
Fixpoint from_links (E : interp) (ls : list article_link)
  : result (list article_data) :=
  match ls with
  | [] => Ok []
  | link :: rest =>
      found <-
        (if truthy (l_href link) && truthy (l_title link)
            && truthy (Some (strip (or_empty (l_title link))))
            && (10 <? length (strip (or_empty (l_title link))))
         then
           date_text <- find_date_near_element (l_near link) ;;
           article_date <-
             (if truthy date_text
              then Plusworld.parse_date_text E date_text
              else Ok None) ;;
           match clean_url (l_href link) with
           | Some ((_ :: _) as full_url) =>
               Ok [{| a_url := full_url;
                      a_title := strip (or_empty (l_title link));
                      a_date := article_date |}]
           | _ => Ok []
           end
         else Ok []) ;;
      others <- from_links E rest ;;
      Ok (found ++ others)
  end.

Definition extract_articles_with_dates (E : interp) (p : page)
  : result (list article_data) :=
  articles_data <- from_cards E true (cards p) ;;
  articles_data <-
    (match articles_data with
     | [] => from_links E (article_links p)
     | _ => Ok articles_data
     end) ;;
  articles_data <-
    (match articles_data with
     | [] => from_cards E false (popular_sections p)
     | _ => Ok articles_data
     end) ;;
  Ok (unique_articles [] articles_data).

(** [parse_article_list]: the article requests, and the request for the
    next page while [page < 3] and articles are left after the first
    seven were skipped. *)
Definition parse_article_list (E : interp) (threshold : datetime) (page_no : Z)
           (search_term : str) (p : page)
           (next_candidates : list (option str)) : result listing :=
  articles_data <- extract_articles_with_dates E p ;;
  let remaining :=
    if (page_no =? 1)%Z && (7 <? length articles_data)
    then skipn 7 articles_data else articles_data in
  Ok {| articles :=
          Plusworld.parse_article_list page_no threshold search_term
            articles_data;
        next_page :=
          if (page_no <? 3)%Z && (0 <? length remaining) then
            match find_next_page next_candidates with
            | Some ((_ :: _) as next_page) =>
                Some (next_page, (page_no + 1)%Z)
            | _ => None
            end
          else None |}.

Definition parse_article (E : interp) (search_term : option str)
           (r : response) : result item :=
  let search_term :=
    match search_term with
    | Some s => s
    | None => u8 "digital-banking"
    end in
  let title :=
    if truthy (meta_title r) then or_empty (meta_title r)
    else strip (or_empty (page_title r ["h1::text"; ".article-title::text";
                                        "title::text"]%string)) in
  let title := cut_title (u8 " | Plusworld.ru") title in
  description <- extract_first_paragraph r ;;
  Ok (Plusworld.parse_article E title (url r) search_term description
        (meta_article_date r)).
End Handlers.

End PlusworldPages.

(** ** The page handlers of rb.py *)

Module RbPages.
Import Py Re Datetime Scrapy Pages.
Local Open Scope py_scope.

Definition site : str := u8 "https://rb.ru".

Definition unwanted_patterns : list str :=
  [u8 "Подпишитесь"; u8 "читайте также"; u8 "реклама"; u8 "advertisement";
   u8 "Фото:"; u8 "Фотография:"; u8 "Источник:"].

Definition content_selectors : list string :=
  [".news-item__content p"; ".article__content p"; ".post-content p";
   ".content p"; ".text p"]%string.

Section Handlers.
Variable lower : str -> str.

Definition clean_paragraph := Pages.clean_paragraph lower unwanted_patterns.
Definition extract_first_paragraph :=
  Pages.extract_description lower unwanted_patterns content_selectors.

(** [search_term] is [response.meta['search_term']], which every request
    of the spider carries. *)
Definition parse_article (E : interp) (search_term : str) (r : response)
  : result item :=
  let title :=
    strip (or_empty (page_title r ["h1.news-item__title::text";
                                   "h1.article__title::text"; "h1::text";
                                   "title::text"]%string)) in
  let title := cut_title (u8 " | RB.RU") title in
  let date_element :=
    css_get r
      "time.news-item__date::text, .news-item__date::text, time::text" in
  let article_date :=
    if truthy date_element
    then Rb.parse_russian_date E (strip (or_empty date_element))
    else None in
  description <- extract_first_paragraph r ;;
  Ok (Rb.parse_article title (url r) search_term description article_date).
End Handlers.

(** The pagination of [parse_search_results]: the request for the next
    page, with its page number, from the [href]s the two selectors
    find. *)
Definition next_request (urljoin : str -> str -> str) (page : Z)
           (pagination_next rel_next : option str) : option (str * Z) :=
  if (page <? 3)%Z then
    let next_page :=
      if negb (truthy pagination_next) then rel_next else pagination_next in
    if truthy next_page then
      match Rb.clean_url urljoin next_page with
      | Some ((_ :: _) as next_url) => Some (next_url, (page + 1)%Z)
      | _ => None
      end
    else None
  else None.

End RbPages.

(** ** The page handlers of bankcnews.py *)

Module BankcnewsPages.
Import Py Re Scrapy Pages.
Local Open Scope py_scope.

(** [' '.join(parts)] *)
Fixpoint join (sep : str) (parts : list str) : str :=
  match parts with
  | [] => []
  | [part] => part
  | part :: rest => part ++ sep ++ join sep rest
  end.

Section Handlers.
Variable lower : str -> str.

(** The loop of [extract_description] over the paragraphs: the trimmed
    texts it keeps, until it has [wanted] of them. *)
Fixpoint description_parts (wanted : nat) (article_content : list str)
  : list str :=
  match wanted, article_content with
  | O, _ => []
  | _, [] => []
  | S n, p :: rest =>
      let text := strip p in
      if (50 <? length text)
         && negb (existsb (fun word => contains word (lower text))
                    [u8 "реклама"; u8 "advertisement"; u8 "читать также"])
      then text :: description_parts n rest
      else description_parts wanted rest
  end.

(** [extract_description] from the [content] of the two [meta] elements
    and the texts of the paragraphs. *)
Definition extract_description (meta_desc og_desc : option str)
           (article_content : list str) : str :=
  if truthy meta_desc && (20 <? length (or_empty meta_desc))
  then strip (or_empty meta_desc)
  else if truthy og_desc && (20 <? length (or_empty og_desc))
  then strip (or_empty og_desc)
  else match description_parts 2 article_content with
       | [] => u8 "Description not available"
       | description_parts => join (u8 " ") description_parts
       end.

Definition parse_article (search_term : str) (r : response)
           (meta_desc og_desc : option str) (article_content : list str)
  : item :=
  let title :=
    strip (or_empty (page_title r ["h1::text"; ".article-title::text";
                                   "title::text"]%string)) in
  let title := cut_title (u8 " - CNews.ru") title in
  Bankcnews.parse_article title (url r) search_term
    (extract_description meta_desc og_desc article_content).
End Handlers.

(** The pagination of [parse_search_results]: the request for the next
    page, with its page number, from the [href]s the selector and the
    XPath expression find. *)
Definition next_request (urljoin : str -> str -> str) (page : Z)
           (rel_next text_next : option str) : option (str * Z) :=
  if (page <? 2)%Z then
    let next_page :=
      if negb (truthy rel_next) then text_next else rel_next in
    if truthy next_page then
      Some (urljoin (u8 "https://www.cnews.ru") (or_empty next_page),
            (page + 1)%Z)
    else None
  else None.

End BankcnewsPages.

(** ** The page handler of mckinseyy.py *)

Module MckinseyPages.
Import Py Scrapy Pages.

(** An element of the result page: the texts of its title and of its
    description and the [href] of its link. *)
Record entry := {
  e_title : option str;
  e_url : option str;
  e_description : option str
}.

(** What [parse] does: the records it yields and, when it writes
    [debug_page.html], the text it writes. *)
Record outcome := {
  records : list item;
  debug_page : option str
}.

Section Handlers.
(** [response.urljoin] *)
Variable urljoin : str -> str.

(** The loop of [parse] over the results. *)
Fixpoint results (items : list entry) : list item :=
  match items with
  | [] => []
  | item :: rest =>
      let title := e_title item in
      let url := e_url item in
      let url :=
        if truthy url && negb (startswith (u8 "http") (or_empty url))
        then Some (urljoin (or_empty url)) else url in
      if truthy title && truthy url then
        Mckinsey.parse (or_empty title) (or_empty url)
          (or_empty (e_description item))
          :: results rest
      else results rest
  end.

(** The loop of [try_alternative_selectors]. *)
Fixpoint alternatives (articles : list entry) : list item :=
  match articles with
  | [] => []
  | article :: rest =>
      let title := e_title article in
      let link := e_url article in
      if truthy title && truthy link then
        let link :=
          if truthy link && negb (startswith (u8 "http") (or_empty link))
          then urljoin (or_empty link) else or_empty link in
        Mckinsey.try_alternative_selectors (or_empty title) link
          (or_empty (e_description article))
          :: alternatives rest
      else alternatives rest
  end.

Definition try_alternative_selectors (text : str) (articles : list entry)
  : outcome :=
  {| records := alternatives articles; debug_page := Some text |}.

(** [parse] of a response with the given status and text. *)
Definition parse (status : Z) (text : str) (items articles : list entry)
  : outcome :=
  if negb (status =? 200)%Z then {| records := []; debug_page := None |}
  else
    match results items with
    | [] => try_alternative_selectors text articles
    | found => {| records := found; debug_page := None |}
    end.
End Handlers.

End MckinseyPages.

(** ** The vocabulary of the properties of the pages *)

Module PageSpec.
Import Py Datetime Scrapy Spec Pages.

(** The text neither starts nor ends with white space. *)
Definition trimmed (t : str) : Prop :=
  match t with [] => True | c :: _ => isspace c = false end
  /\ match rev t with [] => True | c :: _ => isspace c = false end.

(** [needle] occurs in [s]. *)
Definition occurs (needle s : str) : Prop :=
  exists pre post, s = pre ++ needle ++ post.

(** The URL is an address of the site. *)
Definition on_site (site u : str) : Prop :=
  exists path, u = site ++ u8 "/" ++ path.

(** A text a paragraph is cleaned to: empty, or trimmed, with single
    ASCII spaces as its only white space, and free of the unwanted
    patterns. *)
Definition cleaned (lower : str -> str) (unwanted_patterns : list str)
           (t : str) : Prop :=
  t = []
  \/ (trimmed t /\ well_spaced false t = true
      /\ unwanted lower unwanted_patterns t = false).

(** The time of day of the clock is midnight. *)
Definition at_midnight (dt : datetime) : Prop :=
  (hour dt = 0 /\ minute dt = 0 /\ second dt = 0 /\ microsecond dt = 0)%Z.

(** An entry of a listing as the handlers keep it: its address is on the
    site, its title is trimmed and not empty. *)
Definition well_listed (site : str) (a : article_data) : Prop :=
  on_site site (a_url a) /\ a_title a <> [] /\ trimmed (a_title a).

(** A card of plusworld.py that the loop keeps and that has a date
    text. *)
Definition dated_card (c : PlusworldPages.card) : bool :=
  truthy (PlusworldPages.c_link c) && truthy (PlusworldPages.c_title c)
  && truthy (Some (strip (or_empty (PlusworldPages.c_title c))))
  && truthy (PlusworldPages.c_date_text c).

(** An entry the loops of plusworld.py keep has no date. *)
Definition undated (a : article_data) : Prop :=
  a_date a = None /\ well_listed PlusworldPages.site a.

(** The request for an article of a listing. *)
Definition request_of (search_term : option str) (a : article_data)
  : request :=
  {| r_url := a_url a; r_title := Some (a_title a);
     r_article_date := a_date a; r_search_term := search_term |}.

End PageSpec.

(** ** Sample pages *)

Module SamplePages.
Import Py Scrapy Pages.

Definition article : article_data :=
  {| a_url := u8 "https://plusworld.ru/articles/1";
     a_title := u8 "Banks"; a_date := None |}.

Definition again : article_data :=
  {| a_url := u8 "https://plusworld.ru/articles/1";
     a_title := u8 "Banks again"; a_date := None |}.

Definition card (date_text : option str) : PlusworldPages.card :=
  {| PlusworldPages.c_link := Some (u8 "/articles/1");
     PlusworldPages.c_title := Some (u8 "Banks");
     PlusworldPages.c_date_text := date_text |}.

Definition page (date_text : option str) : PlusworldPages.page :=
  {| PlusworldPages.cards := [card date_text];
     PlusworldPages.article_links := [];
     PlusworldPages.popular_sections := [] |}.

Definition article_page : response :=
  {| url := u8 "https://plusworld.ru/articles/1";
     meta_title := Some (u8 "Banks");
     meta_article_date := None;
     css_get := fun _ => None;
     css_texts := fun _ => [] |}.

Definition news_item : Rb.news_item :=
  {| Rb.date_element := Some (u8 "3 ноября 2025");
     Rb.title_href := Some (u8 "/news/b");
     Rb.other_href := None |}.

(** A page of rb.py with a date element. *)
Definition dated_page : response :=
  {| url := u8 "https://rb.ru/news/b";
     meta_title := None;
     meta_article_date := None;
     css_get := fun selector =>
       if String.eqb selector
            "time.news-item__date::text, .news-item__date::text, time::text"
       then Some (u8 " 3 ноября 2025 ") else None;
     css_texts := fun _ => [] |}.

End SamplePages.

(** * Properties *)

(** ** Strings and Unicode tables *)

Module PyFacts.
Import Py Spec.

Lemma str_eqb_eq (a b : str) : str_eqb a b = true <-> a = b.
Proof.
  revert b; induction a as [|x a IH]; intros [|y b]; simpl;
    try (split; [discriminate | discriminate]); try tauto.
  rewrite andb_true_iff, N.eqb_eq, IH.
  split; [intros [-> ->]; reflexivity | intros H; inversion H; auto].
Qed.

Lemma str_eqb_refl (a : str) : str_eqb a a = true.
Proof. apply str_eqb_eq; reflexivity. Qed.

Lemma decimal_in_inv zs c v :
  decimal_in zs c = Some v ->
  exists z, In z zs /\ (z <= c <= z + 9)%N /\ v = Z.of_N (c - z).
Proof.
  induction zs as [|z zs IH]; simpl; [discriminate|].
  unfold in_range. destruct (z <=? c)%N eqn:H1; simpl.
  - destruct (c <=? z + 9)%N eqn:H2.
    + intros [= <-]. exists z. apply N.leb_le in H1, H2. auto.
    + intros H. destruct (IH H) as (z' & ? & ? & ?). exists z'; auto.
  - intros H. destruct (IH H) as (z' & ? & ? & ?). exists z'; auto.
Qed.

(** Every digit has a value between 0 and 9. *)
Lemma todecimal_bound c v : todecimal c = Some v -> (0 <= v <= 9)%Z.
Proof.
  intros H. apply decimal_in_inv in H. destruct H as (z & _ & Hr & ->). lia.
Qed.

Lemma block_ok_spec P z c :
  block_ok P z = true -> (z <= c <= z + 9)%N -> P c = true.
Proof.
  unfold block_ok. rewrite forallb_forall. intros H Hr.
  replace c with (z + N.of_nat (N.to_nat (c - z)))%N by lia.
  apply H. apply in_seq. lia.
Qed.

Lemma digits_blockwise P :
  forallb (block_ok P) decimal_zeros = true ->
  forall c, isdigit c = true -> P c = true.
Proof.
  intros H c Hc. unfold isdigit in Hc.
  destruct (todecimal c) as [v|] eqn:Hv; [|discriminate].
  apply decimal_in_inv in Hv. destruct Hv as (z & Hin & Hr & _).
  rewrite forallb_forall in H. eapply block_ok_spec; eauto.
Qed.

Lemma digit_not_space c : isdigit c = true -> isspace c = false.
Proof.
  intros H. apply negb_true_iff.
  revert c H. apply (digits_blockwise (fun c => negb (isspace c))).
  vm_compute. reflexivity.
Qed.

Lemma space_not_digit c : isspace c = true -> isdigit c = false.
Proof.
  intros H. destruct (isdigit c) eqn:E; [|reflexivity].
  apply digit_not_space in E. congruence.
Qed.

Lemma digits_value_number s : forall acc,
  digits s ->
  digits_value acc s
  = Ok (fold_left (fun a c => (10 * a + digit c)%Z) s acc).
Proof.
  induction s as [|c s IH]; intros acc H; simpl; [reflexivity|].
  inversion H as [|? ? Hc Hs]; subst. unfold isdigit in Hc. unfold digit at 2.
  destruct (todecimal c); [|discriminate]. apply IH, Hs.
Qed.

(** [int] of a short run of digits is the number it denotes, whatever
    the interpreter's limit. *)
Lemma int_number lim s :
  digits s -> s <> [] -> length s <= 640 -> int lim s = Ok (number s).
Proof.
  intros Hd Hne Hlen. unfold int. destruct s as [|c s]; [congruence|].
  replace (640 <? length (c :: s)) with false
    by (symmetry; apply Nat.ltb_ge; exact Hlen).
  simpl andb. cbv iota. apply digits_value_number, Hd.
Qed.

(** [int] of a run of digits below the interpreter's limit. *)
Lemma int_number_lim lim s :
  digits s -> s <> [] -> (lim = 0 \/ length s <= lim) ->
  int lim s = Ok (number s).
Proof.
  intros Hd Hne Hlen. unfold int. destruct s as [|c s]; [congruence|].
  replace ((640 <? length (c :: s)) && (0 <? lim) && (lim <? length (c :: s)))
    with false.
  - apply digits_value_number, Hd.
  - symmetry. destruct Hlen as [-> | Hlen].
    + rewrite andb_false_r. reflexivity.
    + apply andb_false_iff. right. apply Nat.ltb_ge. exact Hlen.
Qed.

(** [int] never fails in another way than by raising. *)
Lemma int_digits_total lim s :
  digits s -> s <> [] ->
  int lim s = Ok (number s) \/ int lim s = Raise ValueError.
Proof.
  intros Hd Hne. unfold int. destruct s as [|c s]; [congruence|].
  destruct (_ && _ && _); [right; reflexivity|].
  left. apply digits_value_number, Hd.
Qed.

End PyFacts.

(** ** The matcher against what a pattern denotes *)

Module ReFacts.
Import Py Re.

Lemma firstn_app_rest (w rest : str) :
  firstn (length (w ++ rest) - length rest) (w ++ rest) = w.
Proof.
  rewrite length_app.
  replace (length w + length rest - length rest) with (length w) by lia.
  rewrite firstn_app, Nat.sub_diag, firstn_all. simpl. apply app_nil_r.
Qed.

Section Engine.
Variable ic : bool.

Lemma rep_sound R cs : forall s lo hi (k : str -> option R) x,
  rep ic cs lo hi s k = Some x ->
  exists w rest,
    s = w ++ rest /\ Forall (fun c => cls_match ic cs c = true) w
    /\ within (length w) lo hi /\ k rest = Some x.
Proof.
  assert (Hstop : forall s lo hi (k : str -> option R) x,
             (if Nat.eqb lo 0 then k s else None) = Some x ->
             exists w rest,
               s = w ++ rest /\ Forall (fun c => cls_match ic cs c = true) w
               /\ within (length w) lo hi /\ k rest = Some x).
  { intros s lo hi k x H. destruct (Nat.eqb lo 0) eqn:E; [|discriminate].
    apply Nat.eqb_eq in E. subst lo. exists [], s.
    repeat split; auto. destruct hi; simpl; [lia|exact I]. }
  induction s as [|c s IH]; intros lo hi k x; simpl; [apply Hstop|].
  destruct (cls_match ic cs c && can_take hi) eqn:Ht; [|apply Hstop].
  destruct (rep ic cs (pred lo) (dec hi) s k) eqn:Hr; [|apply Hstop].
  intros [= <-]. apply IH in Hr.
  destruct Hr as (w & rest & -> & Hf & [Hlo Hhi] & Hk).
  apply andb_true_iff in Ht. destruct Ht as [Hc Hcan].
  exists (c :: w), rest. repeat split; auto; simpl; [lia|].
  destruct hi as [[|h]|]; simpl in *; try discriminate; try exact I. lia.
Qed.

Lemma rep_from_zero R cs : forall s hi (k : str -> option R),
  k s <> None -> rep ic cs 0 hi s k <> None.
Proof.
  intros [|c s] hi k H; simpl; [exact H|].
  destruct (cls_match ic cs c && can_take hi); [|exact H].
  destruct (rep ic cs 0 (dec hi) s k); [discriminate | exact H].
Qed.

Lemma rep_complete R cs : forall w lo hi rest (k : str -> option R),
  Forall (fun c => cls_match ic cs c = true) w ->
  within (length w) lo hi ->
  k rest <> None -> rep ic cs lo hi (w ++ rest) k <> None.
Proof.
  induction w as [|c w IH]; intros lo hi rest k Hf [Hlo Hhi] Hk.
  - simpl in Hlo. replace lo with 0 by lia. apply rep_from_zero, Hk.
  - inversion Hf as [|? ? Hc Hw]; subst. simpl.
    assert (Hcan : can_take hi = true).
    { destruct hi as [[|h]|]; simpl in *; auto; lia. }
    rewrite Hc, Hcan. simpl.
    assert (Hin : rep ic cs (pred lo) (dec hi) (w ++ rest) k <> None).
    { apply IH; auto. split; [simpl in Hlo; lia|].
      destruct hi as [h|]; simpl in *; [lia | exact I]. }
    destruct (rep ic cs (pred lo) (dec hi) (w ++ rest) k);
      [discriminate | congruence].
Qed.

(** A repetition that cannot take more than [w], followed by a rest of
    the pattern that succeeds, takes exactly [w]. *)
Lemma rep_greedy R cs : forall w lo hi rest (k : str -> option R) x,
  Forall (fun c => cls_match ic cs c = true) w ->
  within (length w) lo hi ->
  (hi = Some (length w)
   \/ match rest with [] => True | c :: _ => cls_match ic cs c = false end) ->
  k rest = Some x ->
  rep ic cs lo hi (w ++ rest) k = Some x.
Proof.
  induction w as [|c w IH]; intros lo hi rest k x Hf [Hlo Hhi] Hstop Hk.
  - simpl in Hlo. replace lo with 0 by lia. simpl.
    destruct rest as [|c rest]; simpl; [exact Hk|].
    replace (cls_match ic cs c && can_take hi) with false; [exact Hk|].
    symmetry. destruct Hstop as [-> | ->]; simpl; auto using andb_false_r.
  - inversion Hf as [|? ? Hc Hw]; subst. simpl.
    assert (Hcan : can_take hi = true).
    { destruct hi as [[|h]|]; simpl in *; auto; lia. }
    rewrite Hc, Hcan. simpl.
    rewrite (IH (pred lo) (dec hi) rest k x); auto.
    + split; [simpl in Hlo; lia|].
      destruct hi as [h|]; simpl in *; [lia | exact I].
    + destruct Hstop as [-> | H]; [left; reflexivity | right; exact H].
Qed.

(** What the matcher finds is what the pattern denotes, and the groups
    it hands over are the groups of that match. *)
Lemma m_sound R : forall r s caps (k : str -> list str -> option R) x,
  m ic r s caps k = Some x ->
  exists w rest g,
    s = w ++ rest /\ Groups ic r w g /\ k rest (caps ++ g) = Some x.
Proof.
  induction r as [|cs|cs lo hi|r1 IH1 r2 IH2|r1 IH1 r2 IH2|r1 IH1];
    intros s caps k x H; simpl in H.
  - exists [], s, []. rewrite app_nil_r. repeat split; auto; constructor.
  - destruct s as [|c s]; [discriminate|].
    destruct (cls_match ic cs c) eqn:Hc; [|discriminate].
    exists [c], s, []. rewrite app_nil_r.
    repeat split; auto; constructor; auto.
  - apply rep_sound in H. destruct H as (w & rest & -> & Hf & Hw & Hk).
    exists w, rest, []. rewrite app_nil_r.
    repeat split; auto; constructor; auto.
  - apply IH1 in H. destruct H as (w1 & rest1 & g1 & -> & G1 & H).
    apply IH2 in H. destruct H as (w2 & rest & g2 & -> & G2 & H).
    exists (w1 ++ w2), rest, (g1 ++ g2).
    rewrite <- !app_assoc in *. repeat split; auto. constructor; auto.
  - destruct (m ic r1 s caps k) eqn:H1.
    + injection H as <-. apply IH1 in H1.
      destruct H1 as (w & rest & g & -> & G & Hk).
      exists w, rest, g. repeat split; auto. apply GAltL; auto.
    + apply IH2 in H. destruct H as (w & rest & g & -> & G & Hk).
      exists w, rest, g. repeat split; auto. apply GAltR; auto.
  - apply IH1 in H. destruct H as (w & rest & g & -> & G & Hk).
    rewrite firstn_app_rest in Hk.
    exists w, rest, (g ++ [w]). rewrite app_assoc.
    repeat split; auto. constructor; auto.
Qed.

Lemma Groups_Matches r w g : Groups ic r w g -> Matches ic r w.
Proof.
  induction 1;
    [ apply MEps | apply MCls | apply MRep | apply MCat | apply MAltL
    | apply MAltR | apply MGroup ]; assumption.
Qed.

(** Whatever the pattern denotes, the matcher finds a match when the
    rest of the pattern can go on after it. *)
Lemma m_complete R : forall r w,
  Matches ic r w ->
  forall rest caps (k : str -> list str -> option R),
    (forall c, k rest c <> None) -> m ic r (w ++ rest) caps k <> None.
Proof.
  induction 1 as [|cs c Hc|cs lo hi w Hf Hw|r1 r2 w1 w2 _ IH1 _ IH2
                 |r1 r2 w _ IH|r1 r2 w _ IH|r w _ IH];
    intros rest caps k Hk; simpl.
  - apply Hk.
  - rewrite Hc. apply Hk.
  - apply rep_complete; auto.
  - rewrite <- app_assoc. apply IH1. intros c. apply IH2, Hk.
  - specialize (IH rest caps k Hk).
    destruct (m ic r1 (w ++ rest) caps k); [discriminate | congruence].
  - destruct (m ic r1 (w ++ rest) caps k); [discriminate|]. apply IH, Hk.
  - apply IH. intros c. apply Hk.
Qed.

Lemma match_here_sound r s mt :
  match_here ic r s = Some mt ->
  exists rest, s = whole mt ++ rest /\ Groups ic r (whole mt) (groups mt).
Proof.
  unfold match_here. intros H. apply m_sound in H.
  destruct H as (w & rest & g & -> & G & [= <-]).
  simpl. rewrite firstn_app_rest. exists rest. auto.
Qed.

Lemma match_here_complete r w rest :
  Matches ic r w -> match_here ic r (w ++ rest) <> None.
Proof.
  intros H. unfold match_here. apply m_complete; auto. discriminate.
Qed.

Lemma search_from_sound r : forall s mt,
  search_from ic r s = Some mt ->
  exists pre post,
    s = pre ++ whole mt ++ post /\ Groups ic r (whole mt) (groups mt).
Proof.
  induction s as [|c s IH]; intros mt; simpl.
  - destruct (match_here ic r []) eqn:H; [|discriminate].
    intros [= <-]. apply match_here_sound in H.
    destruct H as (rest & Hs & G). exists [], rest. auto.
  - destruct (match_here ic r (c :: s)) eqn:H.
    + intros [= <-]. apply match_here_sound in H.
      destruct H as (rest & Hs & G). exists [], rest. auto.
    + intros Hs. apply IH in Hs. destruct Hs as (pre & post & -> & G).
      exists (c :: pre), post. auto.
Qed.

Lemma search_from_complete r : forall pre w post,
  Matches ic r w -> search_from ic r (pre ++ w ++ post) <> None.
Proof.
  induction pre as [|c pre IH]; intros w post H.
  - simpl app. pose proof (match_here_complete post H) as Hm.
    destruct (w ++ post) as [|c l]; simpl;
      destruct (match_here ic r _) eqn:E; try discriminate;
      exfalso; apply Hm; reflexivity.
  - simpl. destruct (match_here ic r (c :: pre ++ w ++ post));
      [discriminate|]. apply IH, H.
Qed.

(** [search] succeeds exactly on the texts that contain a match. *)
Lemma search_from_found r s : search_from ic r s <> None <-> Found ic r s.
Proof.
  split.
  - destruct (search_from ic r s) as [mt|] eqn:H; [|congruence].
    intros _. apply search_from_sound in H.
    destruct H as (pre & post & -> & G).
    exists pre, (whole mt), post. split; auto.
    eapply Groups_Matches; eauto.
  - intros (pre & w & post & -> & H). apply search_from_complete, H.
Qed.

Lemma search_from_none r s : search_from ic r s = None <-> ~ Found ic r s.
Proof.
  rewrite <- search_from_found.
  destruct (search_from ic r s); split; intros H;
    try discriminate; try reflexivity.
  - exfalso. apply H. discriminate.
  - intros H'. apply H'. reflexivity.
Qed.

Lemma search_from_here r s mt :
  match_here ic r s = Some mt -> search_from ic r s = Some mt.
Proof. intros H. destruct s; simpl; rewrite H; reflexivity. Qed.

(** A position at which the pattern does not match is passed over. *)
Lemma search_from_skip r : forall pre s,
  Forall (fun c => forall s', match_here ic r (c :: s') = None) pre ->
  search_from ic r (pre ++ s) = search_from ic r s.
Proof.
  induction pre as [|c pre IH]; intros s H; [reflexivity|].
  inversion H as [|? ? Hc Hp]; subst. simpl. rewrite Hc. apply IH, Hp.
Qed.
End Engine.

End ReFacts.

(** ** The patterns of bankinform.py *)

Module PatternFacts.
Import Py Re Spec ReFacts PyFacts Bankinform.

Ltac inv_groups :=
  repeat match goal with
    | H : Groups _ (RCat _ _) _ _ |- _ => inversion H; clear H; subst
    | H : Groups _ (RGroup _) _ _ |- _ => inversion H; clear H; subst
    | H : Groups _ (RRep _ _ _) _ _ |- _ => inversion H; clear H; subst
    | H : Groups _ (RCls _) _ _ |- _ => inversion H; clear H; subst
    end.

Lemma digit_cls ic c : cls_match ic [CDigit] c = isdigit c.
Proof. unfold cls_match; simpl. apply orb_false_r. Qed.

Lemma space_cls ic c : cls_match ic [CSpace] c = isspace c.
Proof. unfold cls_match; simpl. apply orb_false_r. Qed.

(** The class [[а-яё]] without [re.IGNORECASE]: the letters from а
    (U+0430) to я (U+044F), and ё (U+0451). *)
Lemma cyr_cls_spec c :
  cls_match false cyr_cls c = true
  <-> ((0x430 <= c <= 0x44f)%N \/ c = 0x451%N).
Proof.
  change cyr_cls with [CRange 0x430 0x44f; CLit 0x451]%N.
  unfold cls_match. cbn [existsb citem_match]. unfold in_range.
  rewrite orb_false_r, orb_true_iff, andb_true_iff, !N.leb_le, N.eqb_eq.
  tauto.
Qed.

Lemma cyr_not_space c : cls_match false cyr_cls c = true -> isspace c = false.
Proof.
  rewrite cyr_cls_spec. intros H. unfold isspace, in_range.
  repeat match goal with
    | |- context [(?a <=? ?b)%N] =>
        destruct (N.leb_spec a b); simpl
    | |- context [(?a =? ?b)%N] =>
        destruct (N.eqb_spec a b); simpl
    end; try reflexivity; lia.
Qed.

Lemma space_not_cyr c : isspace c = true -> cls_match false cyr_cls c = false.
Proof.
  intros H. destruct (cls_match false cyr_cls c) eqn:E; [|reflexivity].
  apply cyr_not_space in E. congruence.
Qed.

(** [str.lower] leaves a run of the letters а-я and ё as it is. *)
Lemma lower_cyr s :
  Forall (fun c => cls_match false cyr_cls c = true) s -> lower s = s.
Proof.
  induction 1 as [|c s Hc _ IH]; simpl; [reflexivity|]. f_equal; [|exact IH].
  apply cyr_cls_spec in Hc. unfold tolower, in_range.
  repeat match goal with
    | |- context [(?a <=? ?b)%N] =>
        destruct (N.leb_spec a b); simpl
    | |- context [(?a =? ?b)%N] =>
        destruct (N.eqb_spec a b); simpl
    end; try reflexivity; lia.
Qed.

(** The keys of [month_mapping] are runs of the letters а-я, and its
    values are the months 1 to 12. *)
Lemma month_mapping_inv mon mo :
  dict_get month_mapping mon = Some mo ->
  Forall (fun c => cls_match false cyr_cls c = true) mon
  /\ mon <> [] /\ (1 <= mo <= 12)%Z.
Proof.
  unfold month_mapping. simpl dict_get.
  repeat match goal with
    | |- context [str_eqb mon ?k] =>
        let E := fresh in
        destruct (str_eqb mon k) eqn:E;
        [ apply str_eqb_eq in E; subst mon; intros [= <-];
          split; [|split; [discriminate | lia]];
          apply Forall_forall; intros c Hc;
          repeat (destruct Hc as [<- | Hc]; [vm_compute; reflexivity|]);
          destruct Hc
        | ]
    end.
  discriminate.
Qed.

Section Sequences.
Variable ic : bool.
Variable R : Type.

(** A group around a repetition, followed by the rest of a pattern. *)
Lemma m_group_rep cs lo hi r2 w rest caps
      (k : str -> list str -> option R) x :
  Forall (fun c => cls_match ic cs c = true) w ->
  within (length w) lo hi ->
  (hi = Some (length w)
   \/ match rest with [] => True | c :: _ => cls_match ic cs c = false end) ->
  m ic r2 rest (caps ++ [w]) k = Some x ->
  m ic (RCat (RGroup (RRep cs lo hi)) r2) (w ++ rest) caps k = Some x.
Proof.
  intros Hf Hw Hs Hk. simpl. apply rep_greedy; auto.
  rewrite firstn_app_rest. exact Hk.
Qed.

Lemma m_rep cs lo hi r2 w rest caps (k : str -> list str -> option R) x :
  Forall (fun c => cls_match ic cs c = true) w ->
  within (length w) lo hi ->
  (hi = Some (length w)
   \/ match rest with [] => True | c :: _ => cls_match ic cs c = false end) ->
  m ic r2 rest caps k = Some x ->
  m ic (RCat (RRep cs lo hi) r2) (w ++ rest) caps k = Some x.
Proof. intros Hf Hw Hs Hk. simpl. apply rep_greedy; auto. Qed.

Lemma m_last_group_rep cs lo hi w rest caps
      (k : str -> list str -> option R) x :
  Forall (fun c => cls_match ic cs c = true) w ->
  within (length w) lo hi ->
  (hi = Some (length w)
   \/ match rest with [] => True | c :: _ => cls_match ic cs c = false end) ->
  k rest (caps ++ [w]) = Some x ->
  m ic (RGroup (RRep cs lo hi)) (w ++ rest) caps k = Some x.
Proof.
  intros Hf Hw Hs Hk. simpl. apply rep_greedy; auto.
  rewrite firstn_app_rest. exact Hk.
Qed.
End Sequences.

(** A pattern that begins with a group of one or more characters of a
    class matches only where the text has a character of that class. *)
Lemma starts_with_group ic cs lo hi r2 c s :
  cls_match ic cs c = false ->
  match_here ic (RCat (RGroup (RRep cs (S lo) hi)) r2) (c :: s) = None.
Proof.
  intros Hc. destruct (match_here _ _ _) as [mt|] eqn:H; [|reflexivity].
  apply match_here_sound in H. destruct H as (rest & Hs & G).
  destruct mt as [w0 g0]; simpl in *. inv_groups.
  match goal with
  | Hf : Forall _ ?w, Hw : within (length ?w) _ _ |- _ =>
      destruct w as [|c' w']; [destruct Hw; simpl in *; lia|];
      inversion Hf; subst; simpl in Hs; injection Hs as <- _; congruence
  end.
Qed.

Lemma starts_with_rep ic cs lo hi c s :
  cls_match ic cs c = false ->
  match_here ic (RRep cs (S lo) hi) (c :: s) = None.
Proof.
  intros Hc. destruct (match_here _ _ _) as [mt|] eqn:H; [|reflexivity].
  apply match_here_sound in H. destruct H as (rest & Hs & G).
  destruct mt as [w0 g0]; simpl in *. inv_groups.
  match goal with
  | Hf : Forall _ ?w, Hw : within (length ?w) _ _ |- _ =>
      destruct w as [|c' w']; [destruct Hw; simpl in *; lia|];
      inversion Hf; subst; simpl in Hs; injection Hs as <- _; congruence
  end.
Qed.

Lemma head_of_app (P : N -> Prop) (w rest : str) :
  Forall P w -> w <> [] ->
  match w ++ rest with [] => True | c :: _ => P c end.
Proof. intros H Hne. destruct w; [congruence|]. inversion H; auto. Qed.

(** The Russian pattern on a text of the shape day, month word, year:
    the groups are the three parts. *)
Lemma russian_pattern_match pre d ws1 mon ws2 y post :
  no_digit pre ->
  digits d -> (length d = 1 \/ length d = 2) ->
  spaces ws1 -> ws1 <> [] ->
  Forall (fun c => cls_match false cyr_cls c = true) mon -> mon <> [] ->
  spaces ws2 -> ws2 <> [] ->
  digits y -> length y = 4 ->
  search_from false russian_pattern
    (pre ++ d ++ ws1 ++ mon ++ ws2 ++ y ++ post)
  = Some {| whole := d ++ ws1 ++ mon ++ ws2 ++ y; groups := [d; mon; y] |}.
Proof.
  intros Hpre Hd Hdl Hw1 Hw1n Hm Hmn Hw2 Hw2n Hy Hyl.
  rewrite search_from_skip.
  2:{ eapply Forall_impl; [|exact Hpre]. intros c Hc s'.
      apply starts_with_group. rewrite digit_cls. exact Hc. }
  assert (Hhere : match_here false russian_pattern
                    (d ++ ws1 ++ mon ++ ws2 ++ y ++ post)
                  = Some {| whole := d ++ ws1 ++ mon ++ ws2 ++ y;
                            groups := [d; mon; y] |}).
  { unfold match_here, russian_pattern, cat, d12, ws, cyr, d4.
    apply m_group_rep.
    - eapply Forall_impl; [|exact Hd]. intros c Hc. rewrite digit_cls; auto.
    - split; [lia | simpl; lia].
    - right. apply (@head_of_app (fun c => cls_match false [CDigit] c = false));
        auto. eapply Forall_impl; [|exact Hw1]. intros c Hc.
      rewrite digit_cls. apply space_not_digit, Hc.
    - apply m_rep.
      + eapply Forall_impl; [|exact Hw1]. intros c Hc. rewrite space_cls; auto.
      + split; [destruct ws1; simpl; [congruence | lia] | exact I].
      + right. apply (@head_of_app (fun c => cls_match false [CSpace] c = false));
          auto. eapply Forall_impl; [|exact Hm]. intros c Hc.
        rewrite space_cls. apply cyr_not_space, Hc.
      + apply m_group_rep.
        * exact Hm.
        * split; [destruct mon; simpl; [congruence | lia] | exact I].
        * right. apply (@head_of_app (fun c => cls_match false cyr_cls c = false));
            auto. eapply Forall_impl; [|exact Hw2]. intros c Hc.
          apply space_not_cyr, Hc.
        * apply m_rep.
          -- eapply Forall_impl; [|exact Hw2]. intros c Hc.
             rewrite space_cls; auto.
          -- split; [destruct ws2; simpl; [congruence | lia] | exact I].
          -- right.
             apply (@head_of_app (fun c => cls_match false [CSpace] c = false)).
             ++ eapply Forall_impl; [|exact Hy]. intros c Hc.
                rewrite space_cls. apply digit_not_space, Hc.
             ++ destruct y; [discriminate | congruence].
          -- apply m_last_group_rep.
             ++ eapply Forall_impl; [|exact Hy]. intros c Hc.
                rewrite digit_cls; auto.
             ++ split; simpl; lia.
             ++ left. rewrite Hyl. reflexivity.
             ++ simpl app. do 2 f_equal.
                replace (d ++ ws1 ++ mon ++ ws2 ++ y ++ post)
                  with ((d ++ ws1 ++ mon ++ ws2 ++ y) ++ post)
                  by (rewrite <- !app_assoc; reflexivity).
                apply firstn_app_rest. }
  apply search_from_here, Hhere.
Qed.

End PatternFacts.

(** ** The calendar of [datetime] *)

Module DatetimeFacts.
Import Py Datetime Spec.
Local Open Scope Z_scope.

Lemma is_leap_spec y : is_leap y = true <-> leap_year y.
Proof.
  unfold is_leap, leap_year.
  rewrite andb_true_iff, orb_true_iff, negb_true_iff, !Z.eqb_eq, Z.eqb_neq.
  assert (H : y mod 400 = 0 -> y mod 4 = 0).
  { intros H. rewrite (Z.div_mod y 400) by lia. rewrite H, Z.add_0_r.
    replace (400 * (y / 400)) with ((100 * (y / 400)) * 4) by ring.
    apply Z.mod_mul. lia. }
  tauto.
Qed.

(** [datetime(y, m, d)] checks that the date exists. *)
Lemma check_date_fields_spec y m d :
  check_date_fields y m d = true <-> valid_date y m d.
Proof.
  unfold check_date_fields, valid_date, MINYEAR, MAXYEAR.
  rewrite !andb_true_iff, !Z.leb_le. split.
  - intros [[[[[Hy1 Hy2] Hm1] Hm2] Hd1] Hd2]. split; [lia|].
    unfold days_in_month in Hd2.
    assert (Hm : m = 1 \/ m = 2 \/ m = 3 \/ m = 4 \/ m = 5 \/ m = 6 \/ m = 7
                 \/ m = 8 \/ m = 9 \/ m = 10 \/ m = 11 \/ m = 12) by lia.
    destruct (is_leap y) eqn:L.
    + apply is_leap_spec in L.
      repeat (destruct Hm as [-> | Hm]); try subst m; simpl in Hd2;
        eexists; (split; [unfold month_length|exact (conj Hd1 Hd2)]); tauto.
    + assert (L' : ~ leap_year y) by (rewrite <- is_leap_spec; congruence).
      repeat (destruct Hm as [-> | Hm]); try subst m; simpl in Hd2;
        eexists; (split; [unfold month_length|exact (conj Hd1 Hd2)]); tauto.
  - intros [Hy (n & Hn & Hd)]. unfold days_in_month.
    unfold month_length in Hn.
    destruct Hn as [[Hm ->] | [[Hm ->] | [(-> & L & ->) | (-> & L & ->)]]].
    + repeat (destruct Hm as [-> | Hm]); try subst m;
        unfold index, DAYS_IN_MONTH; simpl; lia.
    + repeat (destruct Hm as [-> | Hm]); try subst m;
        unfold index, DAYS_IN_MONTH; simpl; lia.
    + apply is_leap_spec in L. rewrite L. simpl. lia.
    + assert (L' : is_leap y = false).
      { destruct (is_leap y) eqn:E; [|reflexivity].
        apply is_leap_spec in E. contradiction. }
      rewrite L'. unfold index, DAYS_IN_MONTH. simpl. lia.
Qed.

Lemma datetime_new_valid y m d :
  check_date_fields y m d = true -> datetime_new y m d = Ok (midnight y m d).
Proof. intros H. unfold datetime_new. rewrite H. reflexivity. Qed.

Lemma datetime_new_invalid y m d :
  check_date_fields y m d = false -> datetime_new y m d = Raise ValueError.
Proof. intros H. unfold datetime_new. rewrite H. reflexivity. Qed.

Lemma cmp_refl l : cmp l l = Eq.
Proof. induction l as [|x l IH]; simpl; [|rewrite Z.compare_refl]; auto. Qed.

(** [a >= a] *)
Lemma ge_refl a : ge a a = true.
Proof. unfold ge. rewrite cmp_refl. reflexivity. Qed.

End DatetimeFacts.

(** ** The parsers of bankinform.py *)

Module ParserFacts.
Import Py Re Datetime Spec ReFacts PyFacts PatternFacts DatetimeFacts Bankinform.
Local Open Scope py_scope.

Lemma digits_of_cls ic w :
  Forall (fun c => cls_match ic [CDigit] c = true) w -> digits w.
Proof.
  intros H. eapply Forall_impl; [|exact H]. intros c Hc. cbv beta in Hc.
  rewrite digit_cls in Hc. exact Hc.
Qed.

(** The groups of a match of the Russian pattern: one or two digits, a
    run of the letters а-я and ё, four digits. *)
Lemma russian_groups s mt :
  search_from false russian_pattern s = Some mt ->
  exists g1 g2 g3,
    groups mt = [g1; g2; g3]
    /\ digits g1 /\ g1 <> [] /\ length g1 <= 2
    /\ Forall (fun c => cls_match false cyr_cls c = true) g2 /\ g2 <> []
    /\ digits g3 /\ length g3 = 4.
Proof.
  intros H. apply search_from_sound in H. destruct H as (pre & post & _ & G).
  destruct mt as [w g]; simpl in *.
  unfold russian_pattern, cat, d12, ws, cyr, d4 in G. inv_groups.
  repeat match goal with H : within _ _ _ |- _ => destruct H as [? ?] end.
  cbn [app]. do 3 eexists. split; [reflexivity|]. cbv beta iota in *.
  repeat split; eauto using digits_of_cls; try lia;
    intros ->; cbn [length] in *; lia.
Qed.

(** The groups of a match of the two numeric patterns. *)
Lemma pattern1_groups s mt :
  search_from false pattern1 s = Some mt ->
  exists g1 g2 g3,
    groups mt = [g1; g2; g3]
    /\ digits g1 /\ g1 <> [] /\ length g1 <= 2
    /\ digits g2 /\ g2 <> [] /\ length g2 <= 2
    /\ digits g3 /\ length g3 = 4.
Proof.
  intros H. apply search_from_sound in H. destruct H as (pre & post & _ & G).
  destruct mt as [w g]; simpl in *.
  unfold pattern1, cat, d12, ch, d4 in G. inv_groups.
  repeat match goal with H : within _ _ _ |- _ => destruct H as [? ?] end.
  cbn [app]. do 3 eexists. split; [reflexivity|]. cbv beta iota in *.
  repeat split; eauto using digits_of_cls; try lia;
    intros ->; cbn [length] in *; lia.
Qed.

Lemma pattern2_groups s mt :
  search_from false pattern2 s = Some mt ->
  exists g1 g2 g3,
    groups mt = [g1; g2; g3]
    /\ digits g1 /\ length g1 = 4
    /\ digits g2 /\ g2 <> [] /\ length g2 <= 2
    /\ digits g3 /\ g3 <> [] /\ length g3 <= 2.
Proof.
  intros H. apply search_from_sound in H. destruct H as (pre & post & _ & G).
  destruct mt as [w g]; simpl in *.
  unfold pattern2, cat, d12, ch, d4 in G. inv_groups.
  repeat match goal with H : within _ _ _ |- _ => destruct H as [? ?] end.
  cbn [app]. do 3 eexists. split; [reflexivity|]. cbv beta iota in *.
  repeat split; eauto using digits_of_cls; try lia;
    intros ->; cbn [length] in *; lia.
Qed.

Lemma four_nonempty (w : str) : length w = 4 -> w <> [].
Proof. intros H ->. discriminate. Qed.

(** What the statements of [parse_russian_date] compute from a match. *)
Lemma parse_russian_date_body_match E s mt :
  search_from false russian_pattern s = Some mt ->
  parse_russian_date_body E s
  = match dict_get month_mapping (group mt 2) with
    | Some mo =>
        dt <- datetime_new (number (group mt 3)) mo (number (group mt 1)) ;;
        Ok (Some dt)
    | None => Ok None
    end.
Proof.
  intros H. unfold parse_russian_date_body, search.
  change (valid russian_pattern) with true. cbv iota. simpl bind. rewrite H.
  destruct (russian_groups _ H)
    as (g1 & g2 & g3 & Hg & D1 & N1 & L1 & C2 & N2 & D3 & L3).
  unfold group. rewrite Hg. simpl nth.
  rewrite (int_number _ D1 N1) by lia.
  rewrite (int_number _ D3 (four_nonempty L3)) by lia.
  simpl bind. rewrite (lower_cyr C2). reflexivity.
Qed.

Lemma parse_russian_date_body_nomatch E s :
  search_from false russian_pattern s = None ->
  parse_russian_date_body E s = Ok None.
Proof.
  intros H. unfold parse_russian_date_body, search.
  change (valid russian_pattern) with true. cbv iota. simpl bind. rewrite H.
  reflexivity.
Qed.

(** What the statements of [parse_standard_date] compute. *)
Lemma parse_standard_date_body_match1 E s mt :
  search_from false pattern1 s = Some mt ->
  parse_standard_date_body E s
  = (dt <- datetime_new (number (group mt 3)) (number (group mt 2))
             (number (group mt 1)) ;;
     Ok (Some dt)).
Proof.
  intros H. unfold parse_standard_date_body, search.
  change (valid pattern1) with true. cbv iota. simpl bind. rewrite H.
  destruct (pattern1_groups _ H)
    as (g1 & g2 & g3 & Hg & D1 & N1 & L1 & D2 & N2 & L2 & D3 & L3).
  unfold group. rewrite Hg. simpl nth.
  rewrite (int_number _ D1 N1) by lia.
  rewrite (int_number _ D2 N2) by lia.
  rewrite (int_number _ D3 (four_nonempty L3)) by lia.
  reflexivity.
Qed.

Lemma parse_standard_date_body_match2 E s mt :
  search_from false pattern1 s = None ->
  search_from false pattern2 s = Some mt ->
  parse_standard_date_body E s
  = (dt <- datetime_new (number (group mt 1)) (number (group mt 2))
             (number (group mt 3)) ;;
     Ok (Some dt)).
Proof.
  intros H1 H. unfold parse_standard_date_body, search.
  change (valid pattern1) with true. change (valid pattern2) with true.
  cbv iota. simpl bind. rewrite H1, H.
  destruct (pattern2_groups _ H)
    as (g1 & g2 & g3 & Hg & D1 & L1 & D2 & N2 & L2 & D3 & N3 & L3).
  unfold group. rewrite Hg. simpl nth.
  rewrite (int_number _ D1 (four_nonempty L1)) by lia.
  rewrite (int_number _ D2 N2) by lia.
  rewrite (int_number _ D3 N3) by lia.
  reflexivity.
Qed.

Lemma parse_standard_date_body_nomatch E s :
  search_from false pattern1 s = None ->
  search_from false pattern2 s = None ->
  parse_standard_date_body E s = Ok None.
Proof.
  intros H1 H2. unfold parse_standard_date_body, search.
  change (valid pattern1) with true. change (valid pattern2) with true.
  cbv iota. simpl bind. rewrite H1, H2. reflexivity.
Qed.

(** The copy of [parse_russian_date] in rb.py is the same function. *)
Lemma rb_parse_russian_date E s :
  Rb.parse_russian_date E s = parse_russian_date E s.
Proof. reflexivity. Qed.

(** C2: on a text that has, after a stretch without digits, one or two
    digits, white space, a month token, white space and four digits,
    [parse_russian_date] (in bankinform.py and in rb.py) returns the date
    with that day and year and the month the mapping gives the token,
    when that date exists; when the token is a run of Cyrillic letters
    outside the mapping, it returns no date. *)
Theorem parse_russian_date_correct
        (E : interp) (pre d ws1 mon ws2 y post : str) :
  no_digit pre ->
  digits d -> (length d = 1 \/ length d = 2) ->
  spaces ws1 -> ws1 <> [] ->
  spaces ws2 -> ws2 <> [] ->
  digits y -> length y = 4 ->
  let s := pre ++ d ++ ws1 ++ mon ++ ws2 ++ y ++ post in
  (forall mo,
      dict_get month_mapping mon = Some mo ->
      valid_date (number y) mo (number d) ->
      parse_russian_date E s = Some (midnight (number y) mo (number d))
      /\ Rb.parse_russian_date E s
         = Some (midnight (number y) mo (number d)))
  /\ (Forall (fun c => cls_match false cyr_cls c = true) mon -> mon <> [] ->
      dict_get month_mapping mon = None ->
      parse_russian_date E s = None /\ Rb.parse_russian_date E s = None).
Proof.
  intros Hpre Hd Hdl Hw1 Hw1n Hw2 Hw2n Hy Hyl s.
  assert (Hm : Forall (fun c => cls_match false cyr_cls c = true) mon ->
               mon <> [] ->
               parse_russian_date_body E s
               = match dict_get month_mapping mon with
                 | Some mo =>
                     dt <- datetime_new (number y) mo (number d) ;;
                     Ok (Some dt)
                 | None => Ok None
                 end).
  { intros Hc Hn.
    rewrite (@parse_russian_date_body_match E s
               {| whole := d ++ ws1 ++ mon ++ ws2 ++ y;
                  groups := [d; mon; y] |}).
    - reflexivity.
    - apply russian_pattern_match; assumption. }
  split.
  - intros mo Hmo Hv.
    change (Rb.parse_russian_date E s) with (parse_russian_date E s).
    destruct (month_mapping_inv _ Hmo) as (Hc & Hn & _).
    unfold parse_russian_date. rewrite (Hm Hc Hn), Hmo.
    apply check_date_fields_spec in Hv.
    rewrite (datetime_new_valid _ _ _ Hv). split; reflexivity.
  - intros Hc Hn Hmo.
    change (Rb.parse_russian_date E s) with (parse_russian_date E s).
    unfold parse_russian_date. rewrite (Hm Hc Hn), Hmo. split; reflexivity.
Qed.

Lemma parse_russian_date_correct_witness :
  parse_russian_date Sample.E (u8 "27 октября 2025")
  = Some (midnight 2025 10 27).
Proof.
  refine (proj1 (proj1 (@parse_russian_date_correct Sample.E
            [] (u8 "27") (u8 " ") (u8 "октября") (u8 " ") (u8 "2025") []
            ltac:(constructor) ltac:(repeat constructor)
            ltac:(right; reflexivity)
            ltac:(repeat constructor) ltac:(discriminate)
            ltac:(repeat constructor) ltac:(discriminate)
            ltac:(repeat constructor) ltac:(reflexivity)) 10%Z
            ltac:(reflexivity) _)).
  apply check_date_fields_spec. vm_compute. reflexivity.
Defined.

End ParserFacts.

(** ** Dates that do not exist *)

Module Rejection.
Import Py Re Datetime Spec ReFacts PyFacts PatternFacts DatetimeFacts.
Import Bankinform ParserFacts.
Local Open Scope py_scope.

Lemma search_ok ic r s mt :
  valid r = true -> search ic r s = Ok mt -> search_from ic r s = mt.
Proof. unfold search. intros ->. congruence. Qed.

Lemma not_valid_date y m d :
  ~ valid_date y m d -> check_date_fields y m d = false.
Proof.
  intros H. destruct (check_date_fields y m d) eqn:E; [|reflexivity].
  apply check_date_fields_spec in E. contradiction.
Qed.

(** C3: when the numbers a parser of bankinform.py extracts are no date
    of the calendar, the construction of the [datetime] raises, the
    parser catches the exception and returns no date; and a date a
    parser returns is always the date of the extracted numbers, which
    exists. *)
Theorem invalid_dates_rejected (E : interp) (s : str) :
  (forall mt mo,
      search false russian_pattern s = Ok (Some mt) ->
      dict_get month_mapping (group mt 2) = Some mo ->
      ~ valid_date (number (group mt 3)) mo (number (group mt 1)) ->
      parse_russian_date_body E s = Raise ValueError
      /\ parse_russian_date E s = None)
  /\ (forall mt,
      search false pattern1 s = Ok (Some mt) ->
      ~ valid_date (number (group mt 3)) (number (group mt 2))
          (number (group mt 1)) ->
      parse_standard_date_body E s = Raise ValueError
      /\ parse_standard_date E s = None)
  /\ (forall mt,
      search false pattern1 s = Ok None ->
      search false pattern2 s = Ok (Some mt) ->
      ~ valid_date (number (group mt 1)) (number (group mt 2))
          (number (group mt 3)) ->
      parse_standard_date_body E s = Raise ValueError
      /\ parse_standard_date E s = None)
  /\ (forall dt,
      parse_russian_date E s = Some dt ->
      exists mt mo,
        search false russian_pattern s = Ok (Some mt)
        /\ dict_get month_mapping (group mt 2) = Some mo
        /\ valid_date (number (group mt 3)) mo (number (group mt 1))
        /\ dt = midnight (number (group mt 3)) mo (number (group mt 1)))
  /\ (forall dt,
      parse_standard_date E s = Some dt ->
      exists mt y mo d,
        valid_date y mo d /\ dt = midnight y mo d
        /\ (search false pattern1 s = Ok (Some mt)
            /\ y = number (group mt 3) /\ mo = number (group mt 2)
            /\ d = number (group mt 1)
            \/ search false pattern1 s = Ok None
               /\ search false pattern2 s = Ok (Some mt)
               /\ y = number (group mt 1) /\ mo = number (group mt 2)
               /\ d = number (group mt 3))).
Proof.
  repeat apply conj.
  - intros mt mo Hs Hmo Hv. apply search_ok in Hs; [|reflexivity].
    unfold parse_russian_date.
    rewrite (parse_russian_date_body_match E _ Hs), Hmo.
    rewrite (datetime_new_invalid _ _ _ (not_valid_date Hv)).
    split; reflexivity.
  - intros mt Hs Hv. apply search_ok in Hs; [|reflexivity].
    unfold parse_standard_date.
    rewrite (parse_standard_date_body_match1 E _ Hs).
    rewrite (datetime_new_invalid _ _ _ (not_valid_date Hv)).
    split; reflexivity.
  - intros mt Hs1 Hs Hv. apply search_ok in Hs1; [|reflexivity].
    apply search_ok in Hs; [|reflexivity].
    unfold parse_standard_date.
    rewrite (parse_standard_date_body_match2 E _ Hs1 Hs).
    rewrite (datetime_new_invalid _ _ _ (not_valid_date Hv)).
    split; reflexivity.
  - intros dt H. unfold parse_russian_date in H.
    destruct (search_from false russian_pattern s) as [mt|] eqn:Hs.
    + rewrite (parse_russian_date_body_match E _ Hs) in H.
      destruct (dict_get month_mapping (group mt 2)) as [mo|] eqn:Hmo;
        [|discriminate].
      unfold datetime_new in H.
      destruct (check_date_fields _ _ _) eqn:Hc; [|discriminate].
      injection H as <-. exists mt, mo. unfold search.
      change (valid russian_pattern) with true. cbv iota. rewrite Hs.
      split; [reflexivity|]. split; [exact Hmo|].
      split; [apply check_date_fields_spec, Hc | reflexivity].
    + rewrite (parse_russian_date_body_nomatch E _ Hs) in H. discriminate.
  - intros dt H. unfold parse_standard_date in H. unfold search.
    change (valid pattern1) with true. change (valid pattern2) with true.
    cbv iota.
    destruct (search_from false pattern1 s) as [mt|] eqn:Hs1.
    + rewrite (parse_standard_date_body_match1 E _ Hs1) in H.
      unfold datetime_new in H.
      destruct (check_date_fields _ _ _) eqn:Hc; [|discriminate].
      injection H as <-. exists mt. do 3 eexists.
      split; [apply check_date_fields_spec, Hc|].
      split; [reflexivity|]. left. auto.
    + destruct (search_from false pattern2 s) as [mt|] eqn:Hs2.
      * rewrite (parse_standard_date_body_match2 E _ Hs1 Hs2) in H.
        unfold datetime_new in H.
        destruct (check_date_fields _ _ _) eqn:Hc; [|discriminate].
        injection H as <-. exists mt. do 3 eexists.
        split; [apply check_date_fields_spec, Hc|].
        split; [reflexivity|]. right. auto.
      * rewrite (parse_standard_date_body_nomatch E _ Hs1 Hs2) in H.
        discriminate.
Qed.

Lemma invalid_dates_rejected_witness :
  parse_russian_date_body Sample.E (u8 "31 февраля 2025") = Raise ValueError
  /\ parse_russian_date Sample.E (u8 "31 февраля 2025") = None.
Proof.
  refine (proj1 (@invalid_dates_rejected Sample.E (u8 "31 февраля 2025"))
            {| whole := u8 "31 февраля 2025";
               groups := [u8 "31"; u8 "февраля"; u8 "2025"] |} 2%Z
            ltac:(reflexivity) ltac:(reflexivity) _).
  intros H. apply check_date_fields_spec in H. vm_compute in H.
  discriminate H.
Defined.

End Rejection.

(** ** Cleaning and validation in bankinform.py *)

Module Cleaning.
Import Py Re Datetime Spec ReFacts PyFacts PatternFacts DatetimeFacts.
Import Bankinform ParserFacts.
Local Open Scope py_scope.

Lemma sanitize_ok raw : sanitize raw = Ok (sanitized raw).
Proof. reflexivity. Qed.

Lemma looks_like_date_found t : forall ps,
  forallb valid ps = true -> looks_like_date ps t = Ok (found_any ps t).
Proof.
  induction ps as [|p ps IH]; simpl; [reflexivity|].
  rewrite andb_true_iff. intros [Hp Hps]. unfold search. rewrite Hp.
  simpl bind. destruct (search_from true p t); [reflexivity|].
  simpl. apply IH, Hps.
Qed.

Lemma found_any_Exists t : forall ps,
  found_any ps t = true <-> Exists (fun p => Found true p t) ps.
Proof.
  induction ps as [|p ps IH]; simpl.
  - split; [discriminate | intros H; inversion H].
  - rewrite orb_true_iff, Exists_cons, IH, <- search_from_found.
    destruct (search_from true p t); split.
    + intros _. left. discriminate.
    + intros _. left. reflexivity.
    + intros [H | H]; [discriminate | right; exact H].
    + intros [H | H]; [exfalso; apply H; reflexivity | right; exact H].
Qed.

(** [clean_date_text] on a text that is not empty. *)
Lemma clean_date_text_eq c s :
  clean_date_text (Some (c :: s))
  = Ok (if found_any date_patterns (sanitized (c :: s))
        then Some (sanitized (c :: s)) else None).
Proof.
  unfold clean_date_text. rewrite sanitize_ok.
  cbv beta iota delta [bind].
  rewrite looks_like_date_found by reflexivity. reflexivity.
Qed.

(** Every pattern of the validator needs a digit: a text it accepts is
    not empty. *)
Lemma found_any_nonempty t :
  found_any date_patterns t = true -> t <> [].
Proof. intros H ->. vm_compute in H. discriminate. Qed.

Lemma clean_date_text_found raw :
  raw <> [] ->
  Exists (fun p => Found true p (sanitized raw)) date_patterns ->
  clean_date_text (Some raw) = Ok (Some (sanitized raw)).
Proof.
  intros Hraw H. destruct raw as [|c s]; [congruence|].
  rewrite clean_date_text_eq. apply found_any_Exists in H. rewrite H.
  reflexivity.
Qed.

(** C6 (as amended): [clean_date_text] of bankinform.py accepts a text
    exactly when, after trimming, dropping the icons and collapsing the
    white space, it contains a stretch that one of the six patterns of
    the code matches without regard to case; a rejected text is parsed
    no further, [parse_date_text] returns no date. *)
Theorem clean_date_text_accepts (E : interp) (raw t : str) :
  (clean_date_text (Some raw) = Ok (Some t)
   <-> raw <> [] /\ t = sanitized raw
       /\ Exists (fun p => Found true p t) date_patterns)
  /\ (clean_date_text (Some raw) = Ok None
      <-> raw = []
          \/ ~ Exists (fun p => Found true p (sanitized raw)) date_patterns)
  /\ (clean_date_text (Some raw) = Ok None ->
      parse_date_text E (Some raw) = Ok None).
Proof.
  destruct raw as [|c s].
  - split; [|split].
    + split; [discriminate | intros [H _]; congruence].
    + split; [intros _; left; reflexivity | reflexivity].
    + reflexivity.
  - rewrite clean_date_text_eq.
    pose proof (found_any_Exists (sanitized (c :: s)) date_patterns) as HE.
    destruct (found_any date_patterns (sanitized (c :: s))) eqn:F.
    + split; [|split].
      * split.
        -- intros [= <-]. split; [discriminate|]. split; [reflexivity|].
           apply HE. reflexivity.
        -- intros (_ & -> & _). reflexivity.
      * split; [discriminate|].
        intros [H | H]; [discriminate|]. exfalso. apply H, HE. reflexivity.
      * discriminate.
    + split; [|split].
      * split; [discriminate|].
        intros (_ & -> & H). apply HE in H. discriminate.
      * split; [|reflexivity].
        intros _. right. intros H. apply HE in H. discriminate.
      * intros _. unfold parse_date_text. simpl truthy. simpl negb.
        cbv iota. rewrite clean_date_text_eq, F. reflexivity.
Qed.

Lemma clean_date_text_accepts_witness :
  parse_date_text Sample.E (Some (u8 "Подпишитесь на рассылку")) = Ok None.
Proof.
  refine (proj2 (proj2 (@clean_date_text_accepts Sample.E
            (u8 "Подпишитесь на рассылку") [])) ltac:(reflexivity)).
Defined.

(** C6, as the claim words it: a text with a day and a Cyrillic word
    that is no month name is accepted, although it has none of the six
    shapes with a month name. *)
Lemma clean_date_text_accepts_non_month :
  clean_date_text (Some (u8 "12 котов")) = Ok (Some (u8 "12 котов"))
  /\ ~ Exists (fun shape => Found true shape (u8 "12 котов")) shapes.
Proof.
  split; [reflexivity|].
  intros H. apply Exists_exists in H. destruct H as (p & Hin & Hf).
  apply search_from_found in Hf. apply Hf. clear Hf.
  repeat (destruct Hin as [<- | Hin]; [vm_compute; reflexivity|]).
  destruct Hin.
Qed.

(** *** What the first statements of [clean_date_text] achieve *)

Lemma match_here_cls cs c s :
  match_here false (RCls cs) (c :: s)
  = if cls_match false cs c
    then Some {| whole := [c]; groups := [] |} else None.
Proof.
  unfold match_here. cbn [m].
  destruct (cls_match false cs c); [|reflexivity].
  replace (length (c :: s) - length s) with 1 by (cbn [length]; lia).
  reflexivity.
Qed.

(** [re.sub] of a class by the empty string drops the characters of the
    class. *)
Lemma sub_cls_filter cs : forall s,
  sub_from false (RCls cs) [] 0 s
  = filter (fun c => negb (cls_match false cs c)) s.
Proof.
  induction s as [|c s IH]; [reflexivity|].
  cbn [sub_from filter]. rewrite match_here_cls.
  destruct (cls_match false cs c); simpl; rewrite IH; reflexivity.
Qed.

Lemma icons_cls c : cls_match false (map CLit (u8 "⏰🕒📅")) c = is_icon c.
Proof. reflexivity. Qed.

Lemma run_split s :
  Forall (fun c => isspace c = true) (firstn (space_run s) s)
  /\ match skipn (space_run s) s with
     | [] => True
     | c :: _ => isspace c = false
     end.
Proof.
  induction s as [|c s [IH1 IH2]]; simpl; [auto|].
  destruct (isspace c) eqn:Hc; simpl; auto.
Qed.

(** [\s+] at a white space character takes the whole run. *)
Lemma match_here_ws c s :
  isspace c = true ->
  exists mt,
    match_here false ws (c :: s) = Some mt
    /\ length (whole mt) = S (space_run s).
Proof.
  intros Hc. destruct (run_split s) as [H1 H2].
  exists {| whole := c :: firstn (space_run s) s; groups := [] |}. split.
  - rewrite <- (firstn_skipn (space_run s) s) at 1.
    change (c :: firstn (space_run s) s ++ skipn (space_run s) s)
      with ((c :: firstn (space_run s) s) ++ skipn (space_run s) s).
    unfold match_here, ws. cbn [m]. apply rep_greedy.
    + constructor; [rewrite space_cls; exact Hc|].
      eapply Forall_impl; [|exact H1]. intros x Hx. rewrite space_cls; auto.
    + split; [simpl; lia | exact I].
    + right. destruct (skipn (space_run s) s); [exact I|]. rewrite space_cls.
      exact H2.
    + rewrite firstn_app_rest. reflexivity.
  - simpl. f_equal. apply firstn_length_le.
    clear. induction s as [|x s IH]; simpl; [lia|].
    destruct (isspace x); simpl; lia.
Qed.

Lemma match_here_ws_none c s :
  isspace c = false -> match_here false ws (c :: s) = None.
Proof. intros H. apply starts_with_rep. rewrite space_cls. exact H. Qed.

(** After [re.sub(r'\s+', ' ', ...)] the only white space left is single
    ASCII spaces. *)
Lemma sub_ws_well_spaced : forall s,
  well_spaced true (sub_from false ws (u8 " ") (space_run s) s) = true
  /\ well_spaced false (sub_from false ws (u8 " ") 0 s) = true.
Proof.
  induction s as [|c s [IH1 IH2]]; [split; reflexivity|].
  cbn [space_run]. destruct (isspace c) eqn:Hc.
  - split; [exact IH1|]. cbn [sub_from].
    destruct (@match_here_ws c s Hc) as (mt & -> & ->).
    change (u8 " " ++ sub_from false ws (u8 " ") (space_run s) s)
      with (32%N :: sub_from false ws (u8 " ") (space_run s) s).
    cbn [well_spaced]. change (isspace 32) with true. cbv iota.
    rewrite IH1. reflexivity.
  - cbn [sub_from]. rewrite (@match_here_ws_none c s Hc).
    cbn [well_spaced]. rewrite Hc. auto.
Qed.

(** [re.sub] adds no character but those of the replacement. *)
Lemma sub_from_In ic r repl c : forall s skip,
  In c (sub_from ic r repl skip s) -> In c s \/ In c repl.
Proof.
  induction s as [|x s IH]; intros skip; cbn [sub_from].
  - destruct skip; [|intros []].
    destruct (match_here ic r []); [auto | intros []].
  - destruct skip as [|n].
    + destruct (match_here ic r (x :: s)) as [mt|].
      * destruct (length (whole mt)); intros H; apply in_app_or in H;
          destruct H as [H | H]; auto.
        -- destruct H as [<- | H]; [left; left; reflexivity|].
           destruct (IH _ H); auto. left; right; auto.
        -- destruct (IH _ H); auto. left; right; auto.
      * intros [<- | H]; [left; left; reflexivity|].
        destruct (IH _ H); auto. left; right; auto.
    + intros H. destruct (IH _ H); auto. left; right; auto.
Qed.

(** The first statements of [clean_date_text] never fail; the text they
    produce has no icon, and its only white space is single ASCII
    spaces. *)
Lemma sanitized_clean raw :
  sanitize raw = Ok (sanitized raw)
  /\ Forall (fun c => is_icon c = false) (sanitized raw)
  /\ well_spaced false (sanitized raw) = true.
Proof.
  split; [reflexivity|]. split.
  - apply Forall_forall. intros c Hc. unfold sanitized in Hc.
    apply sub_from_In in Hc. destruct Hc as [Hc | Hc].
    + unfold icons in Hc. rewrite sub_cls_filter in Hc.
      apply filter_In in Hc. destruct Hc as [_ Hc].
      rewrite icons_cls in Hc. apply negb_true_iff in Hc. exact Hc.
    + destruct Hc as [<- | []]. reflexivity.
  - unfold sanitized. apply sub_ws_well_spaced.
Qed.

(** C7: an icon at the start of the text is dropped after the text was
    trimmed, so the white space that followed the icon stays: the
    cleaned text starts with a space. *)
Theorem sanitize_leaves_leading_space :
  sanitize (u8 "📅 27 октября 2025") = Ok (u8 " 27 октября 2025")
  /\ clean_date_text (Some (u8 "📅 27 октября 2025"))
     = Ok (Some (u8 " 27 октября 2025"))
  /\ strip (u8 " 27 октября 2025") <> u8 " 27 октября 2025".
Proof. repeat split; try reflexivity. vm_compute. discriminate. Qed.

End Cleaning.

(** ** The dispatcher of bankinform.py *)

Module Dispatch.
Import Py Re Datetime Spec ReFacts PyFacts PatternFacts DatetimeFacts.
Import Bankinform ParserFacts Cleaning.
Local Open Scope py_scope.

(** [parse_date_text] is the dispatcher over the three strategies, in
    the order absolute month, relative, numeric, on the cleaned text. *)
Lemma parse_date_text_eq E raw :
  parse_date_text E raw
  = (clean <- clean_date_text raw ;;
     Ok (match clean with
         | Some t => dispatch E default_order t
         | None => None
         end)).
Proof.
  destruct raw as [[|c s]|]; try reflexivity.
  unfold parse_date_text. simpl truthy. simpl negb. cbv iota.
  rewrite clean_date_text_eq.
  destruct (found_any date_patterns (sanitized (c :: s))) eqn:F;
    [|reflexivity].
  apply found_any_nonempty in F. cbv beta iota delta [bind].
  destruct (sanitized (c :: s)) as [|c' t']; [congruence|].
  unfold default_order, dispatch, run.
  destruct (parse_russian_date E (c' :: t')); [reflexivity|].
  destruct (parse_relative_date E (c' :: t')); [reflexivity|].
  destruct (parse_standard_date E (c' :: t')); reflexivity.
Qed.

(** C4 (as amended): [parse_date_text] of bankinform.py tries, on the
    cleaned text, the absolute Russian-month parser, then the relative
    parser, then the numeric parser, and returns the first date one of
    them returns. *)
Theorem parse_date_text_order (E : interp) (raw : option str) :
  parse_date_text E raw
  = (clean <- clean_date_text raw ;;
     Ok (match clean with
         | Some t => dispatch E [AbsoluteMonth; Relative; Numeric] t
         | None => None
         end)).
Proof. apply parse_date_text_eq. Qed.

(** C4, as the claim words it: no spider tries the numeric parser as the
    only fall-back after the absolute-month parser.  bankinform.py tries
    the relative parser in between, plusworld.py and rb.py have no
    numeric parser. *)
Lemma no_spider_chains_numeric_after_month :
  Bankinform.parse_date_text Sample.E (Some (u8 "5 дней назад"))
  <> Ok (dispatch Sample.E [AbsoluteMonth; Numeric] (u8 "5 дней назад"))
  /\ Plusworld.parse_date_text Sample.E (Some (u8 "27.10.2025"))
     <> Ok (dispatch Sample.E [AbsoluteMonth; Numeric] (u8 "27.10.2025"))
  /\ Rb.parse_russian_date Sample.E (u8 "27.10.2025")
     <> dispatch Sample.E [AbsoluteMonth; Numeric] (u8 "27.10.2025").
Proof. repeat split; vm_compute; discriminate. Qed.

(** C8: [parse_date_text] of bankinform.py returns a date or no date for
    every text and raises nothing; an exception inside a parser is
    caught there, counts as no date from that parser, and the next
    parser is tried. *)
Theorem parse_date_text_total (E : interp) (raw : option str) :
  (exists r, parse_date_text E raw = Ok r)
  /\ (forall t e,
      clean_date_text raw = Ok (Some t) ->
      parse_russian_date_body E t = Raise e ->
      parse_russian_date E t = None
      /\ parse_date_text E raw = Ok (dispatch E [Relative; Numeric] t))
  /\ (forall t e,
      clean_date_text raw = Ok (Some t) ->
      parse_russian_date E t = None ->
      parse_relative_date_body E t = Raise e ->
      parse_relative_date E t = None
      /\ parse_date_text E raw = Ok (parse_standard_date E t))
  /\ (forall t e,
      clean_date_text raw = Ok (Some t) ->
      parse_russian_date E t = None ->
      parse_relative_date E t = None ->
      parse_standard_date_body E t = Raise e ->
      parse_date_text E raw = Ok None).
Proof.
  rewrite parse_date_text_eq. split; [|split; [|split]].
  - destruct raw as [[|c s]|]; try (eexists; reflexivity).
    rewrite clean_date_text_eq. eexists. reflexivity.
  - intros t e -> Hb.
    assert (H : parse_russian_date E t = None)
      by (unfold parse_russian_date; rewrite Hb; reflexivity).
    split; [exact H|]. simpl. rewrite H. reflexivity.
  - intros t e -> Hr Hb.
    assert (H : parse_relative_date E t = None)
      by (unfold parse_relative_date; rewrite Hb; reflexivity).
    split; [exact H|]. simpl. rewrite Hr, H.
    destruct (parse_standard_date E t); reflexivity.
  - intros t e -> Hr Hl Hb. simpl. rewrite Hr, Hl.
    unfold parse_standard_date. rewrite Hb. reflexivity.
Qed.

Lemma parse_date_text_total_witness :
  parse_russian_date Sample.E (u8 "31 февраля 2025 27.10.2025") = None
  /\ parse_date_text Sample.E (Some (u8 "31 февраля 2025 27.10.2025"))
     = Ok (Some (midnight 2025 10 27)).
Proof.
  refine (proj1 (proj2 (@parse_date_text_total Sample.E
            (Some (u8 "31 февраля 2025 27.10.2025"))))
            (u8 "31 февраля 2025 27.10.2025") ValueError
            ltac:(reflexivity) ltac:(reflexivity)).
Defined.

Lemma parse_relative_date_no_unit E t :
  unit_of t = None -> parse_relative_date E t = None.
Proof.
  intros H. unfold parse_relative_date, parse_relative_date_body, findall.
  change (valid dplus) with true. cbv iota. simpl bind.
  destruct (findall_from false dplus 0 t) as [|n0 l]; [reflexivity|].
  destruct (int (max_str_digits E) n0); [|reflexivity].
  simpl bind. rewrite H. reflexivity.
Qed.

Lemma no_stem_no_unit t :
  Forall (fun stem => contains stem t = false) relative_stems ->
  unit_of t = None.
Proof.
  unfold relative_stems. intros H.
  repeat match goal with
    | H : Forall _ (_ :: _) |- _ => inversion H; clear H; subst
    end.
  unfold unit_of, has.
  repeat match goal with
    | H : contains _ t = false |- _ => rewrite H; clear H
    end.
  reflexivity.
Qed.

(** C10: a text whose only date-like content is a date with slashes is
    accepted by [clean_date_text], yet each of the three parsers of
    bankinform.py returns no date for it, and so does
    [parse_date_text]. *)
Theorem slash_dates_never_parse (E : interp) (raw t : str) :
  sanitize raw = Ok t ->
  Found true (cat [d12; ch "/"; d12; ch "/"; d4]) t ->
  ~ Found false russian_pattern t ->
  ~ Found false pattern1 t ->
  ~ Found false pattern2 t ->
  Forall (fun stem => contains stem t = false) relative_stems ->
  clean_date_text (Some raw) = Ok (Some t)
  /\ parse_russian_date E t = None
  /\ parse_relative_date E t = None
  /\ parse_standard_date E t = None
  /\ parse_date_text E (Some raw) = Ok None.
Proof.
  intros Hs Hslash Hr H1 H2 Hstems.
  rewrite sanitize_ok in Hs. injection Hs as <-.
  assert (HE : Exists (fun p => Found true p (sanitized raw)) date_patterns).
  { unfold date_patterns. apply Exists_cons_tl, Exists_cons_tl, Exists_cons_hd.
    exact Hslash. }
  assert (Hraw : raw <> []).
  { intros ->. apply found_any_Exists in HE. vm_compute in HE.
    discriminate. }
  assert (Hc : clean_date_text (Some raw) = Ok (Some (sanitized raw))).
  { apply clean_date_text_found; assumption. }
  apply search_from_none in Hr, H1, H2.
  assert (Pr : parse_russian_date E (sanitized raw) = None).
  { unfold parse_russian_date.
    rewrite (parse_russian_date_body_nomatch E _ Hr). reflexivity. }
  assert (Pl : parse_relative_date E (sanitized raw) = None).
  { apply parse_relative_date_no_unit, no_stem_no_unit, Hstems. }
  assert (Ps : parse_standard_date E (sanitized raw) = None).
  { unfold parse_standard_date.
    rewrite (parse_standard_date_body_nomatch E _ H1 H2). reflexivity. }
  repeat split; auto.
  rewrite parse_date_text_eq, Hc. simpl. rewrite Pr, Pl, Ps. reflexivity.
Qed.

Lemma slash_dates_never_parse_witness :
  clean_date_text (Some (u8 "27/10/2025")) = Ok (Some (u8 "27/10/2025"))
  /\ parse_russian_date Sample.E (u8 "27/10/2025") = None
  /\ parse_relative_date Sample.E (u8 "27/10/2025") = None
  /\ parse_standard_date Sample.E (u8 "27/10/2025") = None
  /\ parse_date_text Sample.E (Some (u8 "27/10/2025")) = Ok None.
Proof.
  refine (@slash_dates_never_parse Sample.E (u8 "27/10/2025")
            (u8 "27/10/2025") ltac:(reflexivity) _ _ _ _
            ltac:(repeat constructor)).
  - apply search_from_found. vm_compute. discriminate.
  - apply search_from_none. vm_compute. reflexivity.
  - apply search_from_none. vm_compute. reflexivity.
  - apply search_from_none. vm_compute. reflexivity.
Defined.

End Dispatch.

(** ** Relative dates in bankinform.py *)

Module RelativeFacts.
Import Py Re Datetime Spec ReFacts PyFacts PatternFacts DatetimeFacts.
Import Bankinform ParserFacts.
Local Open Scope py_scope.

Lemma findall_skip s : forall pre,
  no_digit pre ->
  findall_from false dplus 0 (pre ++ s) = findall_from false dplus 0 s.
Proof.
  induction pre as [|c pre IH]; intros H; [reflexivity|].
  inversion H as [|? ? Hc Hp]; subst. simpl app. simpl findall_from.
  unfold dplus at 1. rewrite starts_with_rep by (rewrite digit_cls; exact Hc).
  apply IH, Hp.
Qed.

Lemma match_here_number n post :
  digits n -> n <> [] -> ends_number post ->
  match_here false dplus (n ++ post) = Some {| whole := n; groups := [] |}.
Proof.
  intros Hd Hn Hp. unfold match_here, dplus. simpl m. apply rep_greedy.
  - eapply Forall_impl; [|exact Hd]. intros c Hc. rewrite digit_cls; auto.
  - split; [destruct n; simpl; [congruence | lia] | exact I].
  - right. destruct post as [|c post]; [exact I|]. rewrite digit_cls.
    exact Hp.
  - rewrite firstn_app_rest. reflexivity.
Qed.

(** The first element of [re.findall(r'\d+', s)] is the first run of
    digits of [s]. *)
Lemma findall_first pre n post :
  no_digit pre -> digits n -> n <> [] -> ends_number post ->
  exists l, findall_from false dplus 0 (pre ++ n ++ post) = n :: l.
Proof.
  intros Hpre Hd Hn Hp. rewrite findall_skip by exact Hpre.
  pose proof (@match_here_number n post Hd Hn Hp) as Hm.
  destruct n as [|c n]; [congruence|].
  simpl app in *. simpl findall_from. rewrite Hm. simpl whole.
  eexists. reflexivity.
Qed.

Lemma number_nonneg n : (0 <= number n)%Z.
Proof.
  unfold number.
  assert (H : forall s acc, (0 <= acc)%Z ->
            (0 <= fold_left (fun a c => 10 * a + digit c) s acc)%Z).
  { induction s as [|c s IH]; intros acc Ha; cbn [fold_left]; [exact Ha|].
    apply IH. unfold digit. destruct (todecimal c) eqn:E; [|lia].
    apply todecimal_bound in E. lia. }
  apply H. lia.
Qed.

Lemma int_convertible lim n :
  digits n -> n <> [] -> convertible lim n -> int lim n = Ok (number n).
Proof.
  intros Hd Hn [H | H]; [apply int_number | apply int_number_lim]; auto.
Qed.

Lemma int_not_convertible lim n :
  ~ convertible lim n -> int lim n = Raise ValueError.
Proof.
  intros H. unfold convertible in H. unfold int.
  destruct n as [|c n]; [reflexivity|].
  replace ((640 <? length (c :: n)) && (0 <? lim) && (lim <? length (c :: n)))
    with true; [reflexivity|].
  symmetry. rewrite !andb_true_iff, !Nat.ltb_lt. lia.
Qed.

(** What the statements of [parse_relative_date] compute from the first
    run of digits. *)
Lemma parse_relative_date_body_eq E pre n post :
  no_digit pre -> digits n -> n <> [] -> ends_number post ->
  parse_relative_date_body E (pre ++ n ++ post)
  = (amount <- int (max_str_digits E) n ;;
     match unit_of (pre ++ n ++ post) with
     | Some u =>
         td <- timedelta_of u amount ;;
         dt <- datetime_sub (now E) td ;;
         Ok (Some dt)
     | None => Ok None
     end).
Proof.
  intros Hpre Hd Hn Hp. unfold parse_relative_date_body, findall.
  change (valid dplus) with true. cbv iota.
  destruct (@findall_first pre n post Hpre Hd Hn Hp) as (l & ->).
  reflexivity.
Qed.

End RelativeFacts.

(** ** Subtraction of a [timedelta] *)

Module RelativeArith.
Import Py Re Datetime Spec Bankinform.
Local Open Scope py_scope.
Local Open Scope Z_scope.

Lemma timedelta_new_seconds d s :
  timedelta_new d s 0
  = if 999999999 <? Z.abs (d + s / 86400) then Raise OverflowError
    else Ok {| days := d + s / 86400; seconds := s mod 86400;
               microseconds := 0 |}.
Proof.
  unfold timedelta_new. cbv zeta.
  change (0 / 1000000) with 0. change (0 mod 1000000) with 0.
  rewrite Z.add_0_r. reflexivity.
Qed.

Lemma timedelta_new_norm d s us :
  0 <= us < 1000000 ->
  timedelta_new d s us
  = if 999999999 <? Z.abs (d + s / 86400) then Raise OverflowError
    else Ok {| days := d + s / 86400; seconds := s mod 86400;
               microseconds := us |}.
Proof.
  intros H. unfold timedelta_new. cbv zeta.
  rewrite (Z.div_small us), (Z.mod_small us), Z.add_0_r by lia.
  reflexivity.
Qed.

Lemma timedelta_of_seconds u n :
  timedelta_of u n = timedelta_new 0 (n * unit_seconds u) 0.
Proof.
  rewrite timedelta_new_seconds.
  destruct u; unfold timedelta_of, timedelta_days, timedelta_hours,
    timedelta_minutes, timedelta_weeks, unit_seconds;
    rewrite timedelta_new_seconds.
  - change (0 / 86400) with 0. change (0 mod 86400) with 0.
    rewrite Z.div_mul, Z.mod_mul by lia. rewrite Z.add_0_r. reflexivity.
  - reflexivity.
  - reflexivity.
  - change (0 / 86400) with 0. change (0 mod 86400) with 0.
    replace (n * 604800) with (n * 7 * 86400) by ring.
    rewrite Z.div_mul, Z.mod_mul by lia. rewrite Z.add_0_r. reflexivity.
Qed.

Lemma datetime_sub_seconds now T :
  time_ok now -> 0 < toordinal now <= MAXORDINAL -> 0 <= T ->
  (td <- timedelta_new 0 T 0 ;; datetime_sub now td)
  = if 0 <? (instant now - T) / 86400
    then Ok (at_instant (instant now - T) (microsecond now))
    else Raise OverflowError.
Proof.
  unfold time_ok, instant, MAXORDINAL. intros (Hh & Hm & Hs & Hu) Ho HT.
  set (o := toordinal now) in *.
  set (sod := hour now * 3600 + minute now * 60 + second now).
  assert (Hsod : 0 <= sod < 86400) by (unfold sod; lia).
  rewrite timedelta_new_seconds. rewrite Z.add_0_l.
  destruct (Z.ltb_spec 999999999 (Z.abs (T / 86400))) as [Hov | Hov].
  { simpl bind.
    destruct (Z.ltb_spec 0 ((o * 86400 + sod - T) / 86400)); [|reflexivity].
    exfalso. Z.div_mod_to_equations. lia. }
  simpl bind. unfold datetime_sub, timedelta_neg. simpl days. simpl seconds.
  simpl microseconds. change (- 0) with 0.
  rewrite timedelta_new_seconds.
  destruct (Z.ltb_spec 999999999 (Z.abs (- (T / 86400) + - (T mod 86400) / 86400))) as [Hov2 | Hov2].
  { simpl bind.
    destruct (Z.ltb_spec 0 ((o * 86400 + sod - T) / 86400)); [|reflexivity].
    exfalso. Z.div_mod_to_equations. lia. }
  simpl bind. unfold datetime_add. fold o. fold sod.
  rewrite (@timedelta_new_norm _ _ _ Hu).
  rewrite (Z.div_small sod), (Z.mod_small sod), Z.add_0_r by lia.
  destruct (Z.ltb_spec 999999999 (Z.abs o)) as [Ha | _]; [lia|].
  simpl bind. simpl days. simpl seconds. simpl microseconds.
  rewrite Z.add_0_r. rewrite (@timedelta_new_norm _ _ _ Hu).
  set (D := o + (- (T / 86400) + - (T mod 86400) / 86400)
            + (sod + - (T mod 86400) mod 86400) / 86400).
  set (S := (sod + - (T mod 86400) mod 86400) mod 86400).
  assert (HD : D = (o * 86400 + sod - T) / 86400).
  { unfold D. Z.div_mod_to_equations. lia. }
  assert (HS : S = (o * 86400 + sod - T) mod 86400).
  { unfold S. Z.div_mod_to_equations. lia. }
  rewrite HD, HS. clear D S HD HS.
  set (I := o * 86400 + sod - T).
  assert (HI : I / 86400 <= 3652059).
  { unfold I. Z.div_mod_to_equations. lia. }
  destruct (Z.ltb_spec 999999999 (Z.abs (I / 86400))) as [Hov3 | Hov3].
  { simpl bind. destruct (Z.ltb_spec 0 (I / 86400)); [lia | reflexivity]. }
  simpl bind. simpl days. simpl seconds. simpl microseconds.
  unfold MAXORDINAL.
  destruct (Z.ltb_spec 0 (I / 86400)); simpl andb; [|reflexivity].
  destruct (Z.leb_spec (I / 86400) 3652059); [|lia].
  unfold at_instant. destruct (ord2ymd (I / 86400)) as [[y m] d].
  reflexivity.
Qed.

Lemma relative_arith now u n :
  time_ok now -> 0 < toordinal now <= MAXORDINAL -> 0 <= n ->
  (td <- timedelta_of u n ;; datetime_sub now td)
  = if 0 <? (instant now - n * unit_seconds u) / 86400
    then Ok (ago now n u) else Raise OverflowError.
Proof.
  intros Ht Ho Hn. rewrite timedelta_of_seconds.
  apply datetime_sub_seconds; auto. destruct u; simpl; lia.
Qed.

(** [now - n days] keeps the time of day and moves the date back by [n]
    days. *)
Lemma ago_days now n :
  time_ok now ->
  ago now n Days
  = let '(y, m, d) := ord2ymd (toordinal now - n) in
    {| year := y; month := m; day := d;
       hour := hour now; minute := minute now; second := second now;
       microsecond := microsecond now |}.
Proof.
  unfold time_ok, ago, at_instant, instant, unit_seconds.
  intros (Hh & Hm & Hs & Hu).
  set (sod := hour now * 3600 + minute now * 60 + second now).
  replace (toordinal now * 86400 + sod - n * 86400)
    with (sod + (toordinal now - n) * 86400) by ring.
  rewrite Z.div_add, Z.mod_add by lia.
  assert (Hsod : 0 <= sod < 86400) by (unfold sod; lia).
  rewrite (Z.div_small sod), (Z.mod_small sod), Z.add_0_l by lia.
  destruct (ord2ymd (toordinal now - n)) as [[y m] d].
  f_equal; unfold sod; Z.div_mod_to_equations; lia.
Qed.

End RelativeArith.

(** ** The relative parser of bankinform.py *)

Module RelativeClaims.
Import Py Re Datetime Spec ReFacts PyFacts PatternFacts DatetimeFacts.
Import Bankinform ParserFacts RelativeFacts RelativeArith.
Local Open Scope py_scope.

Lemma contains_app_r needle : forall pre s,
  contains needle s = true -> contains needle (pre ++ s) = true.
Proof.
  induction pre as [|c pre IH]; intros s H; [exact H|].
  simpl app. simpl contains. rewrite (IH s H). apply orb_true_r.
Qed.

(** C5 (as amended): [parse_relative_date] of bankinform.py takes the
    first run of digits of the text as the amount [n]; the unit is
    decided by the first of the tests for a day stem, an hour stem, the
    minute stem and the week stem that succeeds; without a stem it
    returns no date; with a stem it returns [now - n units] when [int]
    accepts the digits and that date is of the years 1 to 9999, and no
    date otherwise.  For a text [n дней назад] the date of the result is
    the date of [now] moved back by [n] days. *)
Theorem parse_relative_date_spec (E : interp) (pre n post : str) :
  no_digit pre -> digits n -> n <> [] -> ends_number post ->
  let s := pre ++ n ++ post in
  let days_stem := has "день" s || has "дня" s || has "дней" s in
  let hours_stem := has "час" s || has "часа" s || has "часов" s in
  ((days_stem = true -> unit_of s = Some Days)
   /\ (days_stem = false -> hours_stem = true -> unit_of s = Some Hours)
   /\ (days_stem = false -> hours_stem = false -> has "минут" s = true ->
       unit_of s = Some Minutes)
   /\ (days_stem = false -> hours_stem = false -> has "минут" s = false ->
       has "недел" s = true -> unit_of s = Some Weeks)
   /\ (days_stem = false -> hours_stem = false -> has "минут" s = false ->
       has "недел" s = false -> unit_of s = None))
  /\ (unit_of s = None -> parse_relative_date E s = None)
  /\ (forall u,
      unit_of s = Some u ->
      time_ok (now E) ->
      (0 < toordinal (now E) <= MAXORDINAL)%Z ->
      (convertible (max_str_digits E) n ->
       representable (now E) (number n) u ->
       parse_relative_date E s = Some (ago (now E) (number n) u))
      /\ (~ convertible (max_str_digits E) n
          \/ ~ representable (now E) (number n) u ->
          parse_relative_date E s = None))
  /\ (pre = [] -> post = u8 " дней назад" ->
      time_ok (now E) ->
      (0 < toordinal (now E) <= MAXORDINAL)%Z ->
      convertible (max_str_digits E) n ->
      representable (now E) (number n) Days ->
      exists dt,
        parse_relative_date E s = Some dt
        /\ (year dt, month dt, day dt)
           = ord2ymd (toordinal (now E) - number n)
        /\ hour dt = hour (now E) /\ minute dt = minute (now E)
        /\ second dt = second (now E)
        /\ microsecond dt = microsecond (now E)).
Proof.
  intros Hpre Hd Hn Hp s days_stem hours_stem.
  assert (Hbody := @parse_relative_date_body_eq E pre n post Hpre Hd Hn Hp).
  fold s in Hbody.
  assert (Hunits :
    forall u, unit_of s = Some u ->
      time_ok (now E) ->
      (0 < toordinal (now E) <= MAXORDINAL)%Z ->
      (convertible (max_str_digits E) n ->
       representable (now E) (number n) u ->
       parse_relative_date E s = Some (ago (now E) (number n) u))
      /\ (~ convertible (max_str_digits E) n
          \/ ~ representable (now E) (number n) u ->
          parse_relative_date E s = None)).
  { intros u Hu Ht Ho. unfold parse_relative_date. rewrite Hbody, Hu.
    pose proof (@relative_arith (now E) u (number n) Ht Ho (number_nonneg n))
      as Ha.
    unfold bind in Ha. split.
    - intros Hc [Hr _]. rewrite (int_convertible Hd Hn Hc).
      cbv beta iota delta [bind].
      destruct (timedelta_of u (number n)) as [td|e].
      + rewrite Ha.
        replace (0 <? (instant (now E) - number n * unit_seconds u) / 86400)%Z
          with true by (symmetry; apply Z.ltb_lt; exact Hr).
        reflexivity.
      + exfalso. revert Ha.
        replace (0 <? (instant (now E) - number n * unit_seconds u) / 86400)%Z
          with true by (symmetry; apply Z.ltb_lt; exact Hr).
        discriminate.
    - intros [Hc | Hr].
      + rewrite (int_not_convertible Hc). reflexivity.
      + destruct (int_digits_total (max_str_digits E) Hd Hn) as [-> | ->];
          [|reflexivity].
        cbv beta iota delta [bind].
        assert (Hneg : (0 <? (instant (now E) - number n * unit_seconds u)
                              / 86400)%Z = false).
        { apply Z.ltb_ge. unfold representable in Hr.
          assert ((instant (now E) - number n * unit_seconds u) / 86400
                  <= MAXORDINAL)%Z; [|lia].
          pose proof (number_nonneg n). unfold instant, MAXORDINAL in *.
          unfold time_ok in Ht.
          assert (0 <= number n * unit_seconds u)%Z
            by (destruct u; simpl; lia).
          Z.div_mod_to_equations. lia. }
        rewrite Hneg in Ha.
        destruct (timedelta_of u (number n)) as [td|e]; [|reflexivity].
        rewrite Ha. reflexivity. }
  split; [|split; [|split]].
  - unfold unit_of. fold days_stem. fold hours_stem.
    repeat split; intros; repeat match goal with
      | H : _ = _ |- _ => rewrite H; clear H
      end; reflexivity.
  - intros Hu. unfold parse_relative_date. rewrite Hbody, Hu.
    destruct (int (max_str_digits E) n); reflexivity.
  - exact Hunits.
  - intros -> -> Ht Ho Hc Hr.
    assert (Hu : unit_of s = Some Days).
    { unfold unit_of.
      replace (has "дней" s) with true; [rewrite !orb_true_r; reflexivity|].
      symmetry. unfold has, s. simpl app.
      apply contains_app_r. reflexivity. }
    exists (ago (now E) (number n) Days).
    split; [apply (proj1 (Hunits Days Hu Ht Ho) Hc Hr)|].
    rewrite (ago_days _ Ht).
    destruct (ord2ymd (toordinal (now E) - number n)) as [[y m] d].
    simpl. auto.
Qed.

Lemma parse_relative_date_spec_witness :
  parse_relative_date Sample.E (u8 "5 дней назад")
  = Some (ago Sample.clock 5 Days).
Proof.
  refine (proj1 (proj1 (proj2 (proj2 (@parse_relative_date_spec Sample.E
            [] (u8 "5") (u8 " дней назад")
            ltac:(constructor) ltac:(repeat constructor)
            ltac:(discriminate) ltac:(reflexivity)))) Days
            ltac:(reflexivity) _ _) _ _).
  - unfold time_ok. simpl. lia.
  - split; [reflexivity | intros H; discriminate H].
  - left. simpl. lia.
  - split; [reflexivity | intros H; discriminate H].
Defined.

(** C5, as the claim words it: a text with an integer and a day stem for
    which [now - n days] is before the year 1 gets no date. *)
Lemma parse_relative_date_out_of_range :
  findall false dplus (u8 "9999999 дней назад") = Ok [u8 "9999999"]
  /\ unit_of (u8 "9999999 дней назад") = Some Days
  /\ parse_relative_date Sample.E (u8 "9999999 дней назад") = None.
Proof. repeat split; reflexivity. Qed.

End RelativeClaims.

(** ** The order of [datetime]s *)

Module Chronology.
Import Py Datetime Spec DatetimeFacts.
Local Open Scope Z_scope.

Lemma days_before_year_succ y :
  days_before_year (y + 1) = days_before_year y + 365 + b2z (is_leap y).
Proof.
  unfold days_before_year, is_leap, b2z.
  replace (y + 1 - 1) with y by ring.
  destruct (Z.eqb_spec (y mod 4) 0), (Z.eqb_spec (y mod 100) 0),
    (Z.eqb_spec (y mod 400) 0); simpl; Z.div_mod_to_equations; lia.
Qed.

Lemma days_before_year_mono a b :
  a <= b -> days_before_year a <= days_before_year b.
Proof. unfold days_before_year. intros H. Z.div_mod_to_equations. lia. Qed.

Lemma month_cases m :
  1 <= m <= 12 ->
  m = 1 \/ m = 2 \/ m = 3 \/ m = 4 \/ m = 5 \/ m = 6 \/ m = 7 \/ m = 8
  \/ m = 9 \/ m = 10 \/ m = 11 \/ m = 12.
Proof. lia. Qed.

Ltac calc :=
  repeat match goal with
    | H : context [index ?l ?i] |- _ =>
        let v := eval vm_compute in (index l i) in
        change (index l i) with v in H
    | |- context [index ?l ?i] =>
        let v := eval vm_compute in (index l i) in
        change (index l i) with v
    | H : context [b2z ?b] |- _ =>
        let v := eval vm_compute in (b2z b) in
        change (b2z b) with v in H
    | |- context [b2z ?b] =>
        let v := eval vm_compute in (b2z b) in
        change (b2z b) with v
    | H : context [if ?b then ?x else ?y] |- _ =>
        let v := eval vm_compute in b in
        change (if b then x else y) with (if v then x else y) in H;
        cbv iota in H
    end.

Ltac months H :=
  apply month_cases in H;
  repeat (destruct H as [H | H]); subst.

(** The day of the year of a date that exists. *)
Lemma day_of_year_bound y m d :
  check_date_fields y m d = true ->
  1 <= days_before_month y m + d <= 365 + b2z (is_leap y).
Proof.
  unfold check_date_fields. rewrite !andb_true_iff, !Z.leb_le.
  intros [[[[_ Hm1] Hm2] Hd1] Hd2].
  assert (Hm : 1 <= m <= 12) by lia. clear Hm1 Hm2.
  unfold days_before_month, days_in_month in *.
  months Hm; destruct (is_leap y); calc; lia.
Qed.

Lemma day_of_year_mono y m d m' d' :
  check_date_fields y m d = true -> check_date_fields y m' d' = true ->
  m < m' ->
  days_before_month y m + d < days_before_month y m' + d'.
Proof.
  unfold check_date_fields. rewrite !andb_true_iff, !Z.leb_le.
  intros [[[[_ Hm1] Hm2] Hd1] Hd2] [[[[_ Hm1'] Hm2'] Hd1'] Hd2'] Hlt.
  assert (Hm : 1 <= m <= 12) by lia. assert (Hm' : 1 <= m' <= 12) by lia.
  clear Hm1 Hm2 Hm1' Hm2'.
  unfold days_before_month, days_in_month in *.
  months Hm; months Hm'; try lia; destruct (is_leap y); calc; lia.
Qed.

Lemma ymd2ord_year_lt y m d y' m' d' :
  check_date_fields y m d = true -> check_date_fields y' m' d' = true ->
  y < y' -> ymd2ord y m d < ymd2ord y' m' d'.
Proof.
  intros H H' Hlt. unfold ymd2ord.
  pose proof (@day_of_year_bound y m d H).
  pose proof (@day_of_year_bound y' m' d' H').
  pose proof (days_before_year_succ y).
  pose proof (@days_before_year_mono (y + 1) y' ltac:(lia)).
  lia.
Qed.

Lemma ymd2ord_lex y m d y' m' d' :
  check_date_fields y m d = true -> check_date_fields y' m' d' = true ->
  cmp [y; m; d] [y'; m'; d'] = (ymd2ord y m d ?= ymd2ord y' m' d').
Proof.
  intros H H'. cbn [cmp].
  destruct (Z.compare_spec y y') as [<- | Hy | Hy].
  - destruct (Z.compare_spec m m') as [<- | Hm | Hm].
    + unfold ymd2ord. destruct (Z.compare_spec d d') as [<- | Hd | Hd];
        symmetry; [apply Z.compare_eq_iff | apply Z.compare_lt_iff
                  | apply Z.compare_gt_iff]; lia.
    + symmetry. apply Z.compare_lt_iff. unfold ymd2ord.
      pose proof (@day_of_year_mono y m d m' d' H H' Hm). lia.
    + symmetry. apply Z.compare_gt_iff. unfold ymd2ord.
      pose proof (@day_of_year_mono y m' d' m d H' H Hm). lia.
  - symmetry. apply Z.compare_lt_iff. apply ymd2ord_year_lt; auto.
  - symmetry. apply Z.compare_gt_iff. apply ymd2ord_year_lt; auto.
Qed.

Lemma cmp_stamp a b :
  well_formed a -> well_formed b ->
  cmp (fields a) (fields b) = (stamp a ?= stamp b).
Proof.
  intros [Ha Ta] [Hb Tb]. unfold fields.
  pose proof (@ymd2ord_lex _ _ _ _ _ _ Ha Hb) as Hl.
  unfold stamp, instant, toordinal, time_ok in *.
  set (oa := ymd2ord (year a) (month a) (day a)) in *.
  set (ob := ymd2ord (year b) (month b) (day b)) in *.
  cbn [cmp] in *.
  destruct (year a ?= year b);
    [destruct (month a ?= month b); [destruct (day a ?= day b)| |]| |];
    symmetry in Hl;
    match type of Hl with
    | _ = Lt =>
        rewrite Z.compare_lt_iff in Hl; symmetry; apply Z.compare_lt_iff; lia
    | _ = Gt =>
        rewrite Z.compare_gt_iff in Hl; symmetry; apply Z.compare_gt_iff; lia
    | _ = Eq => rewrite Z.compare_eq_iff in Hl
    end.
  destruct (Z.compare_spec (hour a) (hour b));
    [destruct (Z.compare_spec (minute a) (minute b));
     [destruct (Z.compare_spec (second a) (second b));
      [destruct (Z.compare_spec (microsecond a) (microsecond b))| |]| |]| |];
    symmetry;
    first [apply Z.compare_eq_iff | apply Z.compare_lt_iff
          | apply Z.compare_gt_iff]; lia.
Qed.

(** [a >= b] on [datetime]s that denote instants is the order of the
    instants. *)
Lemma ge_chronological a b :
  well_formed a -> well_formed b -> (ge a b = true <-> stamp b <= stamp a).
Proof.
  intros Ha Hb. unfold ge. rewrite (cmp_stamp Ha Hb).
  destruct (Z.compare_spec (stamp a) (stamp b)); split; intros; try lia;
    try reflexivity; discriminate.
Qed.

End Chronology.

(** ** The recency filter of the listing handlers *)

Module Listing.
Import Py Re Datetime Scrapy Spec DatetimeFacts Chronology.
Local Open Scope py_scope.

Lemma is_recent_spec date threshold :
  Bankinform.is_recent date threshold = true
  <-> date = None \/ exists d, date = Some d /\ ge d threshold = true.
Proof.
  destruct date as [d|]; simpl.
  - split.
    + intros H. right. exists d. auto.
    + intros [H | (d' & [= <-] & H)]; [discriminate | exact H].
  - split; auto.
Qed.

Lemma bankinform_requests threshold r : forall articles,
  In r (Bankinform.parse_article_list threshold articles)
  <-> exists a,
        In a articles
        /\ Bankinform.is_recent (a_date a) threshold = true
        /\ r = {| r_url := a_url a; r_title := Some (a_title a);
                  r_article_date := a_date a; r_search_term := None |}.
Proof.
  induction articles as [|a articles IH]; simpl.
  - split; [intros [] | intros (a & [] & _)].
  - destruct (Bankinform.is_recent (a_date a) threshold) eqn:Ha; simpl;
      rewrite IH; split.
    + intros [<- | (a' & Hin & Hr & ->)]; [exists a | exists a']; auto.
    + intros (a' & [<- | Hin] & Hr & ->); [left; reflexivity|].
      right. exists a'. auto.
    + intros (a' & Hin & Hr & ->). exists a'. auto.
    + intros (a' & [<- | Hin] & Hr & ->); [congruence|]. exists a'. auto.
Qed.

Lemma plusworld_requests threshold term r : forall articles,
  In r (Plusworld.article_requests threshold term articles)
  <-> exists a,
        In a articles
        /\ Bankinform.is_recent (a_date a) threshold = true
        /\ r = {| r_url := a_url a; r_title := Some (a_title a);
                  r_article_date := a_date a;
                  r_search_term := Some term |}.
Proof.
  induction articles as [|a articles IH]; simpl.
  - split; [intros [] | intros (a & [] & _)].
  - destruct (Bankinform.is_recent (a_date a) threshold) eqn:Ha; simpl;
      rewrite IH; split.
    + intros [<- | (a' & Hin & Hr & ->)]; [exists a | exists a']; auto.
    + intros (a' & [<- | Hin] & Hr & ->); [left; reflexivity|].
      right. exists a'. auto.
    + intros (a' & Hin & Hr & ->). exists a'. auto.
    + intros (a' & [<- | Hin] & Hr & ->); [congruence|]. exists a'. auto.
Qed.

(** C1 (as amended): the listing handlers of bankinform.py and
    plusworld.py request an entry they look at exactly when its date is
    unknown or not before the threshold, a date equal to the threshold
    included ([>=] on well-formed [datetime]s being the order of the
    instants); the handler of rb.py lets an element pass its date filter
    only when its date is known and not before the threshold. *)
Theorem recency_filter (threshold : datetime) :
  (forall date,
      Bankinform.is_recent date threshold = true
      <-> date = None \/ exists d, date = Some d /\ ge d threshold = true)
  /\ Bankinform.is_recent (Some threshold) threshold = true
  /\ Bankinform.is_recent None threshold = true
  /\ (forall d,
      well_formed d -> well_formed threshold ->
      (Bankinform.is_recent (Some d) threshold = true
       <-> (stamp threshold <= stamp d)%Z))
  /\ (forall articles r,
      In r (Bankinform.parse_article_list threshold articles)
      <-> exists a,
            In a articles
            /\ Bankinform.is_recent (a_date a) threshold = true
            /\ r = {| r_url := a_url a; r_title := Some (a_title a);
                      r_article_date := a_date a; r_search_term := None |})
  /\ (forall page term articles r,
      In r (Plusworld.parse_article_list page threshold term articles)
      <-> exists a,
            In a (firstn 15
                    (if (page =? 1)%Z && (7 <? length articles)
                     then skipn 7 articles else articles))
            /\ Bankinform.is_recent (a_date a) threshold = true
            /\ r = {| r_url := a_url a; r_title := Some (a_title a);
                      r_article_date := a_date a;
                      r_search_term := Some term |})
  /\ (forall date,
      Rb.date_in_range date threshold = true
      <-> exists d, date = Some d /\ ge d threshold = true)
  /\ Rb.date_in_range None threshold = false.
Proof.
  split; [intros date; apply is_recent_spec|].
  split; [apply ge_refl|].
  split; [reflexivity|].
  split; [intros d Hd Ht; apply ge_chronological; assumption|].
  split; [intros articles r; apply bankinform_requests|].
  split; [intros page term articles r; apply plusworld_requests|].
  split; [|reflexivity].
  intros [d|]; simpl.
  - split; [intros H; exists d; auto | intros (d' & [= <-] & H); exact H].
  - split; [discriminate | intros (d & H & _); discriminate].
Qed.

Lemma recency_filter_witness :
  Bankinform.is_recent (Some (midnight 2025 10 27)) Sample.threshold = true
  /\ Bankinform.is_recent (Some (midnight 2025 10 5)) Sample.threshold
     <> true.
Proof.
  assert (Hw : forall y m d,
             check_date_fields y m d = true -> well_formed (midnight y m d)).
  { intros y m d H. split; [exact H|]. unfold time_ok. simpl. lia. }
  assert (Ht : well_formed Sample.threshold).
  { split; [reflexivity|]. unfold time_ok. simpl. lia. }
  pose proof (proj1 (proj2 (proj2 (proj2
                (@recency_filter Sample.threshold))))) as H.
  split.
  - apply (H (midnight 2025 10 27) (Hw 2025 10 27 eq_refl)%Z Ht).
    intros C. discriminate C.
  - intros C.
    apply (H (midnight 2025 10 5) (Hw 2025 10 5 eq_refl)%Z Ht) in C.
    apply C. reflexivity.
Defined.

(** The examples of the specification: the threshold itself passes, the
    day before does not. *)
Lemma is_recent_examples :
  Bankinform.is_recent (Some (midnight 2025 9 27)) (midnight 2025 9 27) = true
  /\ Bankinform.is_recent (Some (midnight 2025 9 26)) (midnight 2025 9 27)
     = false.
Proof. split; reflexivity. Qed.

(** C1, as the claim words it: the handler of rb.py does not request an
    element whose date is unknown, when another element passes. *)
Lemma rb_drops_unknown_dates :
  let undated := {| Rb.date_element := Some (u8 "вчера");
                    Rb.title_href := Some (u8 "https://rb.ru/news/a");
                    Rb.other_href := None |} in
  let recent := {| Rb.date_element := Some (u8 "3 ноября 2025");
                   Rb.title_href := Some (u8 "https://rb.ru/news/b");
                   Rb.other_href := None |} in
  Bankinform.date_threshold Sample.E = Ok Sample.threshold
  /\ Rb.parse_russian_date Sample.E (strip (u8 "вчера")) = None
  /\ Bankinform.is_recent None Sample.threshold = true
  /\ map r_url
       (Rb.parse_search_results Sample.urljoin Sample.E Sample.threshold
          (u8 "банк") [undated; recent]
          [Some (u8 "https://rb.ru/news/a"); Some (u8 "https://rb.ru/news/b")])
     = [u8 "https://rb.ru/news/b"].
Proof. repeat split; reflexivity. Qed.

End Listing.

(** ** The emitted records *)

Module Records.
Import Py Datetime Scrapy Spec PyFacts DatetimeFacts.

Lemma fmt_length w : forall n, length (fmt w n) = w.
Proof.
  induction w as [|w IH]; intros n; cbn [fmt]; [reflexivity|].
  rewrite length_app, IH. simpl. lia.
Qed.

Lemma ascii_digit r :
  (0 <= r <= 9)%Z -> todecimal (Z.to_N (48 + r)) = Some r.
Proof.
  intros H. unfold todecimal, decimal_zeros. cbn [decimal_in].
  unfold in_range.
  replace (48 <=? Z.to_N (48 + r))%N with true
    by (symmetry; apply N.leb_le; lia).
  replace (Z.to_N (48 + r) <=? 48 + 9)%N with true
    by (symmetry; apply N.leb_le; lia).
  cbn [andb]. f_equal. lia.
Qed.

Lemma fmt_digits w : forall n, digits (fmt w n).
Proof.
  induction w as [|w IH]; intros n; cbn [fmt]; [constructor|].
  apply Forall_app. split; [apply IH|]. constructor; [|constructor].
  unfold isdigit. rewrite ascii_digit; [reflexivity|].
  pose proof (Z.mod_pos_bound n 10). lia.
Qed.

Lemma number_snoc s c : number (s ++ [c]) = (10 * number s + digit c)%Z.
Proof. unfold number. rewrite fold_left_app. reflexivity. Qed.

(** The digits ['%0<w>d' % n] writes denote [n]. *)
Lemma fmt_number w : forall n,
  (0 <= n < 10 ^ Z.of_nat w)%Z -> number (fmt w n) = n.
Proof.
  induction w as [|w IH]; intros n Hn.
  - simpl in *. unfold number. simpl. lia.
  - cbn [fmt]. rewrite number_snoc, IH.
    + unfold digit. rewrite ascii_digit.
      * pose proof (Z.div_mod n 10). lia.
      * pose proof (Z.mod_pos_bound n 10). lia.
    + rewrite Nat2Z.inj_succ, Z.pow_succ_r in Hn by lia.
      split; [apply Z.div_pos; lia|].
      apply Z.div_lt_upper_bound; lia.
Qed.

(** The [isoformat] of a calendar date: the year, the month and the day
    in digits, and midnight. *)
Lemma isoformat_date y m d :
  valid_date y m d ->
  exists Y M D,
    isoformat (midnight y m d)
    = Y ++ u8 "-" ++ M ++ u8 "-" ++ D ++ u8 "T00:00:00"
    /\ length Y = 4 /\ length M = 2 /\ length D = 2
    /\ digits Y /\ digits M /\ digits D
    /\ number Y = y /\ number M = m /\ number D = d.
Proof.
  intros [Hy (n & Hn & Hd)].
  exists (fmt 4 y), (fmt 2 m), (fmt 2 d).
  split; [reflexivity|].
  rewrite !fmt_length. repeat split; try apply fmt_digits;
    apply fmt_number; try (simpl; lia).
  - unfold month_length in Hn. change (10 ^ Z.of_nat 2)%Z with 100%Z. lia.
  - unfold month_length in Hn. change (10 ^ Z.of_nat 2)%Z with 100%Z. lia.
Qed.

(** C9 (as amended): bankinform.py and plusworld.py emit records with
    exactly the six fields, [article_date] being [None] or the
    [isoformat] of the date and [scraped_at] the [isoformat] of the
    clock; rb.py emits no [scraped_at], bankcnews.py neither
    [article_date] nor [scraped_at], mckinseyy.py only [title], [url] and
    [description].  The [isoformat] of a parsed calendar date is its
    year, month and day in four, two and two digits, followed by
    [T00:00:00]. *)
Theorem emitted_records :
  (forall E title url description article_date,
      let it := Bankinform.parse_article E title url description
                  article_date in
      keys it = six_fields
      /\ get it "article_date"
         = Some (match article_date with
                 | Some d => VStr (isoformat d)
                 | None => VNone
                 end)
      /\ get it "scraped_at" = Some (VStr (isoformat (now E))))
  /\ (forall E title url search_term description article_date,
      let it := Plusworld.parse_article E title url search_term description
                  article_date in
      keys it = six_fields
      /\ get it "article_date"
         = Some (match article_date with
                 | Some d => VStr (isoformat d)
                 | None => VNone
                 end)
      /\ get it "scraped_at" = Some (VStr (isoformat (now E))))
  /\ (forall title url search_term description article_date,
      keys (Rb.parse_article title url search_term description article_date)
      = ["title"; "url"; "search_term"; "description"; "article_date"]%string)
  /\ (forall title url search_term description,
      keys (Bankcnews.parse_article title url search_term description)
      = ["title"; "url"; "search_term"; "description"]%string)
  /\ (forall title url description,
      keys (Mckinsey.parse title url description)
      = ["title"; "url"; "description"]%string
      /\ keys (Mckinsey.try_alternative_selectors title url description)
         = ["title"; "url"; "description"]%string)
  /\ (forall y m d,
      valid_date y m d ->
      exists Y M D,
        isoformat (midnight y m d)
        = Y ++ u8 "-" ++ M ++ u8 "-" ++ D ++ u8 "T00:00:00"
        /\ length Y = 4 /\ length M = 2 /\ length D = 2
        /\ digits Y /\ digits M /\ digits D
        /\ number Y = y /\ number M = m /\ number D = d).
Proof.
  split; [intros; repeat split|].
  split; [intros; repeat split|].
  split; [reflexivity|].
  split; [reflexivity|].
  split; [intros; split; reflexivity|].
  apply isoformat_date.
Qed.

Lemma emitted_records_witness :
  exists Y M D,
    isoformat (midnight 2025 10 27)
    = Y ++ u8 "-" ++ M ++ u8 "-" ++ D ++ u8 "T00:00:00"
    /\ length Y = 4 /\ length M = 2 /\ length D = 2
    /\ digits Y /\ digits M /\ digits D
    /\ number Y = 2025%Z /\ number M = 10%Z /\ number D = 27%Z.
Proof.
  apply (proj2 (proj2 (proj2 (proj2 (proj2 emitted_records))))).
  apply check_date_fields_spec. reflexivity.
Defined.

(** C9, as the claim words it: the records of rb.py, bankcnews.py and
    mckinseyy.py have fewer than the six fields, and [article_date] is a
    date with a time of day. *)
Lemma records_without_six_fields :
  keys (Rb.parse_article (u8 "t") (u8 "https://rb.ru/news/a") (u8 "банк")
          (u8 "d") None) <> six_fields
  /\ keys (Bankcnews.parse_article (u8 "t") (u8 "https://www.cnews.ru/news/a")
             (u8 "банк") (u8 "d")) <> six_fields
  /\ keys (Mckinsey.parse (u8 "t") (u8 "https://www.mckinsey.com/a") (u8 "d"))
     <> six_fields
  /\ get (Bankinform.parse_article Sample.E (u8 "t")
            (u8 "https://bankinform.ru/news/1") (u8 "d")
            (Some (midnight 2025 10 27))) "article_date"
     = Some (VStr (u8 "2025-10-27T00:00:00")).
Proof. repeat split; try discriminate; reflexivity. Qed.

End Records.

(** ** plusworld.py as the file has it *)

Module PlusworldFacts.
Import Py Re Datetime Spec.

(** The first pattern of the validator has a range whose ends are in the
    wrong order: compiling it raises [re.error], whatever the text. *)
Lemma plusworld_clean_date_text_raises c s :
  Plusworld.clean_date_text (Some (c :: s)) = Raise ReError.
Proof. reflexivity. Qed.

Lemma plusworld_parse_date_text_raises E c s :
  Plusworld.parse_date_text E (Some (c :: s)) = Raise ReError.
Proof. reflexivity. Qed.

(** The same pattern in [parse_russian_date] is under [try:]. *)
Lemma plusworld_parse_russian_date_none E s :
  Plusworld.parse_russian_date E s = None.
Proof. reflexivity. Qed.

(** The stems of [parse_relative_date] are not the Cyrillic ones. *)
Lemma plusworld_parse_relative_date_cyrillic :
  Plusworld.parse_relative_date Sample.E (u8 "5 дней назад") = None.
Proof. reflexivity. Qed.

End PlusworldFacts.

(** ** The calendar: ordinals and dates *)

Module Calendar.
Import Py Datetime Spec DatetimeFacts Chronology RelativeArith.
Local Open Scope Z_scope.

Lemma days_before_year_cycles a b c d :
  0 <= a -> 0 <= b <= 3 -> 0 <= c <= 24 -> 0 <= d <= 3 ->
  days_before_year (400 * a + 100 * b + 4 * c + d + 1)
  = 146097 * a + 36524 * b + 1461 * c + 365 * d.
Proof.
  intros. unfold days_before_year.
  replace (400 * a + 100 * b + 4 * c + d + 1 - 1)
    with (400 * a + 100 * b + 4 * c + d) by ring.
  Z.div_mod_to_equations. lia.
Qed.

Lemma is_leap_cycles a b c d :
  0 <= a -> 0 <= b <= 3 -> 0 <= c <= 24 -> 0 <= d <= 3 ->
  is_leap (400 * a + 100 * b + 4 * c + d + 1)
  = (d =? 3) && (negb (c =? 24) || (b =? 3)).
Proof.
  intros. unfold is_leap.
  set (y := 400 * a + 100 * b + 4 * c + d + 1).
  destruct (Z.eqb_spec d 3), (Z.eqb_spec c 24), (Z.eqb_spec b 3);
    destruct (Z.eqb_spec (y mod 4) 0), (Z.eqb_spec (y mod 100) 0),
      (Z.eqb_spec (y mod 400) 0); simpl; try reflexivity; exfalso;
    unfold y in *; Z.div_mod_to_equations; lia.
Qed.

Ltac calc_if :=
  repeat match goal with
    | |- context [if ?b then ?x else ?y] =>
        let v := eval vm_compute in b in
        match v with
        | true => change (if b then x else y) with x
        | false => change (if b then x else y) with y
        end
    end.

Lemma ord2ymd_spec n :
  1 <= n <= MAXORDINAL ->
  let '(y, m, d) := ord2ymd n in
  check_date_fields y m d = true /\ ymd2ord y m d = n.
Proof.
  unfold MAXORDINAL. intros Hn. unfold ord2ymd.
  change DI400Y with 146097. change DI100Y with 36524.
  change DI4Y with 1461. cbv zeta.
  set (n0 := n - 1).
  pose proof (Z.div_mod n0 146097 ltac:(lia)) as E1.
  pose proof (Z.mod_pos_bound n0 146097 ltac:(lia)) as B1.
  set (a := n0 / 146097) in *. set (r := n0 mod 146097) in *.
  pose proof (Z.div_mod r 36524 ltac:(lia)) as E2.
  pose proof (Z.mod_pos_bound r 36524 ltac:(lia)) as B2.
  set (b := r / 36524) in *. set (r1 := r mod 36524) in *.
  pose proof (Z.div_mod r1 1461 ltac:(lia)) as E3.
  pose proof (Z.mod_pos_bound r1 1461 ltac:(lia)) as B3.
  set (c := r1 / 1461) in *. set (r2 := r1 mod 1461) in *.
  pose proof (Z.div_mod r2 365 ltac:(lia)) as E4.
  pose proof (Z.mod_pos_bound r2 365 ltac:(lia)) as B4.
  set (d := r2 / 365) in *. set (r3 := r2 mod 365) in *.
  assert (Ha : 0 <= a <= 24) by (unfold n0 in *; lia).
  assert (Hb : 0 <= b <= 4) by lia.
  assert (Hc : 0 <= c <= 24) by lia.
  assert (Hd : 0 <= d <= 4) by lia.
  clearbody a r b r1 c r2 d r3.
  destruct (Z.eqb_spec d 4) as [D4 | D4]; cbn [orb].
  { (* the last day of a leap year *)
    assert (Hb3 : 0 <= b <= 3) by lia.
    assert (Hc3 : 0 <= c <= 23) by lia.
    replace (a * 400 + 1 + b * 100 + c * 4 + d - 1)
      with (400 * a + 100 * b + 4 * c + 3 + 1) by lia.
    unfold check_date_fields, ymd2ord, days_in_month, days_before_month,
      MINYEAR, MAXYEAR.
    rewrite days_before_year_cycles, is_leap_cycles by lia.
    replace (c =? 24) with false by (symmetry; apply Z.eqb_neq; lia).
    change (3 =? 3) with true. cbn [andb orb negb]. calc. calc_if.
    rewrite !andb_true_iff, !Z.leb_le. unfold n0 in *. lia. }
  destruct (Z.eqb_spec b 4) as [B4' | B4'].
  { (* the last day of a cycle of 400 years *)
    assert (c = 0 /\ d = 0 /\ r3 = 0) as (-> & -> & ->) by lia.
    replace (a * 400 + 1 + b * 100 + 0 * 4 + 0 - 1)
      with (400 * a + 100 * 3 + 4 * 24 + 3 + 1) by lia.
    unfold check_date_fields, ymd2ord, days_in_month, days_before_month,
      MINYEAR, MAXYEAR.
    rewrite days_before_year_cycles, is_leap_cycles by lia.
    change (3 =? 3) with true. change (24 =? 24) with true.
    cbn [andb orb negb]. calc. calc_if.
    rewrite !andb_true_iff, !Z.leb_le. unfold n0 in *. lia. }
  assert (Hb3 : 0 <= b <= 3) by lia. assert (Hd3 : 0 <= d <= 3) by lia.
  replace (a * 400 + 1 + b * 100 + c * 4 + d)
    with (400 * a + 100 * b + 4 * c + d + 1) by ring.
  set (y := 400 * a + 100 * b + 4 * c + d + 1).
  pose proof (@days_before_year_cycles a b c d ltac:(lia) Hb3 Hc Hd3) as Ey.
  pose proof (@is_leap_cycles a b c d ltac:(lia) Hb3 Hc Hd3) as Ly.
  fold y in Ey, Ly. rewrite <- Ly.
  rewrite Z.shiftr_div_pow2 by lia. change (2 ^ 5) with 32.
  pose proof (Z.div_mod (r3 + 50) 32 ltac:(lia)) as E5.
  pose proof (Z.mod_pos_bound (r3 + 50) 32 ltac:(lia)) as B5.
  set (m := (r3 + 50) / 32) in *. set (q := (r3 + 50) mod 32) in *.
  assert (Hm : 1 <= m <= 12) by lia.
  assert (Hy : 1 <= y <= 9999) by (unfold y, n0 in *; lia).
  clearbody m q.
  months Hm; destruct (is_leap y) eqn:L; calc;
    match goal with
    | |- context [if ?x <? ?p then _ else _] =>
        destruct (Z.ltb_spec x p)
    end; cbv beta iota;
    unfold check_date_fields, ymd2ord, days_in_month, days_before_month,
      MINYEAR, MAXYEAR;
    rewrite Ey, ?L; calc; calc_if;
    rewrite !andb_true_iff, !Z.leb_le; unfold n0 in *; lia.
Qed.

(** The ordinal of a date that exists is one of the ordinals of the
    years 1 to 9999. *)
Lemma ymd2ord_bounds y m d :
  check_date_fields y m d = true -> 1 <= ymd2ord y m d <= MAXORDINAL.
Proof.
  intros H. pose proof (@day_of_year_bound y m d H) as B.
  unfold check_date_fields, MINYEAR, MAXYEAR in H.
  rewrite !andb_true_iff, !Z.leb_le in H.
  destruct H as [[[[[Hy1 Hy2] _] _] _] _].
  unfold ymd2ord, MAXORDINAL.
  pose proof (@days_before_year_mono 1 y Hy1) as L.
  pose proof (days_before_year_succ y) as S.
  pose proof (@days_before_year_mono (y + 1) 10000 ltac:(lia)) as U.
  change (days_before_year 1) with 0 in L.
  change (days_before_year 10000) with 3652059 in U.
  lia.
Qed.

(** The [datetime] of an instant of the years 1 to 9999 is well formed
    and denotes that instant. *)
Lemma at_instant_stamp total us :
  0 < total / 86400 <= MAXORDINAL -> 0 <= us < 1000000 ->
  well_formed (at_instant total us)
  /\ stamp (at_instant total us) = total * 1000000 + us.
Proof.
  intros Ho Hus. unfold at_instant.
  pose proof (@ord2ymd_spec (total / 86400) ltac:(lia)) as R.
  destruct (ord2ymd (total / 86400)) as [[y m] d]. destruct R as [C O].
  unfold well_formed, time_ok, stamp, instant, toordinal. cbn.
  rewrite C, O. split; [split; [reflexivity|]|];
    Z.div_mod_to_equations; lia.
Qed.

Lemma well_formed_ordinal dt :
  well_formed dt -> time_ok dt /\ 0 < toordinal dt <= MAXORDINAL.
Proof.
  intros [C T]. split; [exact T|]. apply ymd2ord_bounds in C.
  unfold toordinal. lia.
Qed.

End Calendar.

(** ** The threshold and the dates it is compared with *)

Module Threshold.
Import Py Re Datetime Scrapy Spec PageSpec.
Import PyFacts DatetimeFacts Chronology RelativeFacts RelativeArith Calendar.
Import Bankinform.
Local Open Scope py_scope.
Local Open Scope Z_scope.

Lemma date_threshold_eq E :
  well_formed (now E) ->
  date_threshold E
  = if 30 <? toordinal (now E)
    then Ok (ago (now E) 30 Days) else Raise OverflowError.
Proof.
  intros W. destruct (@well_formed_ordinal _ W) as [T O].
  unfold date_threshold.
  change (timedelta_days 30) with (timedelta_of Days 30).
  rewrite (@relative_arith (now E) Days 30 T O ltac:(lia)).
  unfold instant, unit_seconds.
  assert (Hs : 0 <= hour (now E) * 3600 + minute (now E) * 60
                    + second (now E) < 86400)
    by (unfold time_ok in T; lia).
  set (sod := hour (now E) * 3600 + minute (now E) * 60 + second (now E)) in *.
  replace ((toordinal (now E) * 86400 + sod - 30 * 86400) / 86400)
    with (toordinal (now E) - 30) by (Z.div_mod_to_equations; lia).
  destruct (Z.ltb_spec 0 (toordinal (now E) - 30)),
    (Z.ltb_spec 30 (toordinal (now E))); try lia; reflexivity.
Qed.

Lemma ago_stamp now n u :
  well_formed now -> representable now n u ->
  well_formed (ago now n u)
  /\ stamp (ago now n u) = stamp now - n * unit_seconds u * 1000000.
Proof.
  intros [C T] R. unfold ago.
  destruct (@at_instant_stamp (instant now - n * unit_seconds u)
              (microsecond now) R ltac:(unfold time_ok in T; lia))
    as [W S].
  split; [exact W|]. rewrite S. unfold stamp. ring.
Qed.

Lemma representable_days now n :
  well_formed now ->
  (representable now n Days <-> 0 < toordinal now - n <= MAXORDINAL).
Proof.
  intros [C T]. unfold representable, instant, unit_seconds.
  assert (Hs : 0 <= hour now * 3600 + minute now * 60 + second now < 86400)
    by (unfold time_ok in T; lia).
  set (sod := hour now * 3600 + minute now * 60 + second now) in *.
  replace ((toordinal now * 86400 + sod - n * 86400) / 86400)
    with (toordinal now - n) by (Z.div_mod_to_equations; lia).
  reflexivity.
Qed.

(** The threshold, when the spider could be constructed. *)
Lemma date_threshold_stamp E th :
  well_formed (now E) -> date_threshold E = Ok th ->
  (30 < toordinal (now E))
  /\ well_formed th
  /\ stamp th = stamp (now E) - 2592000000000.
Proof.
  intros W. rewrite (@date_threshold_eq E W).
  destruct (Z.ltb_spec 30 (toordinal (now E))) as [H | H]; [|discriminate].
  intros [= <-]. split; [exact H|].
  destruct (@well_formed_ordinal _ W) as [T O].
  assert (R : representable (now E) 30 Days).
  { apply (@representable_days (now E) 30 W). unfold MAXORDINAL in *. lia. }
  destruct (@ago_stamp _ _ _ W R) as [Wt St].
  split; [exact Wt|]. rewrite St. simpl. ring.
Qed.

(** [self.date_threshold] of the three spiders with a date filter: the
    clock of the start moved back by thirty days, to the microsecond;
    when the clock is within the first thirty days of the year 1, the
    subtraction overflows and the spider cannot be constructed. *)
Theorem date_threshold_spec (E : interp) :
  well_formed (now E) ->
  (30 < toordinal (now E) ->
   exists th,
     date_threshold E = Ok th
     /\ well_formed th
     /\ stamp th = stamp (now E) - 2592000000000
     /\ toordinal th = toordinal (now E) - 30
     /\ hour th = hour (now E) /\ minute th = minute (now E)
     /\ second th = second (now E)
     /\ microsecond th = microsecond (now E))
  /\ (toordinal (now E) <= 30 -> date_threshold E = Raise OverflowError).
Proof.
  intros W. rewrite (@date_threshold_eq E W). split; intros H.
  - destruct (Z.ltb_spec 30 (toordinal (now E))); [|lia].
    exists (ago (now E) 30 Days). split; [reflexivity|].
    destruct (@well_formed_ordinal _ W) as [T O].
    assert (R : representable (now E) 30 Days).
    { apply (@representable_days (now E) 30 W). unfold MAXORDINAL in *. lia. }
    destruct (@ago_stamp _ _ _ W R) as [Wt St].
    split; [exact Wt|]. split; [rewrite St; simpl; ring|].
    rewrite (@ago_days (now E) 30 T).
    pose proof (@ord2ymd_spec (toordinal (now E) - 30)
                  ltac:(unfold MAXORDINAL in *; lia)) as Ho.
    destruct (ord2ymd (toordinal (now E) - 30)) as [[y m] d].
    destruct Ho as [_ Ho]. unfold toordinal at 1. simpl.
    repeat split; auto.
  - destruct (Z.ltb_spec 30 (toordinal (now E))); [lia | reflexivity].
Qed.

(** What [parse_relative_date] returns for a text with one number and a
    unit. *)
Lemma parse_relative_date_eq E pre n post u :
  no_digit pre -> digits n -> n <> [] -> ends_number post ->
  unit_of (pre ++ n ++ post) = Some u ->
  convertible (max_str_digits E) n ->
  well_formed (now E) ->
  parse_relative_date E (pre ++ n ++ post)
  = if 0 <? (instant (now E) - number n * unit_seconds u) / 86400
    then Some (ago (now E) (number n) u) else None.
Proof.
  intros Hpre Hd Hn Hp Hu Hc W.
  destruct (@well_formed_ordinal _ W) as [T O].
  unfold parse_relative_date.
  rewrite (@parse_relative_date_body_eq E pre n post Hpre Hd Hn Hp), Hu.
  rewrite (@int_convertible _ n Hd Hn Hc).
  pose proof (@relative_arith (now E) u (number n) T O (number_nonneg n))
    as Ha.
  cbv beta iota delta [bind] in *.
  destruct (timedelta_of u (number n)) as [td|e].
  - rewrite Ha.
    destruct (0 <? (instant (now E) - number n * unit_seconds u) / 86400);
      reflexivity.
  - destruct (0 <? (instant (now E) - number n * unit_seconds u) / 86400);
      [discriminate | reflexivity].
Qed.

Lemma representable_pos now n u :
  well_formed now -> 0 <= n ->
  (representable now n u
   <-> 0 < (instant now - n * unit_seconds u) / 86400).
Proof.
  intros W Hn. destruct (@well_formed_ordinal _ W) as [T O].
  unfold representable. split; [intros [H _]; exact H|]. intros H.
  split; [exact H|].
  assert (0 <= n * unit_seconds u) by (destruct u; simpl; lia).
  unfold instant, MAXORDINAL, time_ok in *.
  Z.div_mod_to_equations. lia.
Qed.



(** A date without time of day against the threshold, in the filter of
    bankinform.py and in that of rb.py: the entry is recent when its day
    is later than the day thirty days before the start of the spider;
    that very day passes only when the spider was started at midnight
    sharp. *)
Theorem absolute_date_recency (E : interp) (th : datetime) (y m d : Z) :
  well_formed (now E) -> date_threshold E = Ok th ->
  valid_date y m d ->
  (is_recent (Some (midnight y m d)) th = true
   <-> toordinal (now E) - 30 < ymd2ord y m d
       \/ (ymd2ord y m d = toordinal (now E) - 30 /\ at_midnight (now E)))
  /\ (Rb.date_in_range (Some (midnight y m d)) th = true
      <-> toordinal (now E) - 30 < ymd2ord y m d
          \/ (ymd2ord y m d = toordinal (now E) - 30
              /\ at_midnight (now E))).
Proof.
  intros W Hth V.
  change (Rb.date_in_range (Some (midnight y m d)) th)
    with (is_recent (Some (midnight y m d)) th).
  assert (H : forall P : Prop, P -> P /\ P) by auto. apply H. clear H.
  apply check_date_fields_spec in V.
  destruct (@date_threshold_stamp E th W Hth) as (O & Wth & Sth).
  assert (Wm : well_formed (midnight y m d)).
  { split; [exact V|]. unfold time_ok. simpl. lia. }
  cbn [is_recent]. rewrite (@ge_chronological _ _ Wm Wth), Sth.
  destruct W as [_ T]. unfold stamp, instant, at_midnight, time_ok in *.
  change (toordinal (midnight y m d)) with (ymd2ord y m d). simpl.
  lia.
Qed.

Lemma absolute_date_recency_witness :
  is_recent (Some (midnight 2025 10 6)) Sample.threshold = true
  /\ is_recent (Some (midnight 2025 10 5)) Sample.threshold <> true.
Proof.
  assert (W : well_formed (now Sample.E)).
  { split; [reflexivity|]. unfold time_ok. simpl. lia. }
  assert (V : forall y m d,
             check_date_fields y m d = true -> valid_date y m d).
  { intros y m d H. apply check_date_fields_spec, H. }
  split.
  - apply (proj1 (@absolute_date_recency Sample.E Sample.threshold
                    2025 10 6 W eq_refl (V 2025 10 6 eq_refl))).
    left. vm_compute. reflexivity.
  - intros C.
    apply (proj1 (@absolute_date_recency Sample.E Sample.threshold
                    2025 10 5 W eq_refl (V 2025 10 5 eq_refl))) in C.
    destruct C as [C | [_ (C & _)]]; [vm_compute in C|]; discriminate.
Defined.

Lemma date_threshold_spec_witness :
  exists th,
    date_threshold Sample.E = Ok th
    /\ well_formed th
    /\ stamp th = stamp (now Sample.E) - 2592000000000
    /\ toordinal th = toordinal (now Sample.E) - 30
    /\ hour th = hour (now Sample.E) /\ minute th = minute (now Sample.E)
    /\ second th = second (now Sample.E)
    /\ microsecond th = microsecond (now Sample.E).
Proof.
  refine (proj1 (@date_threshold_spec Sample.E _) _).
  - split; [reflexivity|]. unfold time_ok. simpl. lia.
  - vm_compute. reflexivity.
Defined.

End Threshold.

(** ** Texts: prefixes, occurrences, trimming *)

Module StringFacts.
Import Py Re Spec PageSpec PyFacts ReFacts PatternFacts Cleaning.

Lemma startswith_spec p : forall s,
  startswith p s = true <-> exists rest, s = p ++ rest.
Proof.
  induction p as [|a p IH]; intros s; simpl.
  - split; [intros _; exists s; reflexivity | reflexivity].
  - destruct s as [|b s].
    + split; [discriminate | intros (rest & H); discriminate].
    + rewrite andb_true_iff, N.eqb_eq, IH. split.
      * intros [-> (rest & ->)]. exists rest. reflexivity.
      * intros (rest & H). injection H as -> ->. split; eauto.
Qed.

Lemma startswith_app p s r :
  startswith p s = true -> startswith p (s ++ r) = true.
Proof.
  rewrite !startswith_spec. intros (rest & ->). exists (rest ++ r).
  rewrite app_assoc. reflexivity.
Qed.

Lemma contains_spec needle : forall s,
  contains needle s = true <-> occurs needle s.
Proof.
  unfold occurs. induction s as [|c s IH].
  - simpl. rewrite orb_false_r, startswith_spec. split.
    + intros (rest & H). exists [], rest. exact H.
    + intros (pre & post & H). destruct pre; simpl in H.
      * exists post. exact H.
      * discriminate.
  - cbn [contains]. rewrite orb_true_iff, IH, startswith_spec. split.
    + intros [(rest & H) | (pre & post & H)].
      * exists [], rest. exact H.
      * exists (c :: pre), post. rewrite H. reflexivity.
    + intros (pre & post & H). destruct pre as [|x pre]; simpl in H.
      * left. exists post. exact H.
      * right. injection H as -> ->. exists pre, post. reflexivity.
Qed.

Lemma occurs_infix needle a s b :
  occurs needle s -> occurs needle (a ++ s ++ b).
Proof.
  intros (pre & post & ->). exists (a ++ pre), (post ++ b).
  rewrite <- !app_assoc. reflexivity.
Qed.

Lemma lstrip_split : forall s,
  exists pre, s = pre ++ lstrip s /\ spaces pre.
Proof.
  induction s as [|c s (pre & H & Hs)]; simpl.
  - exists []. split; [reflexivity | constructor].
  - destruct (isspace c) eqn:Hc.
    + exists (c :: pre). split; [simpl; f_equal; exact H|].
      constructor; assumption.
    + exists []. split; [reflexivity | constructor].
Qed.

Lemma lstrip_head s :
  match lstrip s with [] => True | c :: _ => isspace c = false end.
Proof.
  induction s as [|c s IH]; simpl; [exact I|].
  destruct (isspace c) eqn:Hc; [exact IH | exact Hc].
Qed.

Lemma lstrip_id s :
  match s with [] => True | c :: _ => isspace c = false end ->
  lstrip s = s.
Proof. destruct s as [|c s]; simpl; [reflexivity|]. intros ->. reflexivity. Qed.

Lemma lstrip_spaces s : spaces s -> lstrip s = [].
Proof.
  induction 1 as [|c s Hc _ IH]; simpl; [reflexivity|]. rewrite Hc. exact IH.
Qed.

(** [strip] cuts white space from both ends and nothing else. *)
Lemma strip_split s :
  exists pre post, s = pre ++ strip s ++ post /\ spaces pre /\ spaces post.
Proof.
  unfold strip. destruct (lstrip_split s) as (pre & H1 & S1).
  destruct (lstrip_split (rev (lstrip s))) as (q & H2 & S2).
  exists pre, (rev q). split; [|split; [exact S1|]].
  - rewrite H1 at 1. f_equal. rewrite <- rev_app_distr, <- H2.
    symmetry. apply rev_involutive.
  - apply Forall_rev, S2.
Qed.

Lemma strip_trimmed s : trimmed (strip s).
Proof.
  unfold trimmed, strip. rewrite rev_involutive. split; [|apply lstrip_head].
  destruct (lstrip_split (rev (lstrip s))) as (q & H & _).
  pose proof (lstrip_head s) as Hh.
  assert (E : lstrip s = rev (lstrip (rev (lstrip s))) ++ rev q).
  { rewrite <- rev_app_distr, <- H. symmetry. apply rev_involutive. }
  destruct (rev (lstrip (rev (lstrip s)))) as [|c t]; [exact I|].
  rewrite E in Hh. exact Hh.
Qed.

Lemma strip_id t : trimmed t -> strip t = t.
Proof.
  intros [H1 H2]. unfold strip. rewrite (lstrip_id _ H1), (lstrip_id _ H2).
  apply rev_involutive.
Qed.

Lemma strip_In c s : In c (strip s) -> In c s.
Proof.
  destruct (strip_split s) as (pre & post & H & _). intros Hc.
  rewrite H. apply in_or_app. right. apply in_or_app. left. exact Hc.
Qed.

(** What is well spaced stays so when cut at either end. *)
Lemma well_spaced_weaken : forall t b,
  well_spaced b t = true -> well_spaced false t = true.
Proof.
  destruct t as [|c t]; intros b; simpl; [reflexivity|].
  destruct (isspace c); [|auto].
  rewrite !andb_true_iff. intros [[H1 _] H2]. auto.
Qed.

Lemma well_spaced_suffix : forall pre b t,
  well_spaced b (pre ++ t) = true -> well_spaced false t = true.
Proof.
  induction pre as [|c pre IH]; intros b t; simpl.
  - apply well_spaced_weaken.
  - destruct (isspace c).
    + rewrite !andb_true_iff. intros [_ H]. eapply IH, H.
    + apply IH.
Qed.

Lemma well_spaced_prefix : forall t b post,
  well_spaced b (t ++ post) = true -> well_spaced b t = true.
Proof.
  induction t as [|c t IH]; intros b post; simpl; [reflexivity|].
  destruct (isspace c).
  - rewrite !andb_true_iff. intros [H1 H2]. split; [exact H1|].
    eapply IH, H2.
  - apply IH.
Qed.

Lemma well_spaced_strip s :
  well_spaced false s = true -> well_spaced false (strip s) = true.
Proof.
  destruct (strip_split s) as (pre & post & H & _). intros W.
  rewrite H in W. apply well_spaced_suffix in W.
  eapply well_spaced_prefix, W.
Qed.

(** [re.sub(r'\s+', ' ', ...)] leaves a well spaced text as it is. *)
Lemma sub_ws_id : forall t b,
  well_spaced b t = true ->
  sub_from false Bankinform.ws (u8 " ") 0 t = t.
Proof.
  induction t as [|c t IH]; intros b W; [reflexivity|].
  cbn [well_spaced] in W. cbn [sub_from].
  destruct (isspace c) eqn:Hc.
  - rewrite !andb_true_iff in W. destruct W as [[Hc32 _] W].
    apply N.eqb_eq in Hc32. subst c.
    destruct (@match_here_ws 32%N t Hc) as (mt & -> & ->).
    assert (R : space_run t = 0).
    { destruct t as [|x t]; [reflexivity|]. cbn [well_spaced] in W.
      cbn [space_run]. destruct (isspace x); [|reflexivity].
      rewrite andb_false_r in W. discriminate. }
    rewrite R, (IH _ W). reflexivity.
  - rewrite (@match_here_ws_none c t Hc), (IH _ W). reflexivity.
Qed.

End StringFacts.

(** ** Addresses, paragraphs and titles *)

Module PageFacts.
Import Py Re Datetime Scrapy Spec Pages PageSpec.
Import PyFacts ReFacts PatternFacts Cleaning StringFacts.
Local Open Scope py_scope.

Section Addresses.
Variable urljoin : str -> str -> str.
Variable site : str.
Hypothesis absolute : startswith (u8 "http") site = true.

Lemma clean_url_on_site url u :
  clean_url urljoin site url = Some u -> on_site site u.
Proof.
  unfold clean_url. destruct url as [[|c s]|]; try discriminate. cbv zeta.
  match goal with
  | |- (if negb (startswith _ ?x) then _ else _) = _ -> _ =>
      remember x as y eqn:Ey; clear Ey
  end.
  destruct (startswith (site ++ u8 "/") y) eqn:H; [|discriminate].
  intros [= <-]. apply startswith_spec in H. destruct H as (rest & H).
  exists rest. rewrite H, <- app_assoc. reflexivity.
Qed.

Lemma on_site_absolute u :
  on_site site u ->
  startswith (u8 "//") u = false /\ startswith (u8 "/") u = false
  /\ startswith (u8 "http") u = true
  /\ startswith (site ++ u8 "/") u = true
  /\ u <> [].
Proof.
  intros (path & ->).
  apply startswith_spec in absolute. destruct absolute as (rest & ->).
  repeat split; try reflexivity.
  - apply startswith_spec. exists (path). rewrite <- !app_assoc. reflexivity.
  - discriminate.
Qed.

Lemma clean_url_fixed u :
  on_site site u -> clean_url urljoin site (Some u) = Some u.
Proof.
  intros H. destruct (on_site_absolute H) as (H1 & H2 & H3 & H4 & H5).
  unfold clean_url. destruct u as [|c s]; [congruence|]. cbv zeta.
  rewrite H1, H2, H3. simpl negb. cbv iota. rewrite H4. reflexivity.
Qed.

Lemma clean_url_absolute url :
  startswith (u8 "http") url = true ->
  clean_url urljoin site (Some url)
  = if startswith (site ++ u8 "/") url then Some url else None.
Proof.
  intros H.
  assert (H1 : startswith (u8 "//") url = false
               /\ startswith (u8 "/") url = false /\ url <> []).
  { destruct (proj1 (startswith_spec _ _) H) as (rest & ->).
    repeat split; try reflexivity. discriminate. }
  destruct H1 as (H1 & H2 & H3). destruct url as [|c s]; [congruence|].
  unfold clean_url. cbv zeta. rewrite H1, H2, H. simpl negb. cbv iota.
  destruct (startswith (site ++ u8 "/") (c :: s)); reflexivity.
Qed.

Lemma find_next_page_on_site cands u :
  find_next_page urljoin site cands = Some u -> on_site site u.
Proof.
  induction cands as [|c cands IH]; simpl; [discriminate|].
  destruct (truthy c); [apply clean_url_on_site | exact IH].
Qed.
End Addresses.

Section Paragraphs.
Variable lower : str -> str.
Variable unwanted_patterns : list str.

Lemma clean_paragraph_eq c s :
  clean_paragraph lower unwanted_patterns (Some (c :: s))
  = Ok (let t := strip (sub_from false Bankinform.ws (u8 " ") 0 (c :: s)) in
        if unwanted lower unwanted_patterns t then [] else t).
Proof.
  unfold clean_paragraph, sub. change (valid Bankinform.ws) with true.
  cbv iota beta delta [bind]. cbv zeta.
  destruct (unwanted lower unwanted_patterns _); reflexivity.
Qed.

Lemma clean_paragraph_clean text :
  exists t,
    clean_paragraph lower unwanted_patterns text = Ok t /\ cleaned lower unwanted_patterns t.
Proof.
  destruct text as [[|c s]|];
    try (exists []; split; [reflexivity | left; reflexivity]).
  rewrite clean_paragraph_eq. cbv zeta.
  set (t := strip (sub_from false Bankinform.ws (u8 " ") 0 (c :: s))).
  destruct (unwanted lower unwanted_patterns t) eqn:U.
  - exists []. split; [reflexivity | left; reflexivity].
  - exists t. split; [reflexivity|]. right. split; [apply strip_trimmed|].
    split; [|exact U]. apply well_spaced_strip, sub_ws_well_spaced.
Qed.

Lemma clean_paragraph_fixed t :
  cleaned lower unwanted_patterns t ->
  clean_paragraph lower unwanted_patterns (Some t) = Ok t.
Proof.
  intros [-> | (T & W & U)]; [reflexivity|].
  destruct t as [|c s]; [reflexivity|].
  rewrite clean_paragraph_eq. cbv zeta.
  rewrite (@sub_ws_id _ _ W), (@strip_id _ T), U. reflexivity.
Qed.

Lemma first_long_spec : forall paragraphs,
  (exists p t,
      In p paragraphs
      /\ clean_paragraph lower unwanted_patterns p = Ok t
      /\ 30 < length t
      /\ first_long lower unwanted_patterns paragraphs = Ok (Some t))
  \/ (first_long lower unwanted_patterns paragraphs = Ok None
      /\ forall p t,
           In p paragraphs ->
           clean_paragraph lower unwanted_patterns p = Ok t ->
           length t <= 30).
Proof.
  induction paragraphs as [|p ps IH].
  - right. split; [reflexivity | intros p t []].
  - cbn [first_long].
    destruct (clean_paragraph_clean p) as (t & Ht & _).
    assert (Hshort : truthy p = false ->
                     clean_paragraph lower unwanted_patterns p = Ok []).
    { destruct p as [[|c s]|]; try reflexivity. discriminate. }
    assert (Hrest :
      length t <= 30 ->
      (exists p0 t0,
          In p0 (p :: ps)
          /\ clean_paragraph lower unwanted_patterns p0 = Ok t0
          /\ 30 < length t0
          /\ first_long lower unwanted_patterns ps = Ok (Some t0))
      \/ (first_long lower unwanted_patterns ps = Ok None
          /\ forall p0 t0,
               In p0 (p :: ps) ->
               clean_paragraph lower unwanted_patterns p0 = Ok t0 ->
               length t0 <= 30)).
    { intros Hl. destruct IH as [(p0 & t0 & Hin & Hc & Hlen & Hf) | [Hf Hall]].
      - left. exists p0, t0. repeat split; auto. right. exact Hin.
      - right. split; [exact Hf|]. intros p0 t0 [<- | Hin] Hc.
        + rewrite Ht in Hc. injection Hc as <-. exact Hl.
        + eapply Hall; eauto. }
    destruct (truthy p) eqn:Tp.
    + rewrite Ht. cbv beta iota delta [bind].
      destruct (Nat.ltb_spec 30 (length t)) as [Hl | Hl].
      * assert (Tt : truthy (Some t) = true)
          by (destruct t; [simpl in Hl; lia | reflexivity]).
        rewrite Tt. cbn [andb]. left. exists p, t.
        repeat split; auto. left. reflexivity.
      * rewrite andb_false_r. apply Hrest, Hl.
    + apply Hrest. rewrite (Hshort eq_refl) in Ht. injection Ht as <-.
      simpl. lia.
Qed.

Lemma first_content_spec r : forall content_selectors,
  (exists selector p t,
      In selector content_selectors /\ In p (css_texts r selector)
      /\ clean_paragraph lower unwanted_patterns p = Ok t
      /\ 30 < length t
      /\ first_content lower unwanted_patterns r content_selectors
         = Ok (Some t))
  \/ (first_content lower unwanted_patterns r content_selectors = Ok None
      /\ forall selector p t,
           In selector content_selectors -> In p (css_texts r selector) ->
           clean_paragraph lower unwanted_patterns p = Ok t ->
           length t <= 30).
Proof.
  induction content_selectors as [|sel sels IH].
  - right. split; [reflexivity | intros sel p t []].
  - cbn [first_content].
    destruct (first_long_spec (css_texts r sel))
      as [(p & t & Hin & Hc & Hl & ->) | [-> Hall]];
      cbv beta iota delta [bind].
    + left. exists sel, p, t. repeat split; auto. left. reflexivity.
    + destruct IH as [(sel0 & p & t & Hs & Hin & Hc & Hl & Hf) | [Hf Hall']].
      * left. exists sel0, p, t. repeat split; auto. right. exact Hs.
      * right. split; [exact Hf|]. intros sel0 p t [<- | Hs] Hin Hc.
        -- eapply Hall; eauto.
        -- eapply Hall'; eauto.
Qed.

Lemma extract_description_cases content_selectors r :
  exists d,
    extract_description lower unwanted_patterns content_selectors r = Ok d
    /\ d <> []
    /\ ((30 < length d
         /\ exists selector p,
              In selector content_selectors /\ In p (css_texts r selector)
              /\ clean_paragraph lower unwanted_patterns p = Ok d)
        \/ ((forall selector p t,
                In selector content_selectors ->
                In p (css_texts r selector) ->
                clean_paragraph lower unwanted_patterns p = Ok t ->
                length t <= 30)
            /\ (clean_paragraph lower unwanted_patterns
                  (css_get r "p::text") = Ok d
                \/ (clean_paragraph lower unwanted_patterns
                      (css_get r "p::text") = Ok []
                    /\ d = u8 "Description not available")))).
Proof.
  unfold extract_description.
  destruct (first_content_spec r content_selectors)
    as [(sel & p & t & Hs & Hin & Hc & Hl & ->) | [-> Hall]];
    cbv beta iota delta [bind].
  - exists t. split; [reflexivity|]. split.
    + intros ->. simpl in Hl. lia.
    + left. split; [exact Hl|]. exists sel, p. auto.
  - destruct (clean_paragraph_clean (css_get r "p::text")) as (t & Ht & _).
    destruct (truthy (css_get r "p::text")) eqn:Tp.
    + rewrite Ht. cbv beta iota delta [bind].
      destruct t as [|c t]; cbn [truthy].
      * exists (u8 "Description not available").
        split; [reflexivity|]. split; [discriminate|]. right.
        split; [exact Hall|]. right. split; reflexivity.
      * exists (c :: t). split; [reflexivity|]. split; [discriminate|].
        right. split; [exact Hall|]. left. reflexivity.
    + exists (u8 "Description not available").
      split; [reflexivity|]. split; [discriminate|]. right.
      split; [exact Hall|]. right. split; [|reflexivity].
      destruct (css_get r "p::text") as [[|c s]|]; try reflexivity.
      discriminate.
Qed.
End Paragraphs.

(** [clean_url] of bankinform.py, plusworld.py and rb.py: an address it
    returns is an address of the site, under [https]; the address is
    then a fixed point, whatever [urljoin] does; an absolute address is
    never handed to [urljoin], it is kept when it is on the site and
    dropped otherwise, so that a link to the site under plain [http] is
    dropped. *)
Theorem clean_url_spec (urljoin : str -> str -> str) :
  (forall url u,
      BankinformPages.clean_url urljoin url = Some u ->
      on_site BankinformPages.site u
      /\ BankinformPages.clean_url urljoin (Some u) = Some u)
  /\ (forall url u,
      PlusworldPages.clean_url urljoin url = Some u ->
      on_site PlusworldPages.site u
      /\ PlusworldPages.clean_url urljoin (Some u) = Some u)
  /\ (forall url u,
      Rb.clean_url urljoin url = Some u ->
      on_site RbPages.site u /\ Rb.clean_url urljoin (Some u) = Some u)
  /\ (forall url,
      startswith (u8 "http") url = true ->
      BankinformPages.clean_url urljoin (Some url)
      = (if startswith (u8 "https://bankinform.ru/") url
         then Some url else None)
      /\ PlusworldPages.clean_url urljoin (Some url)
         = (if startswith (u8 "https://plusworld.ru/") url
            then Some url else None)
      /\ Rb.clean_url urljoin (Some url)
         = (if startswith (u8 "https://rb.ru/") url then Some url else None))
  /\ (forall rest,
      BankinformPages.clean_url urljoin (Some (u8 "http://" ++ rest)) = None
      /\ PlusworldPages.clean_url urljoin (Some (u8 "http://" ++ rest)) = None
      /\ Rb.clean_url urljoin (Some (u8 "http://" ++ rest)) = None).
Proof.
  change (Rb.clean_url urljoin) with (clean_url urljoin RbPages.site).
  unfold BankinformPages.clean_url, PlusworldPages.clean_url.
  split; [|split; [|split; [|split]]].
  - intros url u H.
    assert (S := @clean_url_on_site urljoin _ url u H).
    split; [exact S | apply clean_url_fixed; [reflexivity | exact S]].
  - intros url u H.
    assert (S := @clean_url_on_site urljoin _ url u H).
    split; [exact S | apply clean_url_fixed; [reflexivity | exact S]].
  - intros url u H.
    assert (S := @clean_url_on_site urljoin _ url u H).
    split; [exact S | apply clean_url_fixed; [reflexivity | exact S]].
  - intros url H. repeat split; apply clean_url_absolute; exact H.
  - intros rest. repeat split; reflexivity.
Qed.

Lemma clean_url_spec_witness :
  on_site BankinformPages.site (u8 "https://bankinform.ru/news/1")
  /\ BankinformPages.clean_url Sample.urljoin
       (Some (u8 "https://bankinform.ru/news/1"))
     = Some (u8 "https://bankinform.ru/news/1").
Proof.
  apply (proj1 (@clean_url_spec Sample.urljoin) (Some (u8 "/news/1"))).
  reflexivity.
Defined.

(** [clean_paragraph] of bankinform.py, plusworld.py and rb.py never
    fails; the text it returns is empty, or trimmed, with single ASCII
    spaces as its only white space and without any of the unwanted
    patterns; and cleaning that text again returns it unchanged. *)
Theorem clean_paragraph_spec
        (lower : str -> str) (unwanted_patterns : list str)
        (text : option str) :
  exists t,
    clean_paragraph lower unwanted_patterns text = Ok t
    /\ cleaned lower unwanted_patterns t
    /\ clean_paragraph lower unwanted_patterns (Some t) = Ok t
    /\ (truthy text = false -> t = []).
Proof.
  destruct (clean_paragraph_clean lower unwanted_patterns text)
    as (t & Ht & C).
  exists t. split; [exact Ht|]. split; [exact C|].
  split; [apply clean_paragraph_fixed, C|].
  intros H. destruct text as [[|c s]|]; try discriminate;
    injection Ht as <-; reflexivity.
Qed.

Lemma clean_paragraph_spec_witness :
  exists t,
    BankinformPages.clean_paragraph Py.lower (Some []) = Ok t
    /\ cleaned Py.lower BankinformPages.unwanted_patterns t
    /\ BankinformPages.clean_paragraph Py.lower (Some t) = Ok t
    /\ t = [].
Proof.
  destruct (@clean_paragraph_spec Py.lower BankinformPages.unwanted_patterns
              (Some [])) as (t & H1 & H2 & H3 & H4).
  exists t. repeat split; auto.
Defined.

(** [extract_description] of bankinform.py and [extract_first_paragraph]
    of plusworld.py and rb.py never fail and never return an empty
    description.  When a paragraph of one of the content selectors
    cleans to more than thirty characters, the description is such a
    cleaned paragraph; otherwise it is the cleaned first paragraph of
    the page, or the fixed text when that is empty. *)
Theorem extract_description_spec
        (lower : str -> str) (unwanted_patterns : list str)
        (content_selectors : list string) (r : response) :
  exists d,
    extract_description lower unwanted_patterns content_selectors r = Ok d
    /\ d <> []
    /\ (d = u8 "Description not available"
        \/ (trimmed d /\ well_spaced false d = true
            /\ unwanted lower unwanted_patterns d = false))
    /\ ((30 < length d
         /\ exists selector p,
              In selector content_selectors /\ In p (css_texts r selector)
              /\ clean_paragraph lower unwanted_patterns p = Ok d)
        \/ ((forall selector p t,
                In selector content_selectors ->
                In p (css_texts r selector) ->
                clean_paragraph lower unwanted_patterns p = Ok t ->
                length t <= 30)
            /\ (clean_paragraph lower unwanted_patterns
                  (css_get r "p::text") = Ok d
                \/ (clean_paragraph lower unwanted_patterns
                      (css_get r "p::text") = Ok []
                    /\ d = u8 "Description not available")))).
Proof.
  destruct (extract_description_cases lower unwanted_patterns
              content_selectors r) as (d & Hd & Hne & Hc).
  exists d. split; [exact Hd|]. split; [exact Hne|]. split; [|exact Hc].
  assert (Hclean : forall p,
             clean_paragraph lower unwanted_patterns p = Ok d ->
             trimmed d /\ well_spaced false d = true
             /\ unwanted lower unwanted_patterns d = false).
  { intros p Hp.
    destruct (clean_paragraph_clean lower unwanted_patterns p)
      as (t & Ht & C).
    rewrite Hp in Ht. injection Ht as <-.
    destruct C as [-> | C]; [congruence | exact C]. }
  destruct Hc as [(_ & sel & p & _ & _ & Hp) | (_ & [Hp | [_ ->]])].
  - right. eapply Hclean, Hp.
  - right. eapply Hclean, Hp.
  - left. reflexivity.
Qed.

Lemma extract_description_spec_witness :
  BankinformPages.extract_description Py.lower SamplePages.article_page
  = Ok (u8 "Description not available").
Proof.
  destruct (@extract_description_spec Py.lower
              BankinformPages.unwanted_patterns
              BankinformPages.content_selectors SamplePages.article_page)
    as (d & Hd & Hne & _
        & [(Hl & sel & p & _ & [] & _) | (_ & [Hp | [_ ->]])]).
  - injection Hp as <-. congruence.
  - exact Hd.
Defined.

Lemma split_head_prefix m : forall s, exists rest, s = split_head m s ++ rest.
Proof.
  induction s as [|c s (rest & IH)].
  - exists []. simpl. destruct (startswith m []); reflexivity.
  - cbn [split_head]. destruct (startswith m (c :: s)).
    + exists (c :: s). reflexivity.
    + exists rest. simpl. f_equal. exact IH.
Qed.

Lemma split_head_free m : forall s,
  m <> [] -> contains m (split_head m s) = false.
Proof.
  intros s Hm.
  assert (Hnil : contains m [] = false).
  { destruct m; [congruence | reflexivity]. }
  induction s as [|c s IH].
  - simpl. destruct (startswith m []); exact Hnil.
  - cbn [split_head]. destruct (startswith m (c :: s)) eqn:Hs; [exact Hnil|].
    cbn [contains]. rewrite IH, orb_false_r.
    destruct (startswith m (c :: split_head m s)) eqn:Hh; [|reflexivity].
    destruct (split_head_prefix m s) as (rest & Hr).
    apply (@startswith_app _ _ rest) in Hh. simpl in Hh.
    rewrite <- Hr in Hh. congruence.
Qed.

Lemma contains_strip m s : contains m s = false -> contains m (strip s) = false.
Proof.
  intros H. destruct (contains m (strip s)) eqn:C; [|reflexivity].
  apply contains_spec in C. destruct (strip_split s) as (a & b & Hs & _).
  apply (@occurs_infix _ a _ b) in C. rewrite <- Hs in C.
  apply contains_spec in C. congruence.
Qed.

(** The title after the name of the site was cut off. *)
Lemma cut_title_free m t :
  m <> [] -> contains m (cut_title m t) = false.
Proof.
  intros Hm. unfold cut_title. destruct (contains m t) eqn:C; [|exact C].
  apply contains_strip, split_head_free, Hm.
Qed.

Lemma cut_title_trimmed m t : trimmed t -> trimmed (cut_title m t).
Proof.
  intros H. unfold cut_title. destruct (contains m t); [|exact H].
  apply strip_trimmed.
Qed.

(** The title of the record: rb.py, plusworld.py and bankcnews.py cut
    the title at the name of the site, so the title they emit never
    contains it; rb.py and bankcnews.py emit a trimmed title; and a
    title that does not contain the name is emitted as it came. *)
Theorem titles_without_site_name (lower : str -> str) (r : response) :
  (forall E search_term,
      exists it t,
        RbPages.parse_article lower E search_term r = Ok it
        /\ get it "title" = Some (VStr t)
        /\ contains (u8 " | RB.RU") t = false /\ trimmed t)
  /\ (forall E search_term,
      exists it t,
        PlusworldPages.parse_article lower E search_term r = Ok it
        /\ get it "title" = Some (VStr t)
        /\ contains (u8 " | Plusworld.ru") t = false
        /\ (forall title,
            meta_title r = Some title -> title <> [] ->
            contains (u8 " | Plusworld.ru") title = false -> t = title))
  /\ (forall search_term meta_desc og_desc article_content,
      exists t,
        get (BankcnewsPages.parse_article lower search_term r meta_desc
               og_desc article_content) "title" = Some (VStr t)
        /\ contains (u8 " - CNews.ru") t = false /\ trimmed t).
Proof.
  split; [|split].
  - intros E term. unfold RbPages.parse_article.
    destruct (@extract_description_cases lower RbPages.unwanted_patterns
                RbPages.content_selectors r) as (d & Hd & _).
    unfold RbPages.extract_first_paragraph. rewrite Hd.
    cbv beta iota delta [bind]. eexists. eexists.
    split; [reflexivity|]. split; [reflexivity|]. split.
    + apply cut_title_free. discriminate.
    + apply cut_title_trimmed, strip_trimmed.
  - intros E term. unfold PlusworldPages.parse_article.
    destruct (@extract_description_cases lower PlusworldPages.unwanted_patterns
                PlusworldPages.content_selectors r) as (d & Hd & _).
    unfold PlusworldPages.extract_first_paragraph. rewrite Hd.
    cbv beta iota delta [bind]. eexists. eexists.
    split; [reflexivity|]. split; [reflexivity|]. split.
    + apply cut_title_free. discriminate.
    + intros title Hm Hne Hc. rewrite Hm.
      destruct title as [|c s]; [congruence|]. cbn [truthy or_empty].
      unfold cut_title. rewrite Hc. reflexivity.
  - intros term meta og content. eexists. split; [reflexivity|]. split.
    + apply cut_title_free. discriminate.
    + apply cut_title_trimmed, strip_trimmed.
Qed.

Lemma titles_without_site_name_witness :
  exists it,
    PlusworldPages.parse_article Py.lower Sample.E None
      SamplePages.article_page = Ok it
    /\ get it "title" = Some (VStr (u8 "Banks")).
Proof.
  destruct (proj1 (proj2 (@titles_without_site_name Py.lower
                            SamplePages.article_page))
              Sample.E None) as (it & t & Hit & Ht & _ & Hsame).
  exists it. split; [exact Hit|].
  rewrite Ht, (Hsame (u8 "Banks") eq_refl); [reflexivity | discriminate |].
  reflexivity.
Defined.

(** [extract_description] of bankcnews.py, unlike those of the other
    spiders, can return an empty description: it does so exactly when
    the [meta] description it picks has more than twenty characters, all
    of them white space. *)
Theorem bankcnews_empty_description
        (lower : str -> str) (meta_desc og_desc : option str)
        (article_content : list str) :
  BankcnewsPages.extract_description lower meta_desc og_desc article_content
  = []
  <-> (exists m, meta_desc = Some m /\ 20 < length m /\ spaces m)
      \/ ((forall m, meta_desc = Some m -> length m <= 20)
          /\ exists o, og_desc = Some o /\ 20 < length o /\ spaces o).
Proof.
  assert (Hstrip : forall s, strip s = [] <-> spaces s).
  { intros s. split.
    - intros H. destruct (strip_split s) as (a & b & Hs & Sa & Sb).
      rewrite H in Hs. rewrite Hs. apply Forall_app. auto.
    - intros H. unfold strip. rewrite (lstrip_spaces H). reflexivity. }
  assert (Hor : forall o : option str,
             truthy o && (20 <? length (or_empty o)) = true
             <-> exists m, o = Some m /\ 20 < length m).
  { intros [[|c s]|]; simpl; split; try discriminate.
    - intros (m & [= <-] & H). simpl in H. lia.
    - intros H. exists (c :: s). split; [reflexivity|].
      apply Nat.ltb_lt in H. exact H.
    - intros (m & [= <-] & H). apply Nat.ltb_lt. exact H.
    - intros (m & H & _). discriminate. }
  assert (Hparts : forall content n,
             Forall (fun t => 50 < length t)
               (BankcnewsPages.description_parts lower n content)).
  { induction content as [|p ps IH]; intros [|n]; simpl; try constructor.
    destruct (Nat.ltb_spec 50 (length (strip p))) as [Hl | Hl]; simpl.
    - destruct (negb _); [constructor; [exact Hl | apply IH] | apply IH].
    - apply IH. }
  assert (Hjoin : forall parts,
             parts <> [] -> Forall (fun t => 50 < length t) parts ->
             BankcnewsPages.join (u8 " ") parts <> []).
  { intros [|t [|t' parts]] Hne Hf; [congruence| |];
      inversion Hf; subst; destruct t; simpl in *; try lia; discriminate. }
  unfold BankcnewsPages.extract_description.
  destruct (truthy meta_desc && (20 <? length (or_empty meta_desc))) eqn:M.
  - apply Hor in M. destruct M as (m & -> & Hl).
    destruct m as [|c0 m0]; [simpl in Hl; lia|]. cbn [or_empty].
    set (m := c0 :: m0) in *. rewrite Hstrip. split.
    + intros H. left. exists m. repeat split; assumption.
    + intros [(m' & [= <-] & _ & H) | (H & _)]; [exact H|].
      specialize (H m eq_refl). lia.
  - assert (Mno : forall m, meta_desc = Some m -> length m <= 20).
    { intros m ->. destruct (Nat.ltb_spec 20 (length m)) as [H | H]; [|lia].
      assert (C : truthy (Some m) && (20 <? length (or_empty (Some m))) = true)
        by (apply Hor; exists m; auto).
      rewrite C in M. discriminate. }
    destruct (truthy og_desc && (20 <? length (or_empty og_desc))) eqn:O.
    + apply Hor in O. destruct O as (o & -> & Hl).
      destruct o as [|c0 o0]; [simpl in Hl; lia|]. cbn [or_empty].
      set (o := c0 :: o0) in *. rewrite Hstrip. split.
      * intros H. right. split; [exact Mno|]. exists o.
        repeat split; assumption.
      * intros [(m & Hm & Hl' & _) | (_ & o' & [= <-] & _ & H)];
          [|exact H]. specialize (Mno m Hm). lia.
    + split.
      * intros H. exfalso.
        destruct (BankcnewsPages.description_parts lower 2 article_content)
          as [|t parts] eqn:P; [discriminate|].
        revert H. apply Hjoin; [discriminate|]. rewrite <- P. apply Hparts.
      * intros [(m & Hm & Hl & _) | (_ & o & -> & Hl & _)].
        -- specialize (Mno m Hm). lia.
        -- exfalso.
           assert (C : truthy (Some o) && (20 <? length (or_empty (Some o)))
                       = true) by (apply Hor; exists o; auto).
           rewrite C in O. discriminate.
Qed.

Lemma bankcnews_empty_description_witness :
  BankcnewsPages.extract_description Py.lower
    (Some (repeat 32%N 21)) None [] = [].
Proof.
  apply (@bankcnews_empty_description Py.lower
           (Some (repeat 32%N 21)) None []).
  left. exists (repeat 32%N 21). split; [reflexivity|].
  split; [simpl; lia | repeat constructor].
Defined.

End PageFacts.

(** ** The listing pages *)

Module Listings.
Import Py Re Datetime Scrapy Spec Pages PageSpec.
Import PyFacts Cleaning Dispatch StringFacts PageFacts.
Local Open Scope py_scope.

Lemma existsb_str_eqb u l : existsb (str_eqb u) l = true <-> In u l.
Proof.
  rewrite existsb_exists. split.
  - intros (x & Hin & H). apply str_eqb_eq in H. subst. exact Hin.
  - intros H. exists u. split; [exact H | apply str_eqb_refl].
Qed.

Lemma NoDup_firstn (A : Type) n (l : list A) : NoDup l -> NoDup (firstn n l).
Proof.
  intros H. rewrite <- (firstn_skipn n l) in H.
  eapply NoDup_app_remove_r, H.
Qed.

Lemma NoDup_skipn (A : Type) n (l : list A) : NoDup l -> NoDup (skipn n l).
Proof.
  intros H. rewrite <- (firstn_skipn n l) in H.
  eapply NoDup_app_remove_l, H.
Qed.

Lemma In_firstn (A : Type) n (l : list A) x : In x (firstn n l) -> In x l.
Proof.
  intros H. rewrite <- (firstn_skipn n l). apply in_or_app. auto.
Qed.

Lemma In_skipn (A : Type) n (l : list A) x : In x (skipn n l) -> In x l.
Proof.
  intros H. rewrite <- (firstn_skipn n l). apply in_or_app. auto.
Qed.

(** *** The removal of duplicates in plusworld.py *)

Lemma unique_articles_In a : forall l seen,
  In a (PlusworldPages.unique_articles seen l)
  <-> exists pre post,
        l = pre ++ a :: post
        /\ ~ In (a_url a) seen /\ ~ In (a_url a) (map a_url pre).
Proof.
  induction l as [|x l IH]; intros seen; cbn [PlusworldPages.unique_articles].
  - split; [intros [] | intros (pre & post & H & _)].
    destruct pre; discriminate.
  - destruct (existsb (str_eqb (a_url x)) seen) eqn:S.
    + apply existsb_str_eqb in S. rewrite IH. split.
      * intros (pre & post & -> & H1 & H2). exists (x :: pre), post.
        split; [reflexivity|]. split; [exact H1|]. simpl.
        intros [E | H]; [|exact (H2 H)]. apply H1. rewrite <- E. exact S.
      * intros (pre & post & H & H1 & H2). destruct pre as [|y pre].
        -- injection H as -> ->. contradiction.
        -- injection H as -> ->. exists pre, post.
           split; [reflexivity|]. split; [exact H1|].
           intros C. apply H2. right. exact C.
    + assert (Sn : ~ In (a_url x) seen).
      { intros C. apply existsb_str_eqb in C. congruence. }
      cbn [In]. rewrite IH. split.
      * intros [<- | (pre & post & -> & H1 & H2)].
        -- exists [], l. split; [reflexivity|]. split; [exact Sn|].
           intros [].
        -- exists (x :: pre), post. split; [reflexivity|].
           split; [intros C; apply H1; right; exact C|]. simpl.
           intros [E | H]; [|exact (H2 H)]. apply H1. left. exact E.
      * intros (pre & post & H & H1 & H2). destruct pre as [|y pre].
        -- injection H as -> ->. left. reflexivity.
        -- injection H as -> ->. right. exists pre, post.
           split; [reflexivity|]. split.
           ++ intros [E | C]; [|exact (H1 C)]. apply H2. left. exact E.
           ++ intros C. apply H2. right. exact C.
Qed.

Lemma unique_articles_NoDup : forall l seen,
  NoDup (map a_url (PlusworldPages.unique_articles seen l)).
Proof.
  induction l as [|x l IH]; intros seen; cbn [PlusworldPages.unique_articles].
  - constructor.
  - destruct (existsb (str_eqb (a_url x)) seen); [apply IH|].
    cbn [map]. constructor; [|apply IH].
    intros C. apply in_map_iff in C. destruct C as (a & E & Ha).
    apply unique_articles_In in Ha. destruct Ha as (_ & _ & _ & H & _).
    apply H. left. symmetry. exact E.
Qed.

(** The first entry of a list with a given address. *)
Lemma first_occurrence : forall (l : list article_data) a,
  In a l ->
  exists b pre post,
    l = pre ++ b :: post /\ a_url b = a_url a
    /\ ~ In (a_url b) (map a_url pre).
Proof.
  induction l as [|y l IH]; intros a []; subst.
  - exists a, [], l. split; [reflexivity|]. split; [reflexivity|].
    intros [].
  - destruct (existsb (str_eqb (a_url a)) [a_url y]) eqn:Ey.
    + apply existsb_str_eqb in Ey. destruct Ey as [Ey | []].
      exists y, [], l. split; [reflexivity|]. split; [exact Ey|].
      intros [].
    + destruct (IH a H) as (b & pre & post & -> & Eb & Hb).
      exists b, (y :: pre), post. split; [reflexivity|].
      split; [exact Eb|]. simpl. intros [C | C]; [|exact (Hb C)].
      assert (Hy : In (a_url a) [a_url y]) by (left; rewrite C; exact Eb).
      apply existsb_str_eqb in Hy. congruence.
Qed.

(** The loop of [extract_articles_with_dates] that removes duplicates
    keeps, in their order, exactly the entries whose address did not
    occur earlier in the list: no address is left twice, and none is
    lost. *)
Theorem unique_articles_spec (articles_data : list article_data) :
  NoDup (map a_url (PlusworldPages.unique_articles [] articles_data))
  /\ (forall a,
      In a (PlusworldPages.unique_articles [] articles_data)
      <-> exists pre post,
            articles_data = pre ++ a :: post
            /\ ~ In (a_url a) (map a_url pre))
  /\ (forall u,
      In u (map a_url articles_data)
      <-> In u (map a_url (PlusworldPages.unique_articles [] articles_data))).
Proof.
  split; [apply unique_articles_NoDup|].
  assert (Hin : forall a,
             In a (PlusworldPages.unique_articles [] articles_data)
             <-> exists pre post,
                   articles_data = pre ++ a :: post
                   /\ ~ In (a_url a) (map a_url pre)).
  { intros a. rewrite unique_articles_In. split.
    - intros (pre & post & H & _ & H2). exists pre, post. auto.
    - intros (pre & post & H & H2). exists pre, post.
      split; [exact H|]. split; [intros []|exact H2]. }
  split; [exact Hin|].
  intros u. split.
  - intros Hu. apply in_map_iff in Hu. destruct Hu as (a & <- & Ha).
    destruct (first_occurrence _ _ Ha) as (b & pre & post & Hl & Eb & Hb).
    apply in_map_iff. exists b. split; [exact Eb|].
    apply Hin. exists pre, post. auto.
  - intros Hu. apply in_map_iff in Hu. destruct Hu as (a & <- & Ha).
    apply Hin in Ha. destruct Ha as (pre & post & -> & _).
    apply in_map, in_or_app. right. left. reflexivity.
Qed.

Lemma unique_articles_spec_witness :
  In SamplePages.article
    (PlusworldPages.unique_articles []
       [SamplePages.article; SamplePages.again]).
Proof.
  apply (proj1 (proj2 (@unique_articles_spec
                         [SamplePages.article; SamplePages.again]))
           SamplePages.article).
  exists [], [SamplePages.again]. split; [reflexivity | intros []].
Defined.

(** *** The listing pages of bankinform.py *)

Lemma parse_date_text_ok E raw :
  exists d, Bankinform.parse_date_text E raw = Ok d.
Proof.
  rewrite parse_date_text_eq. destruct raw as [[|c s]|];
    try (eexists; reflexivity).
  rewrite clean_date_text_eq. eexists. reflexivity.
Qed.

Section Bankinform.
Variable urljoin : str -> str -> str.
Variable E : interp.

Lemma extract_articles_with_data_spec : forall links,
  exists l,
    BankinformPages.extract_articles_with_data urljoin E links = Ok l
    /\ length l <= length links
    /\ forall a,
         In a l ->
         well_listed BankinformPages.site a
         /\ exists lk,
              In lk links
              /\ BankinformPages.clean_url urljoin (href lk) = Some (a_url a)
              /\ a_title a = strip (or_empty (text lk))
              /\ Bankinform.parse_date_text E (date_text lk)
                 = Ok (a_date a).
Proof.
  induction links as [|lk links (l & IH & Hlen & Hall)].
  - exists []. split; [reflexivity|]. split; [simpl; lia | intros a []].
  - cbn [BankinformPages.extract_articles_with_data]. rewrite IH.
    assert (Hrest : forall a,
               In a l ->
               well_listed BankinformPages.site a
               /\ exists lk0,
                    In lk0 (lk :: links)
                    /\ BankinformPages.clean_url urljoin (href lk0)
                       = Some (a_url a)
                    /\ a_title a = strip (or_empty (text lk0))
                    /\ Bankinform.parse_date_text E (date_text lk0)
                       = Ok (a_date a)).
    { intros a Ha. destruct (Hall a Ha) as (W & lk0 & Hin & H).
      split; [exact W|]. exists lk0. split; [right; exact Hin | exact H]. }
    assert (Hskip : exists l0,
               Ok l = Ok l0
               /\ length l0 <= length (lk :: links)
               /\ forall a,
                    In a l0 ->
                    well_listed BankinformPages.site a
                    /\ exists lk0,
                         In lk0 (lk :: links)
                         /\ BankinformPages.clean_url urljoin (href lk0)
                            = Some (a_url a)
                         /\ a_title a = strip (or_empty (text lk0))
                         /\ Bankinform.parse_date_text E (date_text lk0)
                            = Ok (a_date a)).
    { exists l. split; [reflexivity|]. split; [simpl; lia | exact Hrest]. }
    destruct (truthy (href lk) && truthy (text lk)
              && truthy (Some (strip (or_empty (text lk))))) eqn:Q;
      [|exact Hskip].
    assert (Hdate : exists d,
               (if truthy (date_text lk)
                then Bankinform.parse_date_text E (date_text lk)
                else Ok None) = Ok d
               /\ Bankinform.parse_date_text E (date_text lk) = Ok d).
    { destruct (truthy (date_text lk)) eqn:T.
      - destruct (parse_date_text_ok E (date_text lk)) as (d & Hd).
        exists d. auto.
      - exists None. split; [reflexivity|].
        unfold Bankinform.parse_date_text. rewrite T. reflexivity. }
    destruct Hdate as (d & -> & Hd). cbv beta iota delta [bind].
    destruct (BankinformPages.clean_url urljoin (href lk))
      as [[|c u]|] eqn:U; try exact Hskip.
    eexists. split; [reflexivity|]. split; [simpl; lia|].
    intros a [<- | Ha]; [|apply Hrest, Ha]. cbn [a_url a_title a_date].
    rewrite !andb_true_iff in Q. destruct Q as [_ Q]. split.
    + split; [eapply clean_url_on_site, U|]. cbn [a_title]. split.
      * destruct (strip (or_empty (text lk))); [discriminate Q|discriminate].
      * apply strip_trimmed.
    + exists lk. split; [left; reflexivity|]. auto.
Qed.

Lemma requests_length th : forall l,
  length (Bankinform.parse_article_list th l) <= length l.
Proof.
  induction l as [|a l IH]; simpl; [lia|].
  destruct (Bankinform.is_recent (a_date a) th); simpl; lia.
Qed.
End Bankinform.

(** The handler of the listing pages of bankinform.py never fails.
    Every article it requests comes from a link of the page: its address
    is what [clean_url] makes of the link, an address of the site; its
    title is the trimmed text of the link, not empty; its date is what
    [parse_date_text] makes of the date text, unknown or not before the
    threshold.  The next page is requested only from pages 1 and 2 that
    had an article, with the next page number and an address of the
    site. *)
Theorem bankinform_listing_spec
        (urljoin : str -> str -> str) (E : interp) (threshold : datetime)
        (page : Z) (article_links : list link)
        (next_candidates : list (option str)) :
  exists l,
    BankinformPages.parse_article_list urljoin E threshold page
      article_links next_candidates = Ok l
    /\ length (articles l) <= length article_links
    /\ (forall r,
        In r (articles l) ->
        on_site BankinformPages.site (r_url r)
        /\ Bankinform.is_recent (r_article_date r) threshold = true
        /\ r_search_term r = None
        /\ exists lk t,
             In lk article_links
             /\ BankinformPages.clean_url urljoin (href lk)
                = Some (r_url r)
             /\ r_title r = Some t /\ t = strip (or_empty (text lk))
             /\ t <> [] /\ trimmed t
             /\ Bankinform.parse_date_text E (date_text lk)
                = Ok (r_article_date r))
    /\ (forall u p,
        next_page l = Some (u, p) ->
        on_site BankinformPages.site u /\ p = (page + 1)%Z /\ (p <= 3)%Z
        /\ article_links <> [])
    /\ ((3 <= page)%Z -> next_page l = None).
Proof.
  unfold BankinformPages.parse_article_list.
  destruct (extract_articles_with_data_spec urljoin E article_links)
    as (l & -> & Hlen & Hall).
  cbv beta iota delta [bind]. eexists. split; [reflexivity|].
  cbn [articles next_page]. split; [|split; [|split]].
  - pose proof (requests_length threshold l). lia.
  - intros r Hr. apply Listing.bankinform_requests in Hr.
    destruct Hr as (a & Ha & Hrec & ->). cbn.
    destruct (Hall a Ha) as ((S & Hne & T) & lk & Hin & Hu & Ht & Hd).
    split; [exact S|]. split; [exact Hrec|]. split; [reflexivity|].
    exists lk, (a_title a). split; [exact Hin|]. split; [exact Hu|].
    split; [reflexivity|]. split; [exact Ht|]. split; [exact Hne|].
    split; [exact T | exact Hd].
  - intros u p.
    destruct (Z.ltb_spec page 3) as [Hp | Hp]; [|discriminate].
    destruct (Nat.ltb_spec 0 (length l)) as [Hl | Hl]; [|discriminate].
    cbn [andb].
    destruct (BankinformPages.find_next_page urljoin next_candidates)
      as [[|c s]|] eqn:F; try discriminate.
    intros [= <- <-]. split; [eapply find_next_page_on_site, F|].
    split; [reflexivity|]. split; [lia|].
    intros ->. simpl in Hlen. lia.
  - intros Hp. destruct (Z.ltb_spec page 3); [lia | reflexivity].
Qed.

Lemma bankinform_listing_spec_witness :
  exists l,
    BankinformPages.parse_article_list Sample.urljoin Sample.E
      Sample.threshold 3 [] [Some (u8 "/news/?page=4")] = Ok l
    /\ next_page l = None.
Proof.
  destruct (@bankinform_listing_spec Sample.urljoin Sample.E
              Sample.threshold 3 [] [Some (u8 "/news/?page=4")])
    as (l & Hl & _ & _ & _ & Hn).
  exists l. split; [exact Hl|]. apply Hn. lia.
Defined.

(** *** The listing pages of plusworld.py *)

Lemma plusworld_date_raises E d :
  truthy d = true -> Plusworld.parse_date_text E d = Raise ReError.
Proof. destruct d as [[|c s]|]; try discriminate. reflexivity. Qed.

Lemma plusworld_clean_raises d :
  truthy d = true -> Plusworld.clean_date_text d = Raise ReError.
Proof. destruct d as [[|c s]|]; try discriminate. reflexivity. Qed.

Lemma find_date_near_element_none : forall near d,
  PlusworldPages.find_date_near_element near = Ok d -> d = None.
Proof.
  induction near as [|x near IH]; intros d; simpl.
  - intros [= <-]. reflexivity.
  - destruct (truthy x) eqn:T; [|apply IH].
    rewrite (plusworld_clean_raises _ T). discriminate.
Qed.

Section Plusworld.
Variable urljoin : str -> str -> str.
Variable E : interp.

Lemma from_cards_ok only : forall cs l,
  PlusworldPages.from_cards urljoin E only cs = Ok l ->
  Forall (fun c => dated_card c = false) cs
  /\ Forall undated l /\ length l <= length cs.
Proof.
  induction cs as [|c cs IH]; intros l; cbn [PlusworldPages.from_cards].
  - intros [= <-]. repeat split; auto.
  - unfold dated_card.
    destruct (truthy (PlusworldPages.c_link c)
              && truthy (PlusworldPages.c_title c)
              && truthy (Some (strip (or_empty (PlusworldPages.c_title c)))))
      eqn:Q.
    + destruct (truthy (PlusworldPages.c_date_text c)) eqn:T.
      * rewrite (plusworld_date_raises E _ T). discriminate.
      * cbv beta iota delta [bind].
        destruct (PlusworldPages.from_cards urljoin E only cs)
          as [l0|e] eqn:R.
        2:{ destruct (PlusworldPages.clean_url urljoin
                        (PlusworldPages.c_link c)) as [[|x u]|];
              try discriminate.
            destruct (negb only || contains (u8 "/articles/") (x :: u));
              discriminate. }
        destruct (IH l0 eq_refl) as (Hd & Hu & Hl).
        assert (Hcs : Forall (fun c0 => dated_card c0 = false) (c :: cs)).
        { constructor; [|exact Hd]. unfold dated_card. rewrite Q, T.
          reflexivity. }
        destruct (PlusworldPages.clean_url urljoin (PlusworldPages.c_link c))
          as [[|x u]|] eqn:U;
          try (intros [= <-]; split; [exact Hcs|];
               split; [exact Hu | simpl; lia]).
        destruct (negb only || contains (u8 "/articles/") (x :: u));
          intros [= <-]; (split; [exact Hcs|]);
          [|split; [exact Hu | simpl; lia]].
        split; [|simpl; lia]. constructor; [|exact Hu].
        rewrite !andb_true_iff in Q. destruct Q as [_ Q].
        split; [reflexivity|]. split; [eapply clean_url_on_site, U|].
        cbn [a_title]. split; [|apply strip_trimmed].
        destruct (strip (or_empty (PlusworldPages.c_title c)));
          [discriminate Q | discriminate].
    + cbv beta iota delta [bind].
      destruct (PlusworldPages.from_cards urljoin E only cs)
        as [l0|e] eqn:R; [|discriminate].
      intros [= <-]. destruct (IH l0 eq_refl) as (Hd & Hu & Hl).
      split; [|split; [exact Hu | simpl; lia]].
      constructor; [|exact Hd]. unfold dated_card. rewrite Q. reflexivity.
Qed.

Lemma from_cards_raises only : forall cs,
  Exists (fun c => dated_card c = true) cs ->
  PlusworldPages.from_cards urljoin E only cs = Raise ReError.
Proof.
  induction cs as [|c cs IH]; intros H; [inversion H|].
  cbn [PlusworldPages.from_cards].
  destruct (dated_card c) eqn:D.
  - unfold dated_card in D. rewrite andb_true_iff in D.
    destruct D as [-> T]. rewrite (plusworld_date_raises E _ T), T.
    reflexivity.
  - assert (Hcs : Exists (fun c0 => dated_card c0 = true) cs).
    { inversion H; subst; [congruence | assumption]. }
    rewrite (IH Hcs).
    destruct (truthy (PlusworldPages.c_link c)
              && truthy (PlusworldPages.c_title c)
              && truthy (Some (strip (or_empty (PlusworldPages.c_title c)))))
      eqn:Q; [|reflexivity].
    unfold dated_card in D. rewrite Q in D. simpl in D. rewrite D.
    cbv beta iota delta [bind].
    destruct (PlusworldPages.clean_url urljoin (PlusworldPages.c_link c))
      as [[|x u]|]; try reflexivity.
    destruct (negb only || contains (u8 "/articles/") (x :: u)); reflexivity.
Qed.

Lemma from_links_ok : forall ls l,
  PlusworldPages.from_links urljoin E ls = Ok l ->
  Forall undated l /\ length l <= length ls.
Proof.
  induction ls as [|k ls IH]; intros l; cbn [PlusworldPages.from_links].
  - intros [= <-]. split; auto.
  - destruct (PlusworldPages.from_links urljoin E ls) as [l0|e] eqn:R.
    2:{ destruct (_ && _ && _ && _).
        - destruct (PlusworldPages.find_date_near_element
                      (PlusworldPages.l_near k)) as [d|]; [|discriminate].
          cbv beta iota delta [bind].
          destruct (if truthy d then Plusworld.parse_date_text E d
                    else Ok None); [|discriminate].
          destruct (PlusworldPages.clean_url urljoin
                      (PlusworldPages.l_href k)) as [[|x u]|];
            discriminate.
        - discriminate. }
    destruct (IH l0 eq_refl) as (Hu & Hl).
    destruct (_ && _ && _ && _) eqn:Q.
    + destruct (PlusworldPages.find_date_near_element
                  (PlusworldPages.l_near k)) as [d|] eqn:F; [|discriminate].
      apply find_date_near_element_none in F. subst d.
      cbv beta iota delta [bind truthy].
      destruct (PlusworldPages.clean_url urljoin (PlusworldPages.l_href k))
        as [[|x u]|] eqn:U;
        try (intros [= <-]; split; [exact Hu | simpl; lia]).
      intros [= <-]. split; [|simpl; lia]. constructor; [|exact Hu].
      rewrite !andb_true_iff in Q. destruct Q as [[_ Q] _].
      split; [reflexivity|]. split; [eapply clean_url_on_site, U|].
      cbn [a_title]. split; [|apply strip_trimmed].
      destruct (strip (or_empty (PlusworldPages.l_title k)));
        [discriminate Q | discriminate].
    + cbv beta iota delta [bind]. intros [= <-].
      split; [exact Hu | simpl; lia].
Qed.

Lemma extract_articles_with_dates_ok p l :
  PlusworldPages.extract_articles_with_dates urljoin E p = Ok l ->
  Forall (fun c => dated_card c = false) (PlusworldPages.cards p)
  /\ Forall undated l /\ NoDup (map a_url l).
Proof.
  unfold PlusworldPages.extract_articles_with_dates.
  destruct (PlusworldPages.from_cards urljoin E true (PlusworldPages.cards p))
    as [l1|e] eqn:R1; [|discriminate].
  destruct (from_cards_ok _ _ R1) as (Hd & Hu1 & _).
  cbv beta iota delta [bind].
  assert (Hfin : forall l3,
             Forall undated l3 ->
             Ok (PlusworldPages.unique_articles [] l3) = Ok l ->
             Forall (fun c => dated_card c = false) (PlusworldPages.cards p)
             /\ Forall undated l /\ NoDup (map a_url l)).
  { intros l3 H3 [= <-]. split; [exact Hd|].
    split; [|apply unique_articles_NoDup].
    apply Forall_forall. intros a Ha. apply unique_articles_In in Ha.
    destruct Ha as (pre & post & -> & _).
    rewrite Forall_forall in H3. apply H3, in_or_app. right. left.
    reflexivity. }
  destruct l1 as [|a1 l1]; [|apply Hfin, Hu1].
  destruct (PlusworldPages.from_links urljoin E (PlusworldPages.article_links p))
    as [l2|e] eqn:R2; [|discriminate].
  destruct (from_links_ok _ R2) as (Hu2 & _).
  destruct l2 as [|a2 l2]; [|apply Hfin, Hu2].
  destruct (PlusworldPages.from_cards urljoin E false
              (PlusworldPages.popular_sections p))
    as [l3|e] eqn:R3; [|discriminate].
  destruct (from_cards_ok _ _ R3) as (_ & Hu3 & _).
  apply Hfin, Hu3.
Qed.

Lemma article_requests_undated th term : forall l,
  Forall undated l ->
  Plusworld.article_requests th term l = map (request_of (Some term)) l.
Proof.
  induction 1 as [|a l [Ha _] _ IH]; [reflexivity|].
  cbn [Plusworld.article_requests map]. rewrite IH. unfold request_of.
  rewrite Ha. reflexivity.
Qed.
End Plusworld.

(** The cards of a listing page of plusworld.py and their dates.  The
    validator of the date texts has a character range whose ends are in
    the wrong order, so it fails on every text that is not empty: a page
    with a card that has a link, a title and a date text makes the
    handler fail with [re.error]. *)
Theorem plusworld_listing_raises
        (urljoin : str -> str -> str) (E : interp) (threshold : datetime)
        (page_no : Z) (search_term : str) (p : PlusworldPages.page)
        (next_candidates : list (option str)) :
  Exists (fun c => dated_card c = true) (PlusworldPages.cards p) ->
  PlusworldPages.extract_articles_with_dates urljoin E p = Raise ReError
  /\ PlusworldPages.parse_article_list urljoin E threshold page_no
       search_term p next_candidates = Raise ReError.
Proof.
  intros H.
  assert (R : PlusworldPages.extract_articles_with_dates urljoin E p
              = Raise ReError).
  { unfold PlusworldPages.extract_articles_with_dates.
    rewrite (from_cards_raises urljoin E true H). reflexivity. }
  split; [exact R|].
  unfold PlusworldPages.parse_article_list. rewrite R. reflexivity.
Qed.

Lemma plusworld_listing_raises_witness :
  PlusworldPages.parse_article_list Sample.urljoin Sample.E Sample.threshold
    1 (u8 "fintech") (SamplePages.page (Some (u8 "27.10.2025"))) []
  = Raise ReError.
Proof.
  apply (@plusworld_listing_raises Sample.urljoin Sample.E Sample.threshold
           1%Z (u8 "fintech") (SamplePages.page (Some (u8 "27.10.2025")))
           []).
  left. reflexivity.
Defined.

(** When the handler of the listing pages of plusworld.py does return,
    no card had a date text and no entry has a date, so the date filter
    lets every entry pass: the requests are those for the first fifteen
    entries left after the first seven were skipped on page 1, each once,
    with the search term and an address of the site. *)
Theorem plusworld_listing_spec
        (urljoin : str -> str -> str) (E : interp) (threshold : datetime)
        (page_no : Z) (search_term : str) (p : PlusworldPages.page)
        (next_candidates : list (option str)) (lst : listing) :
  PlusworldPages.parse_article_list urljoin E threshold page_no search_term
    p next_candidates = Ok lst ->
  Forall (fun c => dated_card c = false) (PlusworldPages.cards p)
  /\ (exists l,
      PlusworldPages.extract_articles_with_dates urljoin E p = Ok l
      /\ NoDup (map a_url l)
      /\ articles lst
         = map (request_of (Some search_term))
             (firstn 15
                (if (page_no =? 1)%Z && (7 <? length l)
                 then skipn 7 l else l)))
  /\ length (articles lst) <= 15
  /\ NoDup (map r_url (articles lst))
  /\ (forall r,
      In r (articles lst) ->
      r_article_date r = None /\ r_search_term r = Some search_term
      /\ on_site PlusworldPages.site (r_url r)
      /\ exists t, r_title r = Some t /\ t <> [] /\ trimmed t)
  /\ (forall u pg,
      next_page lst = Some (u, pg) ->
      on_site PlusworldPages.site u /\ pg = (page_no + 1)%Z /\ (pg <= 3)%Z).
Proof.
  unfold PlusworldPages.parse_article_list.
  destruct (PlusworldPages.extract_articles_with_dates urljoin E p)
    as [l|e] eqn:R; [|discriminate].
  destruct (extract_articles_with_dates_ok _ _ _ R) as (Hd & Hu & Hn).
  cbv beta iota delta [bind]. cbv zeta. intros [= <-].
  cbn [articles next_page].
  set (rest := if (page_no =? 1)%Z && (7 <? length l)
               then skipn 7 l else l).
  assert (Hin : forall a, In a (firstn 15 rest) -> In a l).
  { intros a Ha. apply In_firstn in Ha. unfold rest in Ha.
    destruct ((page_no =? 1)%Z && (7 <? length l));
      [eapply In_skipn, Ha | exact Ha]. }
  assert (Hreq : Plusworld.parse_article_list page_no threshold search_term l
                 = map (request_of (Some search_term)) (firstn 15 rest)).
  { unfold Plusworld.parse_article_list. fold rest.
    apply article_requests_undated. apply Forall_forall. intros a Ha.
    rewrite Forall_forall in Hu. apply Hu, Hin, Ha. }
  rewrite Hreq. split; [exact Hd|]. split.
  { exists l. split; [reflexivity|]. split; [exact Hn | reflexivity]. }
  split; [rewrite length_map; apply firstn_le_length|]. split.
  { rewrite map_map. cbn [request_of r_url].
    change (map (fun x => a_url x) (firstn 15 rest))
      with (map a_url (firstn 15 rest)).
    rewrite <- firstn_map. apply NoDup_firstn. unfold rest.
    destruct ((page_no =? 1)%Z && (7 <? length l)); [|exact Hn].
    rewrite <- skipn_map. apply NoDup_skipn, Hn. }
  split.
  - intros r Hr. apply in_map_iff in Hr. destruct Hr as (a & <- & Ha).
    rewrite Forall_forall in Hu.
    destruct (Hu a (Hin a Ha)) as (Hdate & Hs & Hne & Ht).
    cbn [request_of r_article_date r_search_term r_url r_title].
    split; [exact Hdate|]. split; [reflexivity|]. split; [exact Hs|].
    exists (a_title a). auto.
  - intros u pg.
    destruct (Z.ltb_spec page_no 3) as [Hp | Hp]; [|discriminate].
    cbn [andb].
    match goal with
    | |- (if ?b then _ else _) = _ -> _ => destruct b; [|discriminate]
    end.
    destruct (PlusworldPages.find_next_page urljoin next_candidates)
      as [[|c s]|] eqn:F; try discriminate.
    intros [= <- <-]. split; [eapply find_next_page_on_site, F|].
    split; [reflexivity | lia].
Qed.

Lemma plusworld_listing_spec_witness :
  Forall (fun c => dated_card c = false)
    (PlusworldPages.cards (SamplePages.page None)).
Proof.
  eapply (proj1 (@plusworld_listing_spec Sample.urljoin Sample.E
                   Sample.threshold 2%Z (u8 "fintech")
                   (SamplePages.page None) [] _ eq_refl)).
Defined.

(** *** The search results of rb.py *)

Section Rb.
Variable urljoin : str -> str -> str.

Lemma add_link_spec acc u :
  NoDup acc ->
  NoDup (Rb.add_link acc u)
  /\ forall x, In x (Rb.add_link acc u) -> In x acc \/ u = Some x.
Proof.
  intros H. unfold Rb.add_link. destruct u as [[|c s]|]; auto.
  destruct (existsb (str_eqb (c :: s)) acc) eqn:X; [auto|].
  split.
  - apply NoDup_app; [exact H | repeat constructor; intros [] |].
    intros a Ha [<- | []]. apply existsb_str_eqb in Ha. congruence.
  - intros x Hx. apply in_app_or in Hx.
    destruct Hx as [Hx | [<- | []]]; auto.
Qed.

(** An element of a search result page passes the date filter. *)
Lemma dated_links_spec E th : forall items acc,
  NoDup acc ->
  NoDup (Rb.dated_links urljoin E th items acc)
  /\ forall x,
       In x (Rb.dated_links urljoin E th items acc) ->
       In x acc
       \/ exists item de d,
            In item items /\ Rb.date_element item = Some de
            /\ Rb.parse_russian_date E (strip de) = Some d
            /\ ge d th = true
            /\ Rb.clean_url urljoin
                 (por (Rb.title_href item) (Rb.other_href item)) = Some x.
Proof.
  induction items as [|item items IH]; intros acc Hacc;
    cbn [Rb.dated_links]; [auto|].
  assert (Hskip :
    NoDup (Rb.dated_links urljoin E th items acc)
    /\ forall x,
         In x (Rb.dated_links urljoin E th items acc) ->
         In x acc
         \/ exists item0 de d,
              In item0 (item :: items) /\ Rb.date_element item0 = Some de
              /\ Rb.parse_russian_date E (strip de) = Some d
              /\ ge d th = true
              /\ Rb.clean_url urljoin
                   (por (Rb.title_href item0) (Rb.other_href item0))
                 = Some x).
  { destruct (IH acc Hacc) as [N I]. split; [exact N|]. intros x Hx.
    destruct (I x Hx) as [H | (item0 & de & d & Hin & H)]; [auto|].
    right. exists item0, de, d. split; [right; exact Hin | exact H]. }
  destruct (Rb.date_element item) as [[|c de]|] eqn:D; try exact Hskip.
  destruct (Rb.parse_russian_date E (strip (c :: de))) as [d|] eqn:P;
    cbn [Rb.date_in_range]; [|exact Hskip].
  destruct (ge d th) eqn:G; [|exact Hskip].
  destruct (truthy (por (Rb.title_href item) (Rb.other_href item)));
    [|exact Hskip].
  destruct (@add_link_spec acc
              (Rb.clean_url urljoin
                 (por (Rb.title_href item) (Rb.other_href item))) Hacc)
    as [N1 I1].
  destruct (IH _ N1) as [N I]. split; [exact N|]. intros x Hx.
  destruct (I x Hx) as [H | (item0 & de0 & d0 & Hin & H)].
  - destruct (I1 x H) as [H1 | H1]; [auto|].
    right. exists item, (c :: de), d. split; [left; reflexivity|]. auto.
  - right. exists item0, de0, d0. split; [right; exact Hin | exact H].
Qed.

Lemma all_links_spec : forall title_links acc,
  NoDup acc ->
  NoDup (Rb.all_links urljoin title_links acc)
  /\ forall x,
       In x (Rb.all_links urljoin title_links acc) ->
       In x acc
       \/ exists h, In h title_links /\ Rb.clean_url urljoin h = Some x.
Proof.
  induction title_links as [|h hs IH]; intros acc Hacc;
    cbn [Rb.all_links]; [auto|].
  assert (Hnext : forall acc',
             NoDup acc' ->
             (forall x, In x acc' ->
                        In x acc \/ Rb.clean_url urljoin h = Some x) ->
             NoDup (Rb.all_links urljoin hs acc')
             /\ forall x,
                  In x (Rb.all_links urljoin hs acc') ->
                  In x acc
                  \/ exists h0,
                       In h0 (h :: hs) /\ Rb.clean_url urljoin h0 = Some x).
  { intros acc' N' I'. destruct (IH acc' N') as [N I]. split; [exact N|].
    intros x Hx. destruct (I x Hx) as [H | (h0 & Hin & H)].
    - destruct (I' x H) as [H1 | H1]; [auto|].
      right. exists h. split; [left; reflexivity | exact H1].
    - right. exists h0. split; [right; exact Hin | exact H]. }
  destruct (truthy h).
  - destruct (@add_link_spec acc (Rb.clean_url urljoin h) Hacc) as [N1 I1].
    apply Hnext; [exact N1 | exact I1].
  - apply Hnext; [exact Hacc | auto].
Qed.
End Rb.

(** The handler of the search results of rb.py requests at most fifteen
    articles, no address twice, each an address of the site, with the
    search term and without title or date.  An address comes from an
    element whose date is known and not before the threshold; only when
    no element gave an address, the addresses come from the title links
    of the page, whatever their dates. *)
Theorem rb_search_results_spec
        (urljoin : str -> str -> str) (E : interp) (threshold : datetime)
        (search_term : str) (article_items : list Rb.news_item)
        (title_links : list (option str)) :
  let requests :=
    Rb.parse_search_results urljoin E threshold search_term article_items
      title_links in
  length requests <= 15
  /\ NoDup (map r_url requests)
  /\ forall r,
       In r requests ->
       on_site RbPages.site (r_url r)
       /\ r_search_term r = Some search_term
       /\ r_title r = None /\ r_article_date r = None
       /\ ((exists item de d,
               In item article_items /\ Rb.date_element item = Some de
               /\ Rb.parse_russian_date E (strip de) = Some d
               /\ ge d threshold = true
               /\ Rb.clean_url urljoin
                    (por (Rb.title_href item) (Rb.other_href item))
                  = Some (r_url r))
           \/ (Rb.dated_links urljoin E threshold article_items [] = []
               /\ exists h,
                    In h title_links
                    /\ Rb.clean_url urljoin h = Some (r_url r))).
Proof.
  intros requests. unfold requests, Rb.parse_search_results.
  set (links := match Rb.dated_links urljoin E threshold article_items [] with
                | [] => Rb.all_links urljoin title_links []
                | _ :: _ => Rb.dated_links urljoin E threshold article_items []
                end).
  assert (Hlinks :
    NoDup links
    /\ forall x,
         In x links ->
         (exists item de d,
             In item article_items /\ Rb.date_element item = Some de
             /\ Rb.parse_russian_date E (strip de) = Some d
             /\ ge d threshold = true
             /\ Rb.clean_url urljoin
                  (por (Rb.title_href item) (Rb.other_href item)) = Some x)
         \/ (Rb.dated_links urljoin E threshold article_items [] = []
             /\ exists h,
                  In h title_links /\ Rb.clean_url urljoin h = Some x)).
  { destruct (@dated_links_spec urljoin E threshold article_items []
                (NoDup_nil _)) as [N1 I1].
    destruct (@all_links_spec urljoin title_links [] (NoDup_nil _))
      as [N2 I2].
    unfold links.
    destruct (Rb.dated_links urljoin E threshold article_items [])
      as [|u us] eqn:D.
    - split; [exact N2|]. intros x Hx.
      destruct (I2 x Hx) as [[] | H]. right. split; [reflexivity | exact H].
    - split; [exact N1|]. intros x Hx.
      destruct (I1 x Hx) as [[] | H]. left. exact H. }
  destruct Hlinks as [N I].
  split; [rewrite length_map; apply firstn_le_length|]. split.
  - rewrite map_map. cbn [r_url]. rewrite map_id. apply NoDup_firstn, N.
  - intros r Hr. apply in_map_iff in Hr. destruct Hr as (x & <- & Hx).
    cbn [r_url r_search_term r_title r_article_date].
    apply In_firstn in Hx. specialize (I x Hx).
    split; [|split; [reflexivity|split; [reflexivity|split;
      [reflexivity | exact I]]]].
    destruct I as [(item & _ & _ & _ & _ & _ & _ & H) | (_ & h & _ & H)];
      eapply (@clean_url_on_site urljoin RbPages.site), H.
Qed.

Lemma rb_search_results_spec_witness :
  on_site RbPages.site (u8 "https://rb.ru/news/b").
Proof.
  apply (proj2 (proj2 (@rb_search_results_spec Sample.urljoin Sample.E
           Sample.threshold (u8 "банк") [SamplePages.news_item] []))
           {| r_url := u8 "https://rb.ru/news/b"; r_title := None;
              r_article_date := None;
              r_search_term := Some (u8 "банк") |}).
  left. reflexivity.
Defined.

End Listings.

(** ** Date texts: numeric dates, texts without digits, clean texts *)

Module DateTexts.
Import Py Re Datetime Scrapy Spec PageSpec.
Import PyFacts ReFacts PatternFacts DatetimeFacts ParserFacts Cleaning.
Import Dispatch StringFacts.
Import Bankinform.
Local Open Scope py_scope.

(** *** Numeric dates *)

Lemma m_cls ic R cs r2 c rest caps (k : str -> list str -> option R) x :
  cls_match ic cs c = true ->
  m ic r2 rest caps k = Some x ->
  m ic (RCat (RCls cs) r2) (c :: rest) caps k = Some x.
Proof. intros Hc Hk. cbn [m]. rewrite Hc. exact Hk. Qed.

Lemma digits_cls w :
  digits w -> Forall (fun c => cls_match false [CDigit] c = true) w.
Proof.
  intros H. eapply Forall_impl; [|exact H]. intros c Hc.
  rewrite digit_cls. exact Hc.
Qed.

Lemma one_or_two (w : str) :
  length w = 1 \/ length w = 2 -> within (length w) 1 (Some 2) /\ w <> [].
Proof.
  intros H. split; [split; lia|]. intros ->. simpl in H. lia.
Qed.

Lemma no_digit_skip r pre s :
  no_digit pre ->
  (forall c s', isdigit c = false -> match_here false r (c :: s') = None) ->
  search_from false r (pre ++ s) = search_from false r s.
Proof.
  intros Hpre Hr. apply search_from_skip.
  eapply Forall_impl; [|exact Hpre]. intros c Hc s'. apply Hr, Hc.
Qed.

(** The pattern of the dates with dots on a text of the shape day,
    month, year. *)
Lemma pattern1_match pre d mo y post :
  no_digit pre ->
  digits d -> (length d = 1 \/ length d = 2) ->
  digits mo -> (length mo = 1 \/ length mo = 2) ->
  digits y -> length y = 4 ->
  search_from false pattern1
    (pre ++ d ++ u8 "." ++ mo ++ u8 "." ++ y ++ post)
  = Some {| whole := d ++ u8 "." ++ mo ++ u8 "." ++ y;
            groups := [d; mo; y] |}.
Proof.
  intros Hpre Hd Hdl Hm Hml Hy Hyl.
  destruct (one_or_two _ Hdl) as [Wd Nd].
  destruct (one_or_two _ Hml) as [Wm Nm].
  rewrite no_digit_skip; [|exact Hpre|].
  2:{ intros c s' Hc. apply starts_with_group. rewrite digit_cls. exact Hc. }
  apply search_from_here.
  unfold match_here, pattern1, cat, d12, d4, ch. cbn [app u8].
  change (u8 "." ++ mo ++ u8 "." ++ y ++ post)
    with (chr "." :: mo ++ chr "." :: y ++ post).
  apply m_group_rep; [apply digits_cls, Hd | exact Wd | right; reflexivity|].
  apply m_cls; [reflexivity|].
  apply m_group_rep; [apply digits_cls, Hm | exact Wm | right; reflexivity|].
  apply m_cls; [reflexivity|].
  apply m_last_group_rep; [apply digits_cls, Hy | split; simpl; lia
                          | left; rewrite Hyl; reflexivity|].
  cbn [app]. do 2 f_equal.
  change (chr "." :: mo ++ chr "." :: y ++ post)
    with (u8 "." ++ mo ++ u8 "." ++ y ++ post).
  replace (d ++ u8 "." ++ mo ++ u8 "." ++ y ++ post)
    with ((d ++ u8 "." ++ mo ++ u8 "." ++ y) ++ post)
    by (rewrite <- !app_assoc; reflexivity).
  apply firstn_app_rest.
Qed.

(** The pattern of the ISO dates on a text of the shape year, month,
    day. *)
Lemma pattern2_match pre y mo d post :
  no_digit pre ->
  digits y -> length y = 4 ->
  digits mo -> (length mo = 1 \/ length mo = 2) ->
  digits d -> (length d = 1 \/ length d = 2) ->
  (length d = 2 \/ ends_number post) ->
  search_from false pattern2
    (pre ++ y ++ u8 "-" ++ mo ++ u8 "-" ++ d ++ post)
  = Some {| whole := y ++ u8 "-" ++ mo ++ u8 "-" ++ d;
            groups := [y; mo; d] |}.
Proof.
  intros Hpre Hy Hyl Hm Hml Hd Hdl Hend.
  destruct (one_or_two _ Hdl) as [Wd Nd].
  destruct (one_or_two _ Hml) as [Wm Nm].
  rewrite no_digit_skip; [|exact Hpre|].
  2:{ intros c s' Hc. apply starts_with_group. rewrite digit_cls. exact Hc. }
  apply search_from_here.
  unfold match_here, pattern2, cat, d12, d4, ch. cbn [app u8].
  change (u8 "-" ++ mo ++ u8 "-" ++ d ++ post)
    with (chr "-" :: mo ++ chr "-" :: d ++ post).
  apply m_group_rep; [apply digits_cls, Hy | split; simpl; lia
                     | left; rewrite Hyl; reflexivity|].
  apply m_cls; [reflexivity|].
  apply m_group_rep; [apply digits_cls, Hm | exact Wm | right; reflexivity|].
  apply m_cls; [reflexivity|].
  apply m_last_group_rep; [apply digits_cls, Hd | exact Wd | |].
  - destruct Hend as [-> | He]; [left; reflexivity|]. right.
    destruct post as [|c post]; [exact I|]. rewrite digit_cls. exact He.
  - cbn [app]. do 2 f_equal.
    change (chr "-" :: mo ++ chr "-" :: d ++ post)
      with (u8 "-" ++ mo ++ u8 "-" ++ d ++ post).
    replace (y ++ u8 "-" ++ mo ++ u8 "-" ++ d ++ post)
      with ((y ++ u8 "-" ++ mo ++ u8 "-" ++ d) ++ post)
      by (rewrite <- !app_assoc; reflexivity).
    apply firstn_app_rest.
Qed.

(** A text without a dot has no date with dots. *)
Lemma pattern1_needs_dot s :
  ~ In (chr ".") s -> search_from false pattern1 s = None.
Proof.
  intros H. apply search_from_none. intros (pre & w & post & -> & M).
  apply H. apply in_or_app. right. apply in_or_app. left.
  unfold pattern1, cat, ch in M.
  inversion M as [| | |? ? w1 w2 M1 M2| | |]; subst.
  inversion M2 as [| | |? ? w3 w4 M3 M4| | |]; subst.
  inversion M3 as [|? c Hc| | | | |]; subst.
  apply in_or_app. right. left.
  unfold cls_match in Hc. cbn [existsb citem_match] in Hc.
  rewrite orb_false_r in Hc. apply N.eqb_eq in Hc. exact Hc.
Qed.

(** [parse_standard_date] of bankinform.py, on a text that has, after a
    stretch without digits, a date of the shape [D.M.YYYY] with one or two
    digits for the day and for the month, returns that date when it
    exists; on a text without a dot that has a date of the shape
    [YYYY-M-D], the day having two digits or being followed by no further
    digit, it returns that date when it exists. *)
Theorem parse_standard_date_correct
        (E : interp) (pre d mo y post : str) :
  no_digit pre ->
  digits d -> (length d = 1 \/ length d = 2) ->
  digits mo -> (length mo = 1 \/ length mo = 2) ->
  digits y -> length y = 4 ->
  valid_date (number y) (number mo) (number d) ->
  parse_standard_date E (pre ++ d ++ u8 "." ++ mo ++ u8 "." ++ y ++ post)
  = Some (midnight (number y) (number mo) (number d))
  /\ (~ In (chr ".") pre -> ~ In (chr ".") post ->
      (length d = 2 \/ ends_number post) ->
      parse_standard_date E (pre ++ y ++ u8 "-" ++ mo ++ u8 "-" ++ d ++ post)
      = Some (midnight (number y) (number mo) (number d))).
Proof.
  intros Hpre Hd Hdl Hm Hml Hy Hyl Hv.
  apply check_date_fields_spec in Hv. split.
  - unfold parse_standard_date.
    rewrite (@parse_standard_date_body_match1 E _ _
               (@pattern1_match pre d mo y post Hpre Hd Hdl Hm Hml Hy Hyl)).
    cbn [group groups nth].
    rewrite (datetime_new_valid _ _ _ Hv). reflexivity.
  - intros Dpre Dpost Hend. unfold parse_standard_date.
    assert (Hdot : forall w, digits w -> ~ In (chr ".") w).
    { intros w Hw C. unfold digits in Hw. rewrite Forall_forall in Hw.
      specialize (Hw _ C). vm_compute in Hw. discriminate. }
    assert (Hdash : ~ In (chr ".") (u8 "-")).
    { vm_compute. intros [C | []]. discriminate. }
    assert (Hno : ~ In (chr ".")
                    (pre ++ y ++ u8 "-" ++ mo ++ u8 "-" ++ d ++ post)).
    { rewrite !in_app_iff.
      intros [C | [C | [C | [C | [C | [C | C]]]]]];
        [exact (Dpre C) | exact (Hdot y Hy C) | exact (Hdash C)
        | exact (Hdot mo Hm C) | exact (Hdash C) | exact (Hdot d Hd C)
        | exact (Dpost C)]. }
    rewrite (@parse_standard_date_body_match2 E _ _
               (pattern1_needs_dot _ Hno)
               (@pattern2_match pre y mo d post Hpre Hy Hyl Hm Hml Hd Hdl
                  Hend)).
    cbn [group groups nth].
    rewrite (datetime_new_valid _ _ _ Hv). reflexivity.
Qed.

Lemma parse_standard_date_correct_witness :
  parse_standard_date Sample.E (u8 "27.10.2025")
  = Some (midnight 2025 10 27)
  /\ parse_standard_date Sample.E (u8 "2025-10-27")
     = Some (midnight 2025 10 27).
Proof.
  destruct (@parse_standard_date_correct Sample.E
              [] (u8 "27") (u8 "10") (u8 "2025") []
              ltac:(constructor) ltac:(repeat constructor)
              ltac:(right; reflexivity) ltac:(repeat constructor)
              ltac:(right; reflexivity) ltac:(repeat constructor)
              ltac:(reflexivity)
              ltac:(apply check_date_fields_spec; vm_compute; reflexivity))
    as [H1 H2].
  split; [exact H1|].
  apply H2; [intros [] | intros [] | left; reflexivity].
Defined.

(** *** Texts without digits *)

Lemma pattern_needs_digit ic lo hi r2 w :
  Matches ic (RCat (RRep [CDigit] (S lo) hi) r2) w ->
  exists c, In c w /\ isdigit c = true.
Proof.
  intros M. inversion M as [| | |? ? w1 w2 M1 M2| | |]; subst.
  inversion M1 as [| |? ? ? ? Hf Hw| | | |]; subst.
  destruct w1 as [|c w1]; [destruct Hw; simpl in *; lia|].
  inversion Hf; subst. exists c. split; [left; reflexivity|].
  rewrite <- (digit_cls ic). assumption.
Qed.

Lemma date_patterns_need_digit t :
  found_any date_patterns t = true -> exists c, In c t /\ isdigit c = true.
Proof.
  intros H. apply found_any_Exists in H. unfold date_patterns in H.
  assert (Hp : forall lo hi r2,
             Found true (RCat (RRep [CDigit] (S lo) hi) r2) t ->
             exists c, In c t /\ isdigit c = true).
  { intros lo hi r2 (pre & w & post & -> & M).
    destruct (pattern_needs_digit M) as (c & Hc & Hd). exists c.
    split; [|exact Hd]. apply in_or_app. right. apply in_or_app. auto. }
  repeat match goal with
    | H : Exists _ (_ :: _) |- _ =>
        inversion H; clear H; subst; [eapply Hp; eassumption|]
    | H : Exists _ [] |- _ => inversion H
    end.
Qed.

Lemma sanitized_In c raw : In c (sanitized raw) -> In c raw \/ c = 32%N.
Proof.
  unfold sanitized. intros H. apply sub_from_In in H.
  destruct H as [H | [<- | []]]; [|auto]. left.
  apply sub_from_In in H. destruct H as [H | []].
  apply strip_In, H.
Qed.

(** A date text without a digit is no date for bankinform.py: the
    validator rejects it and [parse_date_text] returns no date, so the
    entry counts as recent. *)
Theorem no_digit_no_date (E : interp) (raw : str) (threshold : datetime) :
  no_digit raw ->
  clean_date_text (Some raw) = Ok None
  /\ parse_date_text E (Some raw) = Ok None
  /\ (forall d,
      parse_date_text E (Some raw) = Ok d -> is_recent d threshold = true).
Proof.
  intros H.
  assert (Hc : clean_date_text (Some raw) = Ok None).
  { destruct raw as [|c s]; [reflexivity|]. rewrite clean_date_text_eq.
    destruct (found_any date_patterns (sanitized (c :: s))) eqn:F;
      [|reflexivity].
    destruct (date_patterns_need_digit _ F) as (x & Hx & Hd).
    apply sanitized_In in Hx. destruct Hx as [Hx | ->]; [|discriminate].
    unfold no_digit in H. rewrite Forall_forall in H.
    rewrite (H x Hx) in Hd. discriminate. }
  assert (Hp : parse_date_text E (Some raw) = Ok None).
  { rewrite parse_date_text_eq, Hc. reflexivity. }
  split; [exact Hc|]. split; [exact Hp|].
  intros d Hd. rewrite Hp in Hd. injection Hd as <-. reflexivity.
Qed.

Lemma no_digit_no_date_witness :
  parse_date_text Sample.E (Some (u8 "вчера")) = Ok None.
Proof.
  apply (@no_digit_no_date Sample.E (u8 "вчера") Sample.threshold).
  repeat constructor.
Defined.

(** *** Texts without icons *)

Lemma space_run_snoc c : forall s,
  isspace c = false -> space_run (s ++ [c]) = space_run s.
Proof.
  intros s Hc. induction s as [|x s IH]; simpl; [rewrite Hc; reflexivity|].
  destruct (isspace x); [rewrite IH|]; reflexivity.
Qed.

Lemma space_run_length : forall s, space_run s <= length s.
Proof.
  induction s as [|x s IH]; simpl; [lia|]. destruct (isspace x); simpl; lia.
Qed.

(** [re.sub(r'\s+', ' ', ...)] keeps a last character that is no white
    space. *)
Lemma sub_ws_snoc c :
  isspace c = false ->
  forall s skip,
    skip <= space_run s ->
    sub_from false ws (u8 " ") skip (s ++ [c])
    = sub_from false ws (u8 " ") skip s ++ [c].
Proof.
  intros Hc. induction s as [|x s IH]; intros skip Hs.
  - simpl in Hs. assert (skip = 0) as -> by lia. cbn [app sub_from].
    rewrite (@match_here_ws_none c [] Hc). reflexivity.
  - cbn [app sub_from]. cbn [space_run] in Hs. destruct skip as [|n].
    + destruct (isspace x) eqn:Hx.
      * destruct (@match_here_ws x (s ++ [c]) Hx) as (mt & -> & ->).
        destruct (@match_here_ws x s Hx) as (mt' & -> & ->).
        rewrite (@space_run_snoc c s Hc), IH by lia.
        rewrite app_assoc. reflexivity.
      * rewrite (@match_here_ws_none x (s ++ [c]) Hx).
        rewrite (@match_here_ws_none x s Hx).
        rewrite IH by lia. reflexivity.
    + destruct (isspace x); [|lia]. apply IH. lia.
Qed.

Lemma sub_ws_trimmed t :
  trimmed t -> trimmed (sub_from false ws (u8 " ") 0 t).
Proof.
  intros [H1 H2]. destruct t as [|c t]; [split; exact I|]. split.
  - cbn [sub_from]. rewrite (@match_here_ws_none c t H1). exact H1.
  - destruct (rev (c :: t)) as [|z r] eqn:R.
    + apply (f_equal (@length N)) in R. rewrite length_rev in R.
      discriminate.
    + assert (Ht : c :: t = rev r ++ [z]).
      { rewrite <- (rev_involutive (c :: t)), R. reflexivity. }
      rewrite Ht, (@sub_ws_snoc z H2 (rev r) 0 ltac:(lia)).
      rewrite rev_app_distr. exact H2.
Qed.

(** The first statements of [clean_date_text] on a text without icons:
    the cleaned text is trimmed, and its only white space is single
    ASCII spaces; cleaning it again changes nothing. *)
Theorem sanitize_without_icons (raw : str) :
  Forall (fun c => is_icon c = false) raw ->
  sanitize raw = Ok (sanitized raw)
  /\ trimmed (sanitized raw)
  /\ well_spaced false (sanitized raw) = true
  /\ sanitize (sanitized raw) = Ok (sanitized raw).
Proof.
  intros H.
  assert (Hfilter : forall s,
             Forall (fun c => is_icon c = false) s ->
             sub_from false icons [] 0 s = s).
  { intros s Hs. unfold icons. rewrite sub_cls_filter.
    induction Hs as [|c s Hc _ IH]; [reflexivity|]. cbn [filter].
    rewrite icons_cls, Hc. cbn [negb]. rewrite IH. reflexivity. }
  assert (Hstrip : Forall (fun c => is_icon c = false) (strip raw)).
  { apply Forall_forall. intros c Hc. rewrite Forall_forall in H.
    apply H, strip_In, Hc. }
  assert (Heq : sanitized raw
                = sub_from false ws (u8 " ") 0 (strip raw)).
  { unfold sanitized. rewrite (Hfilter _ Hstrip). reflexivity. }
  assert (T : trimmed (sanitized raw)).
  { rewrite Heq. apply sub_ws_trimmed, strip_trimmed. }
  assert (W : well_spaced false (sanitized raw) = true).
  { rewrite Heq. apply sub_ws_well_spaced. }
  split; [apply sanitize_ok|]. split; [exact T|]. split; [exact W|].
  rewrite sanitize_ok. f_equal. unfold sanitized at 1.
  rewrite (strip_id T).
  assert (Hi : Forall (fun c => is_icon c = false) (sanitized raw)).
  { apply sanitized_clean. }
  rewrite (Hfilter _ Hi). apply (@sub_ws_id _ _ W).
Qed.

Lemma sanitize_without_icons_witness :
  trimmed (sanitized (u8 " 27  октября 2025 ")).
Proof.
  refine (proj1 (proj2 (@sanitize_without_icons (u8 " 27  октября 2025 ") _))).
  apply Forall_forall. intros c Hc.
  assert (F : forallb (fun c => negb (is_icon c)) (u8 " 27  октября 2025 ")
              = true) by (vm_compute; reflexivity).
  rewrite forallb_forall in F. apply negb_true_iff, F, Hc.
Defined.

End DateTexts.

(** ** The articles of rb.py and the results of mckinseyy.py *)

Module Articles.
Import Py Re Datetime Scrapy Spec Pages PageSpec.
Import PyFacts ReFacts PatternFacts DatetimeFacts ParserFacts Records.
Import StringFacts PageFacts.
Local Open Scope py_scope.

(** The date of an article of rb.py, from the page to the record: when
    the trimmed text of the date element has, after a stretch without
    digits, a day, a month name of the mapping and a year that make a
    date, the record has that date in the form [YYYY-MM-DDT00:00:00];
    when the page has no date element, the record has no date. *)
Theorem rb_article_date
        (lower : str -> str) (E : interp) (search_term : str) (r : response)
        (de pre d ws1 mon ws2 y post : str) (mo : Z) :
  css_get r "time.news-item__date::text, .news-item__date::text, time::text"
  = Some de ->
  strip de = pre ++ d ++ ws1 ++ mon ++ ws2 ++ y ++ post ->
  no_digit pre ->
  digits d -> (length d = 1 \/ length d = 2) ->
  spaces ws1 -> ws1 <> [] ->
  spaces ws2 -> ws2 <> [] ->
  digits y -> length y = 4 ->
  Bankinform.dict_get Rb.month_mapping mon = Some mo ->
  valid_date (number y) mo (number d) ->
  exists it Y M D,
    RbPages.parse_article lower E search_term r = Ok it
    /\ get it "article_date"
       = Some (VStr (Y ++ u8 "-" ++ M ++ u8 "-" ++ D ++ u8 "T00:00:00"))
    /\ length Y = 4 /\ length M = 2 /\ length D = 2
    /\ digits Y /\ digits M /\ digits D
    /\ number Y = number y /\ number M = mo /\ number D = number d.
Proof.
  intros Hcss Hstrip Hpre Hd Hdl Hw1 Hw1n Hw2 Hw2n Hy Hyl Hmo Hv.
  destruct (@extract_description_cases lower RbPages.unwanted_patterns
              RbPages.content_selectors r) as (desc & Hdesc & _).
  destruct (isoformat_date Hv)
    as (Y & M & D & Hiso & LY & LM & LD & DY & DM & DD & NY & NM & ND).
  assert (Hne : de <> []).
  { intros ->. destruct pre; [|discriminate]. destruct d; [|discriminate].
    simpl in Hdl. lia. }
  assert (Hparse : Rb.parse_russian_date E (strip de)
                   = Some (midnight (number y) mo (number d))).
  { change (Rb.parse_russian_date E (strip de))
      with (Bankinform.parse_russian_date E (strip de)).
    change Rb.month_mapping with Bankinform.month_mapping in Hmo.
    destruct (month_mapping_inv _ Hmo) as (Hc & Hn & _).
    unfold Bankinform.parse_russian_date. rewrite Hstrip.
    rewrite (@parse_russian_date_body_match E _ _
               (@russian_pattern_match pre d ws1 mon ws2 y post
                  Hpre Hd Hdl Hw1 Hw1n Hc Hn Hw2 Hw2n Hy Hyl)).
    cbn [group groups nth]. rewrite Hmo.
    apply check_date_fields_spec in Hv.
    rewrite (datetime_new_valid _ _ _ Hv). reflexivity. }
  unfold RbPages.parse_article, RbPages.extract_first_paragraph.
  rewrite Hdesc, Hcss. cbv beta iota delta [bind]. cbv zeta.
  destruct de as [|c0 de0]; [congruence|]. cbn [truthy or_empty].
  rewrite Hparse. eexists. exists Y, M, D. split; [reflexivity|].
  split; [rewrite <- Hiso; reflexivity|].
  repeat split; assumption.
Qed.

Lemma rb_article_date_witness :
  exists it Y M D,
    RbPages.parse_article Py.lower Sample.E (u8 "банк")
      SamplePages.dated_page = Ok it
    /\ get it "article_date"
       = Some (VStr (Y ++ u8 "-" ++ M ++ u8 "-" ++ D ++ u8 "T00:00:00"))
    /\ length Y = 4 /\ length M = 2 /\ length D = 2
    /\ digits Y /\ digits M /\ digits D
    /\ number Y = 2025%Z /\ number M = 11%Z /\ number D = 3%Z.
Proof.
  refine (@rb_article_date Py.lower Sample.E (u8 "банк")
            SamplePages.dated_page (u8 " 3 ноября 2025 ")
            [] (u8 "3") (u8 " ") (u8 "ноября") (u8 " ") (u8 "2025") [] 11%Z
            ltac:(reflexivity) ltac:(vm_compute; reflexivity)
            ltac:(constructor) ltac:(repeat constructor)
            ltac:(left; reflexivity)
            ltac:(repeat constructor) ltac:(discriminate)
            ltac:(repeat constructor) ltac:(discriminate)
            ltac:(repeat constructor) ltac:(reflexivity)
            ltac:(vm_compute; reflexivity) _).
  apply check_date_fields_spec. vm_compute. reflexivity.
Defined.



(** *** mckinseyy.py *)

Lemma or_empty_Some x : or_empty (Some x) = x.
Proof. destruct x; reflexivity. Qed.

Section Mckinsey.
Variable urljoin : str -> str.

(** A record of mckinseyy.py: the three fields, the title trimmed, the
    address absolute or made by [urljoin]. *)
Lemma results_spec : forall items it,
  In it (MckinseyPages.results urljoin items) ->
  keys it = ["title"; "url"; "description"]%string
  /\ exists t u d,
       get it "title" = Some (VStr t) /\ trimmed t
       /\ get it "url" = Some (VStr u) /\ u <> []
       /\ (startswith (u8 "http") u = true \/ exists rel, u = urljoin rel)
       /\ get it "description" = Some (VStr d) /\ trimmed d.
Proof.
  induction items as [|e items IH]; intros it; [intros []|].
  cbn [MckinseyPages.results]. cbv zeta.
  set (url := if truthy (MckinseyPages.e_url e)
                 && negb (startswith (u8 "http")
                            (or_empty (MckinseyPages.e_url e)))
              then Some (urljoin (or_empty (MckinseyPages.e_url e)))
              else MckinseyPages.e_url e).
  destruct (truthy (MckinseyPages.e_title e) && truthy url) eqn:Q;
    [|apply IH].
  intros [<- | H]; [|apply IH, H]. split; [reflexivity|].
  apply andb_true_iff in Q. destruct Q as [_ Qu].
  exists (strip (or_empty (MckinseyPages.e_title e))), (or_empty url),
    (strip (or_empty (MckinseyPages.e_description e))).
  split; [reflexivity|]. split; [apply strip_trimmed|].
  split; [reflexivity|]. split.
  { destruct url as [[|c u]|]; try discriminate Qu. discriminate. }
  split; [|split; [reflexivity | apply strip_trimmed]].
  unfold url in *.
  destruct (truthy (MckinseyPages.e_url e)) eqn:T; cbn [andb] in *;
    [|congruence].
  destruct (startswith (u8 "http") (or_empty (MckinseyPages.e_url e)))
    eqn:S; cbn [negb] in *.
  - left. exact S.
  - right. exists (or_empty (MckinseyPages.e_url e)).
    apply or_empty_Some.
Qed.

Lemma alternatives_spec : forall entries it,
  In it (MckinseyPages.alternatives urljoin entries) ->
  keys it = ["title"; "url"; "description"]%string
  /\ exists t u d,
       get it "title" = Some (VStr t) /\ trimmed t
       /\ get it "url" = Some (VStr u)
       /\ (startswith (u8 "http") u = true \/ exists rel, u = urljoin rel)
       /\ get it "description" = Some (VStr d) /\ length d <= 100.
Proof.
  induction entries as [|e entries IH]; intros it; [intros []|].
  cbn [MckinseyPages.alternatives]. cbv zeta.
  destruct (truthy (MckinseyPages.e_title e)
            && truthy (MckinseyPages.e_url e)) eqn:Q; [|apply IH].
  intros [<- | H]; [|apply IH, H]. split; [reflexivity|].
  apply andb_true_iff in Q. destruct Q as [_ Qu]. rewrite Qu. cbn [andb].
  exists (strip (or_empty (MckinseyPages.e_title e))),
    (if negb (startswith (u8 "http") (or_empty (MckinseyPages.e_url e)))
     then urljoin (or_empty (MckinseyPages.e_url e))
     else or_empty (MckinseyPages.e_url e)),
    (firstn 100 (strip (or_empty (MckinseyPages.e_description e)))).
  split; [reflexivity|]. split; [apply strip_trimmed|].
  split; [reflexivity|]. split.
  - destruct (startswith (u8 "http") (or_empty (MckinseyPages.e_url e)))
      eqn:S; cbn [negb].
    + left. exact S.
    + right. eexists. reflexivity.
  - split; [reflexivity | apply firstn_le_length].
Qed.

Lemma results_length : forall items,
  length (MckinseyPages.results urljoin items) <= length items.
Proof.
  induction items as [|e items IH]; [simpl; lia|].
  cbn [MckinseyPages.results]. cbv zeta.
  destruct (truthy (MckinseyPages.e_title e) && _); simpl; lia.
Qed.

Lemma alternatives_length : forall entries,
  length (MckinseyPages.alternatives urljoin entries) <= length entries.
Proof.
  induction entries as [|e entries IH]; [simpl; lia|].
  cbn [MckinseyPages.alternatives]. cbv zeta.
  destruct (truthy (MckinseyPages.e_title e) && _); simpl; lia.
Qed.
End Mckinsey.



End Articles.

(** ** What the crawl never does *)

Module Crawl.
Import Py Re Datetime Scrapy Spec Pages PageSpec.
Import StringFacts PageFacts.
Local Open Scope py_scope.

(** The date functions of plusworld.py as stored.  The first pattern of
    the validator and the pattern of [parse_russian_date] have a
    character range whose ends are in the wrong order, so compiling them
    raises [re.error]: the validator and [parse_date_text] raise it on
    every text that is not empty, [parse_russian_date] catches it and
    returns no date for every text.  [parse_date_text] never returns a
    date. *)
Theorem plusworld_never_dates (E : interp) (date_text : option str) :
  (truthy date_text = false ->
   Plusworld.clean_date_text date_text = Ok None
   /\ Plusworld.parse_date_text E date_text = Ok None)
  /\ (truthy date_text = true ->
      Plusworld.clean_date_text date_text = Raise ReError
      /\ Plusworld.parse_date_text E date_text = Raise ReError)
  /\ (forall d, Plusworld.parse_date_text E date_text <> Ok (Some d))
  /\ (forall s, Plusworld.parse_russian_date E s = None)
  /\ (forall s pattern rest,
      Plusworld.date_patterns = pattern :: rest ->
      valid pattern = false /\ search true pattern s = Raise ReError).
Proof.
  split; [|split; [|split; [|split]]].
  - destruct date_text as [[|c s]|]; try discriminate; split; reflexivity.
  - destruct date_text as [[|c s]|]; try discriminate. split; reflexivity.
  - intros d. destruct date_text as [[|c s]|]; discriminate.
  - intros s. reflexivity.
  - intros s pattern rest [= <- _]. split; reflexivity.
Qed.

Lemma plusworld_never_dates_witness :
  Plusworld.clean_date_text (Some (u8 "27.10.2025")) = Raise ReError
  /\ Plusworld.parse_date_text Sample.E (Some (u8 "27.10.2025"))
     = Raise ReError.
Proof.
  apply (proj1 (proj2 (@plusworld_never_dates Sample.E
                         (Some (u8 "27.10.2025"))))).
  reflexivity.
Defined.

(** The pagination of rb.py and of bankcnews.py.  rb.py follows the next
    page from pages 1 and 2 only, to an address of the site; bankcnews.py
    from page 1 only, to whatever [urljoin] makes of the link, on the
    site or not.  In both, the second link is used only when the first
    selector found none. *)
Theorem pagination_bounds
        (urljoin : str -> str -> str) (page : Z) (first second : option str) :
  (forall u p,
      RbPages.next_request urljoin page first second = Some (u, p) ->
      on_site RbPages.site u /\ p = (page + 1)%Z /\ (p <= 3)%Z
      /\ Rb.clean_url urljoin (if truthy first then first else second)
         = Some u)
  /\ ((3 <= page)%Z -> RbPages.next_request urljoin page first second = None)
  /\ (forall u p,
      BankcnewsPages.next_request urljoin page first second = Some (u, p) ->
      p = (page + 1)%Z /\ (p <= 2)%Z
      /\ exists rel,
           rel <> [] /\ (if truthy first then first else second) = Some rel
           /\ u = urljoin (u8 "https://www.cnews.ru") rel)
  /\ ((2 <= page)%Z ->
      BankcnewsPages.next_request urljoin page first second = None).
Proof.
  unfold RbPages.next_request, BankcnewsPages.next_request.
  split; [|split; [|split]].
  - intros u p. destruct (Z.ltb_spec page 3) as [Hp | Hp]; [|discriminate].
    cbv zeta. destruct (truthy first) eqn:F; cbn [negb].
    + rewrite F.
      destruct (Rb.clean_url urljoin first) as [[|c s]|] eqn:U;
        try discriminate.
      intros [= <- <-].
      split; [eapply (@clean_url_on_site urljoin RbPages.site), U|].
      split; [reflexivity|]. split; [lia | reflexivity].
    + destruct (truthy second); [|discriminate].
      destruct (Rb.clean_url urljoin second) as [[|c s]|] eqn:U;
        try discriminate.
      intros [= <- <-].
      split; [eapply (@clean_url_on_site urljoin RbPages.site), U|].
      split; [reflexivity|]. split; [lia | reflexivity].
  - intros Hp. destruct (Z.ltb_spec page 3); [lia | reflexivity].
  - intros u p. destruct (Z.ltb_spec page 2) as [Hp | Hp]; [|discriminate].
    cbv zeta. destruct (truthy first) eqn:F; cbn [negb].
    + rewrite F. intros [= <- <-].
      split; [reflexivity|]. split; [lia|].
      destruct first as [[|c s]|]; try discriminate.
      exists (c :: s). split; [discriminate|]. split; reflexivity.
    + destruct (truthy second) eqn:S; [|discriminate]. intros [= <- <-].
      split; [reflexivity|]. split; [lia|].
      destruct second as [[|c s]|]; try discriminate.
      exists (c :: s). split; [discriminate|]. split; reflexivity.
  - intros Hp. destruct (Z.ltb_spec page 2); [lia | reflexivity].
Qed.

Lemma pagination_bounds_witness :
  RbPages.next_request Sample.urljoin 3 (Some (u8 "/search/?page=4")) None
  = None.
Proof.
  apply (proj1 (proj2 (@pagination_bounds Sample.urljoin 3%Z
                         (Some (u8 "/search/?page=4")) None))).
  lia.
Defined.

End Crawl.
